(** * ValutaTrade Hub: portfolio ledger and rate updater

    A shallow embedding of [valutatrade_hub.core] (models, currencies,
    exceptions, usecases) and [valutatrade_hub.parser_service] (api_clients,
    updater), with the properties of the buy/sell ledger and of the rate
    update batch stated over it.

    Python values are modelled as follows.
    - [float] is IEEE binary64: Rocq's primitive [float], same rounding,
      same infinities, one NaN.
    - [str] is [string], the text in UTF-8: [==], [+], f-strings and
      [split] or [join] on an ASCII separator do on the bytes what they do on
      the characters.  What looks at the characters ([upper], [isalpha],
      [isupper], [strip], [len]) is the interpreter's and not the
      repository's: these are the [Builtins], a parameter of the development.
      A property that relies on a law of them names it as a hypothesis.
    - [dict] is an association list in insertion order with unique keys.
    - A raised exception is the [Raise] outcome of a computation; effects
      done before the [raise] stay done. *)

From Stdlib Require Import Floats ZArith List String Ascii Bool Lia.
From Stdlib Require Import DecimalString.
Import ListNotations.

Set Warnings "-inexact-float".

Local Open Scope list_scope.
Local Open Scope string_scope.

(* ================================================================= *)
(** ** Python primitives *)

Module Py.

(** [dict]: insertion-ordered, keys compared with [==]. *)
Definition dict (V : Type) : Type := list (string * V).

Fixpoint dict_get {V : Type} (k : string) (d : dict V) : option V :=
  match d with
  | [] => None
  | (k', v) :: d' => if String.eqb k' k then Some v else dict_get k d'
  end.

(** [k in d] *)
Definition dict_contains {V : Type} (k : string) (d : dict V) : bool :=
  match dict_get k d with Some _ => true | None => false end.

(** [d[k] = v]: an existing key keeps its position, a new one goes last. *)
Fixpoint dict_set {V : Type} (k : string) (v : V) (d : dict V) : dict V :=
  match d with
  | [] => [(k, v)]
  | (k', v') :: d' =>
      if String.eqb k' k then (k', v) :: d' else (k', v') :: dict_set k v d'
  end.

(** [d.update(other)] *)
Definition dict_update {V : Type} (d other : dict V) : dict V :=
  fold_left (fun acc kv => dict_set (fst kv) (snd kv) acc) other d.

Definition dict_keys {V : Type} (d : dict V) : list string := map fst d.

(** The well-formedness every Python dict has: no key twice. *)
Definition dict_wf {V : Type} (d : dict V) : Prop := NoDup (dict_keys d).

(** The builtins of the interpreter that look at the characters of a
    [str]: [s.upper()], [s.isalpha()], [s.isupper()], [s.strip()] and
    [len(s)]. *)
Class Builtins : Type := mk_Builtins
  { upper : string -> string;
    isalpha : string -> bool;
    isupper : string -> bool;
    strip : string -> string;
    len : string -> nat }.

(** [not s]: the empty string is false. *)
Definition falsy (s : string) : bool := String.eqb s EmptyString.

(** [s.split(sep)] for a one-character separator: every occurrence
    splits, so the result has one more element than [s] has separators. *)
Fixpoint split (sep : ascii) (s : string) : list string :=
  match s with
  | EmptyString => [EmptyString]
  | String c s' =>
      if Ascii.eqb c sep then EmptyString :: split sep s'
      else match split sep s' with
           | [] => [String c EmptyString]
           | p :: ps => String c p :: ps
           end
  end.

(** Truth value of a float: [0.0] and [-0.0] are false, NaN is true. *)
Definition truthy_float (x : float) : bool := negb (x =? 0)%float.

(** Truth value of an optional string: [None] and the empty string
    are false. *)
Definition truthy_str (s : option string) : bool :=
  match s with
  | None => false
  | Some EmptyString => false
  | Some _ => true
  end.

(** *** The builtins on ASCII text

    On text that is all ASCII the builtins are these functions of the
    bytes: the letters are A-Z and a-z, the white space is tab to carriage
    return, the four separators 28-31 and the blank, and the length is the
    number of bytes. *)

Definition is_upper_letter (c : ascii) : bool :=
  let n := nat_of_ascii c in (65 <=? n)%nat && (n <=? 90)%nat.

Definition is_lower_letter (c : ascii) : bool :=
  let n := nat_of_ascii c in (97 <=? n)%nat && (n <=? 122)%nat.

Definition is_space (c : ascii) : bool :=
  let n := nat_of_ascii c in
  ((9 <=? n)%nat && (n <=? 13)%nat) || ((28 <=? n)%nat && (n <=? 32)%nat).

Fixpoint all_chars (p : ascii -> bool) (s : string) : bool :=
  match s with
  | EmptyString => true
  | String c s' => p c && all_chars p s'
  end.

Fixpoint any_char (p : ascii -> bool) (s : string) : bool :=
  match s with
  | EmptyString => false
  | String c s' => p c || any_char p s'
  end.

(** Text that is all ASCII. *)
Definition is_ascii (s : string) : bool :=
  all_chars (fun c => (nat_of_ascii c <? 128)%nat) s.

Definition ascii_upper_char (c : ascii) : ascii :=
  if is_lower_letter c then ascii_of_nat (nat_of_ascii c - 32) else c.

Fixpoint ascii_upper (s : string) : string :=
  match s with
  | EmptyString => EmptyString
  | String c s' => String (ascii_upper_char c) (ascii_upper s')
  end.

(** Not empty, letters only. *)
Definition ascii_isalpha (s : string) : bool :=
  negb (falsy s)
  && all_chars (fun c => is_upper_letter c || is_lower_letter c) s.

(** Some cased character, none of them lower case. *)
Definition ascii_isupper (s : string) : bool :=
  any_char is_upper_letter s && negb (any_char is_lower_letter s).

Fixpoint ascii_lstrip (s : string) : string :=
  match s with
  | EmptyString => EmptyString
  | String c s' => if is_space c then ascii_lstrip s' else s
  end.

Fixpoint ascii_rstrip (s : string) : string :=
  match s with
  | EmptyString => EmptyString
  | String c s' =>
      match ascii_rstrip s' with
      | EmptyString => if is_space c then EmptyString else String c EmptyString
      | rest => String c rest
      end
  end.

Definition ascii_strip (s : string) : string := ascii_rstrip (ascii_lstrip s).

Definition ascii_builtins : Builtins :=
  {| upper := ascii_upper;
     isalpha := ascii_isalpha;
     isupper := ascii_isupper;
     strip := ascii_strip;
     len := String.length |}.

(** The law of ASCII text: on it, builtins are the functions above. *)
Definition ascii_faithful (B : Builtins) : Prop :=
  forall s : string,
    is_ascii s = true ->
    upper s = ascii_upper s
    /\ isalpha s = ascii_isalpha s
    /\ isupper s = ascii_isupper s
    /\ strip s = ascii_strip s
    /\ len s = String.length s.

End Py.
Import Py.

(* ================================================================= *)
(** ** core/exceptions.py, with the builtin exceptions the code raises *)

Module Exceptions.

Inductive exn : Type :=
| ValueError (msg : string)
| KeyError (key : string)
| AttributeError (msg : string)
| InsufficientFundsError (currency_code : string) (available required : float)
| CurrencyNotFoundError (currency_code : string)
| ApiRequestError (reason : string).

(** [str(e)] for the exceptions of exceptions.py. *)
Definition ApiRequestError_str (reason : string) : string :=
  "Ошибка обращения к API: " ++ reason.

Inductive result (A : Type) : Type :=
| Ok (a : A)
| Raise (e : exn).
Arguments Ok {A} a.
Arguments Raise {A} e.

Definition is_ValueError (e : exn) : bool :=
  match e with ValueError _ => true | _ => false end.

Definition is_InsufficientFunds (e : exn) : bool :=
  match e with InsufficientFundsError _ _ _ => true | _ => false end.

Definition is_CurrencyNotFound (e : exn) : bool :=
  match e with CurrencyNotFoundError _ => true | _ => false end.

End Exceptions.
Import Exceptions.

(* ================================================================= *)
(** ** The persisted documents and the process state

    [DataManager] (core/utils.py) is the JSON document store.  Its state is
    the content of [portfolios.json], a list of portfolio documents in the
    shape [Portfolio.to_dict] writes; the console is the list of printed
    lines. *)

Module Store.

(** [{"currency_code": ..., "balance": ...}] *)
Record wallet_data : Type := mk_wallet_data
  { wd_currency_code : string; wd_balance : float }.

(** [{"user_id": ..., "wallets": {code: wallet_data}}] *)
Record portfolio_data : Type := mk_portfolio_data
  { pd_user_id : Z; pd_wallets : dict wallet_data }.

Record World : Type := mk_World
  { portfolios_json : list portfolio_data;
    stdout : list string }.

(** Computations that read and write the world and may raise. *)
Definition IO (A : Type) : Type := World -> result A * World.

Definition ret {A : Type} (a : A) : IO A := fun w => (Ok a, w).

Definition raise {A : Type} (e : exn) : IO A := fun w => (Raise e, w).

Definition bind {A B : Type} (c : IO A) (k : A -> IO B) : IO B :=
  fun w =>
    match c w with
    | (Ok a, w') => k a w'
    | (Raise e, w') => (Raise e, w')
    end.

(** A computation without effects. *)
Definition lift {A : Type} (r : result A) : IO A := fun w => (r, w).

(** [print(line)] *)
Definition print (line : string) : IO unit :=
  fun w => (Ok tt, {| portfolios_json := portfolios_json w;
                      stdout := (stdout w ++ [line])%list |}).

(** Modelled from the spec: [DataManager.load_json("portfolios.json", [])]
    of core/utils.py, the store's load-with-default: the stored list, or
    the default [[]] when nothing was saved yet. *)
Definition load_portfolios : IO (list portfolio_data) :=
  fun w => (Ok (portfolios_json w), w).

(** Modelled from the spec: [DataManager.save_json("portfolios.json", data)]
    of core/utils.py, the store's whole-document save. *)
Definition save_portfolios (data : list portfolio_data) : IO unit :=
  fun w => (Ok tt, {| portfolios_json := data; stdout := stdout w |}).

End Store.
Import Store.

Declare Scope io_scope.
Delimit Scope io_scope with io.
Notation "x <- c ;; k" := (bind c (fun x => k))
  (at level 100, c at next level, right associativity) : io_scope.
Notation "c ;;; k" := (bind c (fun _ => k))
  (at level 100, right associativity) : io_scope.

(* ================================================================= *)
(** ** core/models.py: Wallet *)

Module Wallet.

Record t : Type := mk { currency_code : string; _balance : float }.

(** [Wallet.__init__]: both fields are assigned directly. *)
Definition __init__ (currency_code : string) (balance : float) : t :=
  {| currency_code := currency_code; _balance := balance |}.

(** The [balance] property. *)
Definition balance (self : t) : float := _balance self.

(** The [balance] setter.  For a float the [isinstance] test passes and
    [float(value)] is [value]; the assignment is the last statement, so a
    raise leaves the wallet as it was. *)
Definition set_balance (value : float) (self : t) : result t :=
  if (value <? 0)%float
  then Raise (ValueError "Баланс не может быть отрицательным")
  else Ok {| currency_code := currency_code self; _balance := value |}.

(** [deposit]: [self.balance += amount] reads the property and calls the
    setter. *)
Definition deposit (amount : float) (self : t) : result t :=
  if (amount <=? 0)%float
  then Raise (ValueError "Сумма пополнения должна быть положительной")
  else set_balance (balance self + amount)%float self.

(** [withdraw]: an amount above the balance prints a line and goes on to
    [self.balance -= amount]. *)
Definition withdraw (amount : float) (self : t) : IO t :=
  (if (amount <=? 0)%float
   then raise (ValueError "Сумма снятия должна быть положительной")
   else
     (if (_balance self <? amount)%float then print "error" else ret tt) ;;;
     lift (set_balance (balance self - amount)%float self))%io.

Definition to_dict (self : t) : wallet_data :=
  {| wd_currency_code := currency_code self; wd_balance := _balance self |}.

(** [Wallet.from_dict]: calls the constructor on the stored fields. *)
Definition from_dict (data : wallet_data) : t :=
  __init__ (wd_currency_code data) (wd_balance data).

End Wallet.

(* ================================================================= *)
(** ** core/models.py: Portfolio *)

Module Portfolio.

Record t : Type := mk { _user_id : Z; _wallets : dict Wallet.t }.

(** [Portfolio.__init__]: [wallets or {}]. *)
Definition __init__ (user_id : Z) (wallets : option (dict Wallet.t)) : t :=
  {| _user_id := user_id;
     _wallets := match wallets with Some ws => ws | None => [] end |}.

Definition user_id (self : t) : Z := _user_id self.

(** The [wallets] property: a copy of the mapping. *)
Definition wallets (self : t) : dict Wallet.t := _wallets self.

Section WithBuiltins.
Context {B : Builtins}.

Definition add_currency (currency_code : string) (self : t) : result t :=
  let currency_code := upper currency_code in
  if dict_contains currency_code (_wallets self)
  then Raise (ValueError
                ("Кошелек для валюты '" ++ currency_code ++ "' уже существует"))
  else Ok {| _user_id := _user_id self;
             _wallets := dict_set currency_code
                           (Wallet.__init__ currency_code 0%float)
                           (_wallets self) |}.

Definition get_wallet (currency_code : string) (self : t) : option Wallet.t :=
  dict_get (upper currency_code) (_wallets self).

(** A wallet returned by [get_wallet] is the object held in [_wallets];
    a method that mutates it mutates the portfolio.  [put_wallet] is that
    write through the shared reference. *)
Definition put_wallet (currency_code : string) (wallet : Wallet.t)
    (self : t) : t :=
  {| _user_id := _user_id self;
     _wallets := dict_set (upper currency_code) wallet (_wallets self) |}.

End WithBuiltins.

(** An item of the [exchange_rates] argument, in the shape of the rates
    cache: a mapping whose ["rate"] item, when present, is a float.  Its
    other items are not read.  Items of another shape are not modelled. *)
Record rate_entry : Type := mk_rate_entry { rate_item : option float }.

Definition demo_rates : dict float :=
  [ ("BTC_USD", 59337.21%float);
    ("EUR_USD", 1.0786%float);
    ("RUB_USD", 0.01016%float);
    ("ETH_USD", 3720.00%float) ].

(** The body of the loop of [get_total_value], for one item of
    [_wallets]. *)
Definition total_value_step (base_currency : string)
    (exchange_rates : dict rate_entry) (total_value : float)
    (item : string * Wallet.t) : result float :=
  let (currency_code, wallet) := item in
  if String.eqb currency_code base_currency
  then Ok (total_value + Wallet.balance wallet)%float
  else
    let rate_key := currency_code ++ "_" ++ base_currency in
    match dict_get rate_key exchange_rates with
    | Some entry =>
        match rate_item entry with
        | Some rate => Ok (total_value + Wallet.balance wallet * rate)%float
        | None => Raise (KeyError "rate")
        end
    | None =>
        match dict_get rate_key demo_rates with
        | Some demo => Ok (total_value + Wallet.balance wallet * demo)%float
        | None => Ok total_value
        end
    end.

Fixpoint total_value_loop (base_currency : string)
    (exchange_rates : dict rate_entry) (total_value : float)
    (items : dict Wallet.t) : result float :=
  match items with
  | [] => Ok total_value
  | item :: items' =>
      match total_value_step base_currency exchange_rates total_value item with
      | Ok total_value' =>
          total_value_loop base_currency exchange_rates total_value' items'
      | Raise e => Raise e
      end
  end.

Definition get_total_value (base_currency : string)
    (exchange_rates : option (dict rate_entry)) (self : t) : result float :=
  let exchange_rates :=
    match exchange_rates with Some r => r | None => [] end in
  total_value_loop base_currency exchange_rates 0%float (_wallets self).

Definition to_dict (self : t) : portfolio_data :=
  {| pd_user_id := _user_id self;
     pd_wallets := map (fun cw => (fst cw, Wallet.to_dict (snd cw)))
                       (_wallets self) |}.

Definition from_dict (data : portfolio_data) : t :=
  __init__ (pd_user_id data)
    (Some (map (fun cd => (fst cd, Wallet.from_dict (snd cd)))
               (pd_wallets data))).

End Portfolio.

(* ================================================================= *)
(** ** core/currencies.py: the currency registry *)

Module Currencies.

Inductive Currency : Type :=
| FiatCurrency (name code issuing_country : string)
| CryptoCurrency (name code algorithm : string) (market_cap : float).

Definition code (c : Currency) : string :=
  match c with
  | FiatCurrency _ code _ => code
  | CryptoCurrency _ code _ _ => code
  end.

Section WithBuiltins.
Context {B : Builtins}.

(** For a [str] the [isinstance] tests pass. *)
Definition _validate_code (code : string) : result unit :=
  if negb ((2 <=? len code)%nat && (len code <=? 5)%nat)
  then Raise (ValueError "Код валюты должен содержать 2-5 символов")
  else if negb (isalpha code)
  then Raise (ValueError "Код валюты должен содержать только буквы")
  else if negb (isupper code)
  then Raise (ValueError "Код валюты должен быть в верхнем регистре")
  else Ok tt.

Definition _validate_name (name : string) : result unit :=
  if falsy (strip name)
  then Raise (ValueError "Название валюты не может быть пустым")
  else Ok tt.

(** [Currency.__init__]: validates, then keeps [name] and [code.upper()]. *)
Definition Currency__init__ (name code : string) : result (string * string) :=
  match _validate_code code with
  | Raise e => Raise e
  | Ok _ =>
      match _validate_name name with
      | Raise e => Raise e
      | Ok _ => Ok (name, upper code)
      end
  end.

Definition FiatCurrency__init__ (name code issuing_country : string)
    : result Currency :=
  match Currency__init__ name code with
  | Raise e => Raise e
  | Ok (n, c) => Ok (FiatCurrency n c issuing_country)
  end.

Definition CryptoCurrency__init__ (name code algorithm : string)
    (market_cap : float) : result Currency :=
  match Currency__init__ name code with
  | Raise e => Raise e
  | Ok (n, c) => Ok (CryptoCurrency n c algorithm market_cap)
  end.

End WithBuiltins.

Definition register_currency (currency : Currency)
    (registry : dict Currency) : dict Currency :=
  dict_set (code currency) currency registry.

Definition fiats : list (string * string * string) :=
  [ ("US Dollar", "USD", "США");
    ("Euro", "EUR", "Еврозона");
    ("Russian Ruble", "RUB", "Россия");
    ("British Pound", "GBP", "Великобритания");
    ("Japanese Yen", "JPY", "Япония") ].

Definition cryptos : list (string * string * string * float) :=
  [ ("Bitcoin", "BTC", "SHA-256", 1.12e12%float);
    ("Ethereum", "ETH", "Ethash", 4.5e11%float);
    ("Litecoin", "LTC", "Scrypt", 5.8e9%float);
    ("Cardano", "ADA", "Ouroboros", 1.2e10%float) ].

Section WithBuiltins.
Context {B : Builtins}.

Fixpoint register_fiats (l : list (string * string * string))
    (registry : dict Currency) : result (dict Currency) :=
  match l with
  | [] => Ok registry
  | (name, code, country) :: l' =>
      match FiatCurrency__init__ name code country with
      | Raise e => Raise e
      | Ok c => register_fiats l' (register_currency c registry)
      end
  end.

Fixpoint register_cryptos (l : list (string * string * string * float))
    (registry : dict Currency) : result (dict Currency) :=
  match l with
  | [] => Ok registry
  | (name, code, algo, mcap) :: l' =>
      match CryptoCurrency__init__ name code algo mcap with
      | Raise e => Raise e
      | Ok c => register_cryptos l' (register_currency c registry)
      end
  end.

Definition _initialize_currencies (registry : dict Currency)
    : result (dict Currency) :=
  match register_fiats fiats registry with
  | Raise e => Raise e
  | Ok registry' => register_cryptos cryptos registry'
  end.

(** The module-level registry once the module is imported: [{}] filled by
    the call of [_initialize_currencies] that ends the module. *)
Definition _CURRENCY_REGISTRY : dict Currency :=
  match _initialize_currencies [] with
  | Ok registry => registry
  | Raise _ => []
  end.

Definition get_currency (code : string) : result Currency :=
  let code := upper code in
  match dict_get code _CURRENCY_REGISTRY with
  | None => Raise (CurrencyNotFoundError code)
  | Some c => Ok c
  end.

End WithBuiltins.

End Currencies.

(* ================================================================= *)
(** ** core/utils.py and core/usecases.py: PortfolioManager *)

Module Utils.

(** Modelled from the spec: [validate_amount] of core/utils.py, the
    precondition [amount > 0] of buy and sell. *)
Definition validate_amount (amount : float) : bool := (0 <? amount)%float.

(** Modelled from the spec: [ExchangeRateService.get_rate] of core/utils.py
    over the pairs of the current snapshot: both codes are upper-cased, a
    currency against itself has the rate 1.0, any other pair is looked up as
    [FROM_TO] and is absent when the snapshot does not have it. *)
Definition get_rate {B : Builtins} (snapshot : dict float)
    (from_currency to_currency : string) : option float :=
  let from_currency := upper from_currency in
  let to_currency := upper to_currency in
  if String.eqb from_currency to_currency then Some 1%float
  else dict_get (from_currency ++ "_" ++ to_currency) snapshot.

End Utils.

Module PortfolioManager.
Import Utils.
Local Open Scope io_scope.

(** What [buy_currency] returns. *)
Record buy_result : Type := mk_buy_result
  { b_currency : string;
    b_amount : float;
    b_rate : option float;
    b_estimated_cost : option float;
    b_old_balance : float;
    b_new_balance : float }.

(** What [sell_currency] returns. *)
Record sell_result : Type := mk_sell_result
  { s_currency : string;
    s_amount : float;
    s_rate : option float;
    s_estimated_revenue : option float;
    s_old_balance : float;
    s_new_balance : float }.

Fixpoint find_portfolio (user_id : Z) (portfolios_data : list portfolio_data)
    : option portfolio_data :=
  match portfolios_data with
  | [] => None
  | portfolio_data :: rest =>
      if Z.eqb (pd_user_id portfolio_data) user_id
      then Some portfolio_data
      else find_portfolio user_id rest
  end.

(** The loop of [_save_portfolio]: the first document of the user is
    replaced; [None] when there is none ([found] stays [False]). *)
Fixpoint replace_portfolio (doc : portfolio_data)
    (portfolios_data : list portfolio_data) : option (list portfolio_data) :=
  match portfolios_data with
  | [] => None
  | portfolio_data :: rest =>
      if Z.eqb (pd_user_id portfolio_data) (pd_user_id doc)
      then Some (doc :: rest)
      else match replace_portfolio doc rest with
           | Some rest' => Some (portfolio_data :: rest')
           | None => None
           end
  end.

Definition _save_portfolio (portfolio : Portfolio.t) : IO unit :=
  portfolios_data <- load_portfolios ;;
  let doc := Portfolio.to_dict portfolio in
  match replace_portfolio doc portfolios_data with
  | Some portfolios_data' => save_portfolios portfolios_data'
  | None => save_portfolios (portfolios_data ++ [doc])%list
  end.

Definition get_user_portfolio (user_id : Z) : IO Portfolio.t :=
  portfolios_data <- load_portfolios ;;
  match find_portfolio user_id portfolios_data with
  | Some portfolio_data => ret (Portfolio.from_dict portfolio_data)
  | None =>
      let portfolio := Portfolio.__init__ user_id None in
      _save_portfolio portfolio ;;;
      ret portfolio
  end.

Section WithRateService.
Context {B : Builtins}.

(** [ExchangeRateService.get_rate] of core/utils.py: a rate read from
    the cache, or [None]. *)
Variable get_rate : string -> string -> option float.

Definition buy_currency (user_id : Z) (currency_code : string)
    (amount : float) : IO buy_result :=
  if negb (validate_amount amount)
  then raise (ValueError "Сумма должна быть положительной")
  else
    portfolio <- get_user_portfolio user_id ;;
    let currency_code := upper currency_code in
    portfolio <- (if negb (dict_contains currency_code
                             (Portfolio.wallets portfolio))
                  then lift (Portfolio.add_currency currency_code portfolio)
                  else ret portfolio) ;;
    match Portfolio.get_wallet currency_code portfolio with
    | None =>
        raise (AttributeError "'NoneType' object has no attribute 'balance'")
    | Some wallet =>
        let old_balance := Wallet.balance wallet in
        wallet <- lift (Wallet.deposit amount wallet) ;;
        let portfolio := Portfolio.put_wallet currency_code wallet portfolio in
        _save_portfolio portfolio ;;;
        let rate := get_rate currency_code "USD" in
        ret {| b_currency := currency_code;
               b_amount := amount;
               b_rate := rate;
               b_estimated_cost := None;
               b_old_balance := old_balance;
               b_new_balance := Wallet.balance wallet |}
    end.

Definition sell_currency (user_id : Z) (currency_code : string)
    (amount : float) : IO sell_result :=
  if negb (validate_amount amount)
  then raise (ValueError "Сумма должна быть положительной")
  else
    portfolio <- get_user_portfolio user_id ;;
    let currency_code := upper currency_code in
    match Portfolio.get_wallet currency_code portfolio with
    | None =>
        raise (ValueError
                 ("У вас нет кошелька для валюты '" ++ currency_code ++ "'"))
    | Some wallet =>
        let old_balance := Wallet.balance wallet in
        wallet <- Wallet.withdraw amount wallet ;;
        let portfolio := Portfolio.put_wallet currency_code wallet portfolio in
        _save_portfolio portfolio ;;;
        let rate := get_rate currency_code "USD" in
        let estimated_revenue :=
          match rate with
          | Some r => if truthy_float r then Some (amount * r)%float else None
          | None => None
          end in
        ret {| s_currency := currency_code;
               s_amount := amount;
               s_rate := rate;
               s_estimated_revenue := estimated_revenue;
               s_old_balance := old_balance;
               s_new_balance := Wallet.balance wallet |}
    end.

End WithRateService.

End PortfolioManager.

(* ================================================================= *)
(** ** parser_service: what a fetch or an update does to the outside

    A client holds its configuration and the ["parser"] logger, so all it
    does to the outside is log; the updater also calls [RatesStorage]
    (parser_service/storage.py).  A computation yields its outcome and the
    calls it made, in order. *)

Module Trace.

Inductive level : Type := INFO | WARNING | ERROR.

Inductive log_record : Type := LogRecord (lvl : level) (msg : string).

(** [{"request_ms": ..., "status_code": ...}] *)
Record request_meta : Type := mk_meta { request_ms : Z; status_code : Z }.

Inductive event : Type :=
| Log (r : log_record)
| SaveHistoricalRecord (from_currency to_currency : string) (rate : float)
    (source : string) (meta : request_meta)
| SaveCurrentRates (rates : dict float) (source : string).

Definition is_storage_call (e : event) : bool :=
  match e with Log _ => false | _ => true end.

Definition is_snapshot_write (e : event) : bool :=
  match e with SaveCurrentRates _ _ => true | _ => false end.

(** Computations that make calls of type [E] and may raise. *)
Definition Eff (E A : Type) : Type := (result A * list E)%type.

Definition ret {E A : Type} (a : A) : Eff E A := (Ok a, []).

Definition raise {E A : Type} (e : exn) : Eff E A := (Raise e, []).

Definition emit {E : Type} (e : E) : Eff E unit := (Ok tt, [e]).

(** A computation without calls. *)
Definition pure {E A : Type} (r : result A) : Eff E A := (r, []).

Definition bind {E A B : Type} (c : Eff E A) (k : A -> Eff E B) : Eff E B :=
  match c with
  | (Ok a, t) => let (r, t') := k a in (r, (t ++ t')%list)
  | (Raise e, t) => (Raise e, t)
  end.

(** [try: body  except ApiRequestError as e: handler]; other exceptions
    pass through. *)
Definition try_except_ApiRequestError {E A : Type} (body : Eff E A)
    (handler : string -> Eff E A) : Eff E A :=
  match body with
  | (Raise (ApiRequestError reason), t) =>
      let (r, t') := handler reason in (r, (t ++ t')%list)
  | other => other
  end.

(** Who can log: [self.logger.info], [.warning], [.error]. *)
Class HasLogger (E : Type) : Type := of_log : log_record -> E.

#[export] Instance client_logger : HasLogger log_record := fun r => r.
#[export] Instance updater_logger : HasLogger event := Log.

Definition logger {E : Type} `{HasLogger E} (lvl : level) (msg : string)
    : Eff E unit :=
  emit (of_log (LogRecord lvl msg)).

(** A client's fetch, run by the updater. *)
Definition logged {A : Type} (c : Eff log_record A) : Eff event A :=
  (fst c, map Log (snd c)).

(** [str(n)] for a length. *)
Definition str_nat (n : nat) : string :=
  DecimalString.NilEmpty.string_of_uint (Nat.to_uint n).

End Trace.
Import Trace.

Declare Scope eff_scope.
Delimit Scope eff_scope with eff.
Notation "x <- c ;; k" := (Trace.bind c (fun x => k))
  (at level 100, c at next level, right associativity) : eff_scope.
Notation "c ;;; k" := (Trace.bind c (fun _ => k))
  (at level 100, right associativity) : eff_scope.

(* ================================================================= *)
(** ** parser_service/api_clients.py *)

Module ApiClients.
Local Open Scope eff_scope.

(** The attributes of [ParserConfig] (parser_service/config.py) that the
    clients read. *)
Record ParserConfig : Type := mk_config
  { EXCHANGERATE_API_KEY : option string;
    COINGECKO_URL : string;
    EXCHANGERATE_API_URL : string;
    BASE_CURRENCY : string;
    FIAT_CURRENCIES : list string;
    CRYPTO_CURRENCIES : list string;
    CRYPTO_ID_MAP : dict string;
    REQUEST_TIMEOUT : Z }.

(** What [requests.get(url, timeout=...)], [raise_for_status()] and
    [response.json()] come to: the decoded body, an exception the first
    [except] clause of [_make_request] catches (a
    [requests.exceptions.RequestException]), or one the second catches (a
    [ValueError] that is no [RequestException], as of a body that is not
    JSON).  The string is [str(e)]. *)
Inductive http_outcome (D : Type) : Type :=
| HttpJson (data : D)
| RequestException (e : string)
| JsonValueError (e : string).
Arguments HttpJson {D} data.
Arguments RequestException {D} e.
Arguments JsonValueError {D} e.

(** The body CoinGecko answers with, in its documented shape:
    [{id: {"usd": rate}}].  Bodies of another shape are not modelled. *)
Definition coingecko_data : Type := dict (dict float).

(** The body ExchangeRate-API answers with, in its documented shape; an
    item may be missing.  Bodies of another shape are not modelled. *)
Record exchangerate_data : Type := mk_exchangerate_data
  { result_item : option string;
    error_type_item : option string;
    conversion_rates_item : option (dict float) }.

(** What a client is to the updater: [BaseApiClient.fetch_rates]. *)
Record BaseApiClient : Type := mk_client
  { fetch_rates : Eff log_record (dict float) }.

Definition _make_request {D : Type} (requests_get : string -> http_outcome D)
    (url : string) : Eff log_record D :=
  match requests_get url with
  | HttpJson data => ret data
  | RequestException e =>
      logger ERROR (("Ошибка запроса: " ++ e)) ;;;
      raise (ApiRequestError ("Сетевая ошибка: " ++ e))
  | JsonValueError e =>
      logger ERROR (("Ошибка парсинга JSON: " ++ e)) ;;;
      raise (ApiRequestError ("Неверный формат ответа: " ++ e))
  end.

(** [[d[k] for k in keys]] *)
Fixpoint lookup_all (d : dict string) (keys : list string)
    : result (list string) :=
  match keys with
  | [] => Ok []
  | k :: keys' =>
      match dict_get k d with
      | None => Raise (KeyError k)
      | Some v =>
          match lookup_all d keys' with
          | Ok vs => Ok (v :: vs)
          | Raise e => Raise e
          end
      end
  end.

(** [sep.join(parts)] *)
Fixpoint join (sep : string) (parts : list string) : string :=
  match parts with
  | [] => EmptyString
  | [p] => p
  | p :: ps => p ++ sep ++ join sep ps
  end.

Section CoinGecko.
Variable config : ParserConfig.
Variable requests_get : string -> http_outcome coingecko_data.

Fixpoint coingecko_collect (data : coingecko_data) (codes : list string)
    (rates : dict float) : result (dict float) :=
  match codes with
  | [] => Ok rates
  | crypto_code :: codes' =>
      match dict_get crypto_code (CRYPTO_ID_MAP config) with
      | None => Raise (KeyError crypto_code)
      | Some crypto_id =>
          let rates' :=
            match dict_get crypto_id data with
            | Some quotes =>
                match dict_get "usd" quotes with
                | Some rate =>
                    dict_set (crypto_code ++ "_" ++ BASE_CURRENCY config)
                             rate rates
                | None => rates
                end
            | None => rates
            end in
          coingecko_collect data codes' rates'
      end
  end.

Definition CoinGecko_fetch_rates : Eff log_record (dict float) :=
  logger INFO ("Получение курсов криптовалют с CoinGecko") ;;;
  crypto_ids <- pure (lookup_all (CRYPTO_ID_MAP config)
                        (CRYPTO_CURRENCIES config)) ;;
  let ids_param := join "," crypto_ids in
  let url := COINGECKO_URL config ++ "?ids=" ++ ids_param
             ++ "&vs_currencies=usd" in
  try_except_ApiRequestError
    (data <- _make_request requests_get url ;;
     rates <- pure (coingecko_collect data (CRYPTO_CURRENCIES config) []) ;;
     logger INFO (("Получено курсов криптовалют: "
                     ++ str_nat (List.length rates))) ;;;
     ret rates)
    (fun reason =>
       logger ERROR ("Не удалось получить курсы криптовалют") ;;;
       raise (ApiRequestError reason)).

Definition CoinGeckoClient : BaseApiClient :=
  {| fetch_rates := CoinGecko_fetch_rates |}.

End CoinGecko.

Section ExchangeRateApi.
Variable config : ParserConfig.
Variable requests_get : string -> http_outcome exchangerate_data.

Fixpoint exchangerate_collect (conversion_rates : dict float)
    (currencies : list string) (rates : dict float) : dict float :=
  match currencies with
  | [] => rates
  | currency :: currencies' =>
      let rates' :=
        match dict_get currency conversion_rates with
        | Some rate =>
            dict_set (currency ++ "_" ++ BASE_CURRENCY config) rate rates
        | None => rates
        end in
      exchangerate_collect conversion_rates currencies' rates'
  end.

Definition ExchangeRateApi_fetch_rates : Eff log_record (dict float) :=
  logger INFO ("Получение курсов фиатных валют с ExchangeRate-API") ;;;
  if negb (truthy_str (EXCHANGERATE_API_KEY config))
  then
    logger WARNING ("Ключ ExchangeRate-API не настроен") ;;;
    ret []
  else
    let key := match EXCHANGERATE_API_KEY config with
               | Some k => k | None => EmptyString end in
    let url := EXCHANGERATE_API_URL config ++ "/" ++ key ++ "/latest/"
               ++ BASE_CURRENCY config in
    try_except_ApiRequestError
      (data <- _make_request requests_get url ;;
       match result_item data with
       | Some "success" =>
           let conversion_rates :=
             match conversion_rates_item data with
             | Some cr => cr | None => [] end in
           let rates := exchangerate_collect conversion_rates
                          (FIAT_CURRENCIES config) [] in
           logger INFO (("Получено курсов фиатных валют: "
                           ++ str_nat (List.length rates))) ;;;
           ret rates
       | _ =>
           raise (ApiRequestError
                    ("Ошибка API: "
                     ++ match error_type_item data with
                        | Some t => t
                        | None => "Неизвестная ошибка"
                        end))
       end)
      (fun reason =>
         logger ERROR ("Не удалось получить курсы фиатных валют") ;;;
         raise (ApiRequestError reason)).

Definition ExchangeRateApiClient : BaseApiClient :=
  {| fetch_rates := ExchangeRateApi_fetch_rates |}.

End ExchangeRateApi.

End ApiClients.

(* ================================================================= *)
(** ** parser_service/updater.py *)

Module RatesUpdater.
Import ApiClients.
Local Open Scope eff_scope.

Record t : Type := mk { config : ParserConfig; clients : dict BaseApiClient }.

(** [RatesUpdater.__init__], given the configuration [ParserConfig()]
    yields and what the two providers answer. *)
Definition __init__ (config : ParserConfig)
    (coingecko_get : string -> http_outcome coingecko_data)
    (exchangerate_get : string -> http_outcome exchangerate_data) : t :=
  {| config := config;
     clients := [ ("coingecko", CoinGeckoClient config coingecko_get);
                  ("exchangerate",
                   ExchangeRateApiClient config exchangerate_get) ] |}.

(** [[source] if source else list(self.clients.keys())] *)
Definition sources_to_update (self : t) (source : option string)
    : list string :=
  match source with
  | Some s => if truthy_str source then [s] else dict_keys (clients self)
  | None => dict_keys (clients self)
  end.

(** [from_currency, to_currency = pair.split('_')] *)
Definition unpack_pair (pair_key : string) : result (string * string) :=
  match split "_" pair_key with
  | [from_currency; to_currency] => Ok (from_currency, to_currency)
  | [] | [_] =>
      Raise (ValueError
               ("not enough values to unpack (expected 2, got "
                ++ str_nat (List.length (split "_" pair_key)) ++ ")"))
  | _ => Raise (ValueError "too many values to unpack (expected 2)")
  end.

Section WithBuiltins.
Context {B : Builtins}.

(** The loop over [rates.items()]: one history record for each pair. *)
Fixpoint save_history (client_name : string) (items : dict float)
    : Eff event unit :=
  match items with
  | [] => ret tt
  | (pair_key, rate) :: items' =>
      ft <- pure (unpack_pair pair_key) ;;
      emit (SaveHistoricalRecord (fst ft) (snd ft) rate (upper client_name)
              {| request_ms := 0; status_code := 200 |}) ;;;
      save_history client_name items'
  end.

(** The loop over [sources_to_update]; [all_rates] is the mapping
    accumulated so far.  [fetch_rates] is the only call of the [try] block
    that raises [ApiRequestError], and it comes before [all_rates] is
    touched, so the handler goes on with [all_rates] as it was. *)
Fixpoint update_loop (self : t) (names : list string)
    (all_rates : dict float) : Eff event (dict float) :=
  match names with
  | [] => ret all_rates
  | client_name :: names' =>
      match dict_get client_name (clients self) with
      | None =>
          logger WARNING (("Неизвестный источник: " ++ client_name)) ;;;
          update_loop self names' all_rates
      | Some client =>
          all_rates' <-
            try_except_ApiRequestError
              (rates <- logged (fetch_rates client) ;;
               let all_rates' := dict_update all_rates rates in
               save_history client_name rates ;;;
               logger INFO (("Успешно обновлено из " ++ client_name
                               ++ ": " ++ str_nat (List.length rates)
                               ++ " курсов")) ;;;
               ret all_rates')
              (fun reason =>
                 logger ERROR (("Ошибка обновления из " ++ client_name
                                  ++ ": " ++ ApiRequestError_str reason)) ;;;
                 ret all_rates) ;;
          update_loop self names' all_rates'
      end
  end.

Definition run_update (self : t) (source : option string)
    : Eff event (dict float) :=
  logger INFO ("Запуск обновления курсов") ;;;
  all_rates <- update_loop self (sources_to_update self source) [] ;;
  (match all_rates with
   | _ :: _ =>
       emit (SaveCurrentRates all_rates "ParserService") ;;;
       logger INFO (("Обновление завершено. Всего курсов: "
                       ++ str_nat (List.length all_rates)))
   | [] => logger WARNING ("Курсы не были обновлены")
   end) ;;;
  ret all_rates.

End WithBuiltins.

End RatesUpdater.

(* ================================================================= *)
(** ** Vocabulary of the properties *)

Module Ledger.

(** What [_save_portfolio] leaves in [portfolios.json]. *)
Definition saved (portfolio : Portfolio.t) (docs : list portfolio_data)
    : list portfolio_data :=
  let doc := Portfolio.to_dict portfolio in
  match PortfolioManager.replace_portfolio doc docs with
  | Some docs' => docs'
  | None => (docs ++ [doc])%list
  end.

(** The balance [portfolios.json] holds for a user and a currency, if the
    user has a portfolio with a wallet in that currency. *)
Definition stored_balance {B : Builtins} (user_id : Z)
    (currency_code : string) (w : World) : option float :=
  match PortfolioManager.find_portfolio user_id (portfolios_json w) with
  | Some doc =>
      match dict_get (upper currency_code) (pd_wallets doc) with
      | Some wd => Some (wd_balance wd)
      | None => None
      end
  | None => None
  end.

(** A user's first run: nothing stored, nothing printed. *)
Definition fresh_world : World := {| portfolios_json := []; stdout := [] |}.

(** User 1 holds 2.0 BTC. *)
Definition world_2btc : World :=
  {| portfolios_json :=
       [ {| pd_user_id := 1;
            pd_wallets := [ ("BTC", {| wd_currency_code := "BTC";
                                       wd_balance := 2%float |}) ] |} ];
     stdout := [] |}.

(** User 1 holds 100.0 USD. *)
Definition usd_portfolio : Portfolio.t :=
  {| Portfolio._user_id := 1;
     Portfolio._wallets := [ ("USD", Wallet.__init__ "USD" 100%float) ] |}.

(** The snapshot after an update that brought one pair. *)
Definition btc_snapshot : dict float := [ ("BTC_USD", 59337.21%float) ].

End Ledger.

Module Batch.
Import ApiClients.

(** A key of a rates mapping that is a pair [FROM_TO]. *)
Definition is_pair (key : string) : bool :=
  Nat.eqb (List.length (split "_" key)) 2.

(** The history records [run_update] writes for what one source returned,
    when its keys are pairs. *)
Definition history_of {B : Builtins} (client_name : string)
    (rates : dict float) : list event :=
  flat_map
    (fun kv =>
       match RatesUpdater.unpack_pair (fst kv) with
       | Ok (from_currency, to_currency) =>
           [SaveHistoricalRecord from_currency to_currency (snd kv)
              (upper client_name) {| request_ms := 0; status_code := 200 |}]
       | Raise _ => []
       end) rates.

(** The keys of a rates mapping are all pairs. *)
Definition all_pairs (rates : dict float) : bool :=
  forallb (fun kv => is_pair (fst kv)) rates.

(** A source whose [fetch_rates] raises [ApiRequestError]. *)
Definition fails (client : BaseApiClient) : Prop :=
  exists reason t, fetch_rates client = (Raise (ApiRequestError reason), t).

(** A source whose [fetch_rates] returns the mapping [rates]. *)
Definition returns (client : BaseApiClient) (rates : dict float) : Prop :=
  exists t, fetch_rates client = (Ok rates, t).

(** A source name that adds nothing to the batch: unknown, failing, or
    returning an empty mapping. *)
Definition brings_nothing (clients : dict BaseApiClient) (name : string)
    : Prop :=
  match dict_get name clients with
  | None => True
  | Some client => fails client \/ returns client []
  end.

(** The storage calls of a trace, and the snapshot writes among them. *)
Definition storage_calls (t : list event) : list event :=
  filter is_storage_call t.

Definition snapshot_writes (t : list event) : list event :=
  filter is_snapshot_write t.

(** The two lines [ExchangeRateApiClient.fetch_rates] logs when it has no
    key. *)
Definition keyless_log : list log_record :=
  [ LogRecord INFO "Получение курсов фиатных валют с ExchangeRate-API";
    LogRecord WARNING "Ключ ExchangeRate-API не настроен" ].

(** Two providers for the examples: one out of reach, one with three pairs. *)
Definition down_client : BaseApiClient :=
  {| fetch_rates :=
       (Raise (ApiRequestError "timeout"),
        [LogRecord ERROR "timeout"]) |}.

Definition three_pairs : dict float :=
  [ ("EUR_USD", 1.0786%float); ("RUB_USD", 0.01016%float);
    ("GBP_USD", 1.25%float) ].

Definition up_client : BaseApiClient :=
  {| fetch_rates := (Ok three_pairs, [LogRecord INFO "3"]) |}.

(** A configuration without the ExchangeRate-API key. *)
Definition keyless_config : ParserConfig :=
  {| EXCHANGERATE_API_KEY := None;
     COINGECKO_URL := "https://api.coingecko.com/api/v3/simple/price";
     EXCHANGERATE_API_URL := "https://v6.exchangerate-api.com/v6";
     BASE_CURRENCY := "USD";
     FIAT_CURRENCIES := ["EUR"; "RUB"; "GBP"];
     CRYPTO_CURRENCIES := ["BTC"; "ETH"];
     CRYPTO_ID_MAP := [("BTC", "bitcoin"); ("ETH", "ethereum")];
     REQUEST_TIMEOUT := 10 |}.

End Batch.

(* ================================================================= *)
(** ** core/models.py: User, and core/usecases.py: UserManager

    [hashlib.sha256(...).hexdigest()], [datetime] with its [isoformat] and
    [fromisoformat], and the values drawn at a call ([secrets.token_hex(8)],
    [datetime.now()], [DataManager.get_next_user_id()]) come from outside
    the repository: the first are parameters of the section, the drawn
    values are arguments of the call that draws them. *)

Module Users.

(** An item of [users.json], in the shape [User.to_dict] writes. *)
Record user_data : Type := mk_user_data
  { ud_user_id : Z;
    ud_username : string;
    ud_hashed_password : string;
    ud_salt : string;
    ud_registration_date : string }.

Section WithLibraries.
Context {B : Builtins}.

Variable datetime : Type.
Variable isoformat : datetime -> string.
Variable fromisoformat : string -> result datetime.
Variable sha256_hexdigest : string -> string.

Record User : Type := mk_User
  { _user_id : Z;
    _username : string;
    _hashed_password : string;
    _salt : string;
    _registration_date : datetime }.

(** [User._hash_password]: the digest of [f"{password}{salt}"]. *)
Definition User_hash_password (password salt : string) : string :=
  sha256_hexdigest (password ++ salt).

(** The [username] setter. *)
Definition set_username (value : string) (self : User) : result User :=
  if falsy value || falsy (strip value)
  then Raise (ValueError "Имя пользователя не может быть пустым")
  else Ok {| _user_id := _user_id self;
             _username := value;
             _hashed_password := _hashed_password self;
             _salt := _salt self;
             _registration_date := _registration_date self |}.

(** [change_password]; [new_salt] is what [secrets.token_hex(8)] yields. *)
Definition change_password (new_password new_salt : string) (self : User)
    : result User :=
  if (len new_password <? 4)%nat
  then Raise (ValueError "Пароль должен быть не менее 4 символов")
  else Ok {| _user_id := _user_id self;
             _username := _username self;
             _hashed_password := User_hash_password new_password new_salt;
             _salt := new_salt;
             _registration_date := _registration_date self |}.

Definition verify_password (password : string) (self : User) : bool :=
  String.eqb (User_hash_password password (_salt self))
             (_hashed_password self).

Definition User_to_dict (self : User) : user_data :=
  {| ud_user_id := _user_id self;
     ud_username := _username self;
     ud_hashed_password := _hashed_password self;
     ud_salt := _salt self;
     ud_registration_date := isoformat (_registration_date self) |}.

Definition User_from_dict (data : user_data) : result User :=
  match fromisoformat (ud_registration_date data) with
  | Raise e => Raise e
  | Ok registration_date =>
      Ok {| _user_id := ud_user_id data;
            _username := ud_username data;
            _hashed_password := ud_hashed_password data;
            _salt := ud_salt data;
            _registration_date := registration_date |}
  end.

(** What a [UserManager] works on: [users.json], its [current_user], and
    the world of the portfolio side. *)
Record State : Type := mk_State
  { users_json : list user_data;
    current_user : option User;
    world : World }.

(** [UserManager._hash_password]: the digest of [password + salt]. *)
Definition _hash_password (password salt : string) : string :=
  sha256_hexdigest (password ++ salt).

(** [any(user["username"] == username for user in users_data)] *)
Definition username_taken (username : string) (users_data : list user_data)
    : bool :=
  existsb (fun user => String.eqb (ud_username user) username) users_data.

(** [_create_user_portfolio]: an empty portfolio is appended unless the
    user has one. *)
Definition _create_user_portfolio (user_id : Z) (w : World) : World :=
  if existsb (fun portfolio => Z.eqb (pd_user_id portfolio) user_id)
       (portfolios_json w)
  then w
  else {| portfolios_json :=
            (portfolios_json w
             ++ [Portfolio.to_dict (Portfolio.__init__ user_id None)])%list;
          stdout := stdout w |}.

(** [register_user]; [user_id], [salt] and [registration_date] are what
    [get_next_user_id()], [secrets.token_hex(8)] and [datetime.now()]
    yield. *)
Definition register_user (username password : string) (user_id : Z)
    (salt : string) (registration_date : datetime) (st : State)
    : result User * State :=
  if falsy username || falsy (strip username)
  then (Raise (ValueError "Имя пользователя не может быть пустым"), st)
  else if (len password <? 4)%nat
  then (Raise (ValueError "Пароль должен быть не менее 4 символов"), st)
  else if username_taken username (users_json st)
  then (Raise (ValueError ("Пользователь '" ++ username ++ "' уже существует")),
        st)
  else
    let hashed_password := _hash_password password salt in
    let user := {| _user_id := user_id;
                   _username := username;
                   _hashed_password := hashed_password;
                   _salt := salt;
                   _registration_date := registration_date |} in
    (Ok user,
     {| users_json := (users_json st ++ [User_to_dict user])%list;
        current_user := current_user st;
        world := _create_user_portfolio user_id (world st) |}).

(** The loop of [login]: the first item with the name decides. *)
Fixpoint login_loop (username password : string)
    (users_data : list user_data) : result User :=
  match users_data with
  | [] => Raise (ValueError ("Пользователь '" ++ username ++ "' не найден"))
  | user_data :: rest =>
      if String.eqb (ud_username user_data) username
      then match User_from_dict user_data with
           | Raise e => Raise e
           | Ok user =>
               if verify_password password user then Ok user
               else Raise (ValueError "Неверный пароль")
           end
      else login_loop username password rest
  end.

Definition login (username password : string) (st : State)
    : result User * State :=
  match login_loop username password (users_json st) with
  | Ok user =>
      (Ok user, {| users_json := users_json st;
                   current_user := Some user;
                   world := world st |})
  | Raise e => (Raise e, st)
  end.

Definition logout (st : State) : State :=
  {| users_json := users_json st; current_user := None; world := world st |}.

End WithLibraries.

End Users.

(* ================================================================= *)
(** ** More vocabulary *)

Module Vocabulary.

(** No underscore in a currency code. *)
Definition no_underscore (s : string) : bool :=
  all_chars (fun c => negb (Ascii.eqb c "_"%char)) s.

(** An ASCII code [Currency.__init__] accepts: 2 to 5 letters A-Z. *)
Definition well_formed_code (code : string) : bool :=
  (2 <=? String.length code)%nat && (String.length code <=? 5)%nat
  && all_chars is_upper_letter code.

(** A registry in which every key is the code of its currency. *)
Definition keyed_by_code (registry : dict Currencies.Currency) : Prop :=
  forall k c, dict_get k registry = Some c -> Currencies.code c = k.

(** The USD quote a CoinGecko body holds for a crypto code, through the
    code's id in [CRYPTO_ID_MAP]. *)
Definition coingecko_quote (config : ApiClients.ParserConfig)
    (data : ApiClients.coingecko_data) (crypto_code : string) : option float :=
  match dict_get crypto_code (ApiClients.CRYPTO_ID_MAP config) with
  | Some crypto_id =>
      match dict_get crypto_id data with
      | Some quotes => dict_get "usd" quotes
      | None => None
      end
  | None => None
  end.

(** The first configured crypto code that [CRYPTO_ID_MAP] has no id
    for. *)
Definition first_unmapped (config : ApiClients.ParserConfig) : option string :=
  find (fun crypto_code =>
          negb (dict_contains crypto_code (ApiClients.CRYPTO_ID_MAP config)))
       (ApiClients.CRYPTO_CURRENCIES config).

(** The user names of [users.json]. *)
Definition usernames (users_data : list Users.user_data) : list string :=
  map Users.ud_username users_data.

(** A calendar for the examples: dates are their ISO strings. *)
Definition iso_date : Type := string.
Definition iso_of (d : iso_date) : string := d.
Definition of_iso (s : string) : result iso_date := Ok s.

(** A digest for the examples; any function of the string will do. *)
Definition toy_digest (s : string) : string := "sha256:" ++ s.

Definition empty_state : Users.State iso_date :=
  {| Users.users_json := [];
     Users.current_user := None;
     Users.world := {| portfolios_json := []; stdout := [] |} |}.

End Vocabulary.

(* ================================================================= *)
(** ** Facts about binary64 comparison and arithmetic *)

Module FloatFacts.
Local Open Scope float_scope.

Lemma Prim2SF_zero : Prim2SF 0 = S754_zero false.
Proof. reflexivity. Qed.

Lemma Prim2SF_infinity : Prim2SF infinity = S754_infinity false.
Proof. reflexivity. Qed.

(** A float above zero is [+inf] or a positive finite number. *)
Lemma pos_cases (a : float) :
  (0 <? a) = true ->
  Prim2SF a = S754_infinity false
  \/ exists m e, Prim2SF a = S754_finite false m e.
Proof.
  rewrite FloatAxioms.ltb_spec, Prim2SF_zero. unfold SFltb, SFcompare.
  destruct (Prim2SF a) as [s|s| |s m e]; try discriminate.
  - destruct s; [discriminate | now left].
  - destruct s; [discriminate | right; now exists m, e].
Qed.

Lemma pos_not_leb_zero (a : float) : (0 <? a) = true -> (a <=? 0) = false.
Proof.
  intros H. rewrite FloatAxioms.leb_spec, Prim2SF_zero.
  destruct (pos_cases a H) as [E | (m & e & E)]; rewrite E; reflexivity.
Qed.

Lemma pos_not_ltb_zero (a : float) : (0 <? a) = true -> (a <? 0) = false.
Proof.
  intros H. rewrite FloatAxioms.ltb_spec, Prim2SF_zero.
  destruct (pos_cases a H) as [E | (m & e & E)]; rewrite E; reflexivity.
Qed.

Lemma leb_zero_not_pos (a : float) : (a <=? 0) = true -> (0 <? a) = false.
Proof.
  rewrite FloatAxioms.leb_spec, FloatAxioms.ltb_spec, Prim2SF_zero.
  unfold SFleb, SFltb, SFcompare.
  destruct (Prim2SF a) as [s|s| |s m e]; try reflexivity; destruct s; easy.
Qed.

(** [b == 0.0] holds of the two zeros only. *)
Lemma zero_cases (b : float) :
  (b =? 0) = true -> exists s, Prim2SF b = S754_zero s.
Proof.
  rewrite FloatAxioms.eqb_spec, Prim2SF_zero. unfold SFeqb, SFcompare.
  destruct (Prim2SF b) as [s|s| |s m e]; try discriminate.
  - now exists s.
  - destruct s; discriminate.
  - destruct s; discriminate.
Qed.

(** Adding to a zero balance is exact. *)
Lemma zero_add_pos (b a : float) :
  (b =? 0) = true -> (0 <? a) = true -> b + a = a.
Proof.
  intros Hb Ha. apply Prim2SF_inj. rewrite add_spec.
  destruct (zero_cases b Hb) as (s & Eb). rewrite Eb.
  destruct (pos_cases a Ha) as [E | (m & e & E)]; rewrite E; reflexivity.
Qed.

(** A finite amount taken from itself leaves [+0.0]. *)
Lemma finite_sub_self (a : float) :
  (0 <? a) = true -> (a <? infinity) = true -> a - a = 0.
Proof.
  intros Ha Hf. apply Prim2SF_inj. rewrite sub_spec, Prim2SF_zero.
  rewrite FloatAxioms.ltb_spec, Prim2SF_infinity in Hf.
  destruct (pos_cases a Ha) as [E | (m & e & E)]; rewrite E in *.
  - discriminate.
  - unfold SF64sub, SFsub. rewrite Z.min_id. unfold shl_align.
    rewrite Z.sub_diag. cbn [fst cond_Zopp]. reflexivity.
Qed.

End FloatFacts.

(* ================================================================= *)
(** ** Facts about dicts and strings *)

Module PyFacts.

Lemma ascii_upper_char_idem (c : ascii) :
  ascii_upper_char (ascii_upper_char c) = ascii_upper_char c.
Proof.
  destruct c as [[] [] [] [] [] [] [] []]; reflexivity.
Qed.

(** The ASCII builtins have the laws the properties rely on. *)
Lemma ascii_upper_idem (s : string) :
  ascii_upper (ascii_upper s) = ascii_upper s.
Proof.
  induction s as [|c s IH]; simpl; [reflexivity|].
  now rewrite ascii_upper_char_idem, IH.
Qed.

Lemma ascii_builtins_upper_idem (s : string) :
  @upper ascii_builtins (@upper ascii_builtins s) = @upper ascii_builtins s.
Proof. exact (ascii_upper_idem s). Qed.

Lemma ascii_builtins_faithful : ascii_faithful ascii_builtins.
Proof. intros s _. repeat split. Qed.

Lemma dict_get_set_same {V : Type} (k : string) (v : V) (d : dict V) :
  dict_get k (dict_set k v d) = Some v.
Proof.
  induction d as [|[k' v'] d IH]; simpl.
  - now rewrite String.eqb_refl.
  - destruct (String.eqb k' k) eqn:E; simpl; rewrite E; [reflexivity | exact IH].
Qed.

Lemma dict_get_map {V W : Type} (f : V -> W) (k : string) (d : dict V) :
  dict_get k (map (fun kv => (fst kv, f (snd kv))) d)
  = option_map f (dict_get k d).
Proof.
  induction d as [|[k' v'] d IH]; simpl; [reflexivity|].
  destruct (String.eqb k' k); [reflexivity | exact IH].
Qed.

Lemma dict_set_absent {V : Type} (k : string) (v : V) (d : dict V) :
  dict_get k d = None -> dict_set k v d = (d ++ [(k, v)])%list.
Proof.
  induction d as [|[k' v'] d IH]; simpl; [reflexivity|].
  destruct (String.eqb k' k); [discriminate|].
  intros H. now rewrite IH.
Qed.

Lemma dict_get_app_absent {V : Type} (k : string) (d d' : dict V) :
  dict_get k d = None -> dict_get k (d ++ d')%list = dict_get k d'.
Proof.
  induction d as [|[k' v'] d IH]; simpl; [reflexivity|].
  destruct (String.eqb k' k); [discriminate | exact IH].
Qed.

(** Updating a dict with one that shares no key with it appends it. *)
Lemma dict_update_disjoint {V : Type} (other d : dict V) :
  dict_wf other ->
  (forall k, In k (dict_keys other) -> dict_get k d = None) ->
  dict_update d other = (d ++ other)%list.
Proof.
  unfold dict_update, dict_wf. revert d.
  induction other as [|[k v] other IH]; intros d Hwf Hd; simpl.
  - now rewrite app_nil_r.
  - simpl in Hwf. inversion Hwf as [|? ? Hk Hwf']; subst.
    rewrite dict_set_absent by (apply Hd; now left).
    rewrite IH; [now rewrite <- app_assoc | exact Hwf' |].
    intros k' Hin. rewrite dict_get_app_absent by (apply Hd; now right).
    simpl. destruct (String.eqb_spec k k') as [->|_]; [contradiction | reflexivity].
Qed.

Lemma dict_update_empty {V : Type} (other : dict V) :
  dict_wf other -> dict_update [] other = other.
Proof.
  intros Hwf. now rewrite dict_update_disjoint.
Qed.

End PyFacts.

(* ================================================================= *)
(** ** The store under [get_user_portfolio] and [_save_portfolio] *)

Module StoreFacts.
Import PortfolioManager Ledger.

Lemma save_portfolio_spec (p : Portfolio.t) (w : World) :
  _save_portfolio p w
  = (Ok tt, {| portfolios_json := saved p (portfolios_json w);
               stdout := stdout w |}).
Proof.
  unfold _save_portfolio, saved, Store.bind, load_portfolios, save_portfolios.
  destruct (replace_portfolio (Portfolio.to_dict p) (portfolios_json w));
    reflexivity.
Qed.

Lemma find_replaced (doc : portfolio_data) (docs docs' : list portfolio_data) :
  replace_portfolio doc docs = Some docs' ->
  find_portfolio (pd_user_id doc) docs' = Some doc.
Proof.
  revert docs'. induction docs as [|d docs IH]; intros docs'; simpl.
  - discriminate.
  - destruct (Z.eqb (pd_user_id d) (pd_user_id doc)) eqn:E.
    + intros [= <-]. simpl. now rewrite Z.eqb_refl.
    + destruct (replace_portfolio doc docs) as [rest|]; [|discriminate].
      intros [= <-]. simpl. rewrite E. now apply IH.
Qed.

Lemma find_not_replaced (doc : portfolio_data) (docs : list portfolio_data) :
  replace_portfolio doc docs = None ->
  find_portfolio (pd_user_id doc) (docs ++ [doc])%list = Some doc.
Proof.
  induction docs as [|d docs IH]; simpl.
  - intros _. now rewrite Z.eqb_refl.
  - destruct (Z.eqb (pd_user_id d) (pd_user_id doc)); [discriminate|].
    destruct (replace_portfolio doc docs); [discriminate | exact IH].
Qed.

(** After a save, the user's document is the saved portfolio. *)
Lemma find_saved (p : Portfolio.t) (docs : list portfolio_data) :
  find_portfolio (Portfolio._user_id p) (saved p docs)
  = Some (Portfolio.to_dict p).
Proof.
  unfold saved.
  destruct (replace_portfolio (Portfolio.to_dict p) docs) as [docs'|] eqn:E.
  - exact (find_replaced _ _ _ E).
  - exact (find_not_replaced _ _ E).
Qed.

Lemma find_some_user (user_id : Z) (docs : list portfolio_data)
    (doc : portfolio_data) :
  find_portfolio user_id docs = Some doc -> pd_user_id doc = user_id.
Proof.
  induction docs as [|d docs IH]; simpl; [discriminate|].
  destruct (Z.eqb_spec (pd_user_id d) user_id) as [E|_].
  - now intros [= <-].
  - exact IH.
Qed.

Lemma wallet_from_to_dict (wallet : Wallet.t) :
  Wallet.from_dict (Wallet.to_dict wallet) = wallet.
Proof. now destruct wallet. Qed.

Lemma portfolio_from_to_dict (p : Portfolio.t) :
  Portfolio.from_dict (Portfolio.to_dict p) = p.
Proof.
  destruct p as [uid ws]. unfold Portfolio.from_dict, Portfolio.to_dict,
    Portfolio.__init__. simpl. f_equal.
  induction ws as [|[k wallet] ws IH]; simpl; [reflexivity|].
  now rewrite wallet_from_to_dict, IH.
Qed.

Lemma get_user_portfolio_found (user_id : Z) (w : World)
    (doc : portfolio_data) :
  find_portfolio user_id (portfolios_json w) = Some doc ->
  get_user_portfolio user_id w = (Ok (Portfolio.from_dict doc), w).
Proof.
  intros H. unfold get_user_portfolio, Store.bind, load_portfolios.
  now rewrite H.
Qed.

Lemma get_user_portfolio_new (user_id : Z) (w : World) :
  find_portfolio user_id (portfolios_json w) = None ->
  get_user_portfolio user_id w
  = (Ok (Portfolio.__init__ user_id None),
     {| portfolios_json :=
          saved (Portfolio.__init__ user_id None) (portfolios_json w);
        stdout := stdout w |}).
Proof.
  intros H. unfold get_user_portfolio, Store.bind at 1, load_portfolios.
  rewrite H. unfold Store.bind. now rewrite save_portfolio_spec.
Qed.

End StoreFacts.

(* ================================================================= *)
(** ** ASCII text under any interpreter

    The examples of this development are on ASCII codes and names, and are
    stated with [ascii_builtins].  Under the law of ASCII text they are what
    the builtins of any interpreter give. *)

Module OnAscii.
Import PortfolioManager Ledger.

Lemma ascii_upper_char_is_ascii (c : ascii) :
  (nat_of_ascii c <? 128)%nat = true ->
  (nat_of_ascii (ascii_upper_char c) <? 128)%nat = true.
Proof. destruct c as [[] [] [] [] [] [] [] []]; now vm_compute. Qed.

Lemma ascii_upper_is_ascii (s : string) :
  is_ascii s = true -> is_ascii (ascii_upper s) = true.
Proof.
  unfold is_ascii. induction s as [|c s IH]; cbn [all_chars ascii_upper];
    [reflexivity|].
  intros H. apply andb_prop in H as [Hc Hs].
  now rewrite (ascii_upper_char_is_ascii _ Hc), (IH Hs).
Qed.

Section WithBuiltins.
Context {B : Builtins}.
Hypothesis on_ascii : ascii_faithful B.

Lemma upper_on_ascii (s : string) :
  is_ascii s = true -> upper s = ascii_upper s.
Proof. intros H. now destruct (on_ascii s H). Qed.

Lemma upper_upper_on_ascii (s : string) :
  is_ascii s = true -> upper (ascii_upper s) = ascii_upper (ascii_upper s).
Proof. intros H. apply upper_on_ascii. now apply ascii_upper_is_ascii. Qed.

(** On an ASCII name and code, [Currency.__init__] does what it does with
    the ASCII builtins. *)
Lemma Currency__init___ascii (name code : string) :
  is_ascii name = true -> is_ascii code = true ->
  Currencies.Currency__init__ name code
  = Currencies.Currency__init__ (B := ascii_builtins) name code.
Proof.
  intros Hn Hc.
  destruct (on_ascii code Hc) as (Hup & Ha & Hu & _ & Hl).
  destruct (on_ascii name Hn) as (_ & _ & _ & Hs & _).
  unfold Currencies.Currency__init__, Currencies._validate_code,
    Currencies._validate_name.
  rewrite Hup, Ha, Hu, Hs, Hl. reflexivity.
Qed.

Lemma register_fiats_ascii (l : list (string * string * string))
    (registry : dict Currencies.Currency) :
  Forall (fun item => is_ascii (fst (fst item)) = true
                      /\ is_ascii (snd (fst item)) = true) l ->
  Currencies.register_fiats l registry
  = Currencies.register_fiats (B := ascii_builtins) l registry.
Proof.
  intros H. revert registry.
  induction H as [|[[name code] country] l [Hn Hc] _ IH]; intros registry;
    cbn [Currencies.register_fiats]; [reflexivity|].
  cbn [fst snd] in Hn, Hc. unfold Currencies.FiatCurrency__init__.
  rewrite (Currency__init___ascii _ _ Hn Hc).
  destruct (Currencies.Currency__init__ (B := ascii_builtins) name code)
    as [[n c]|e]; [apply IH | reflexivity].
Qed.

Lemma register_cryptos_ascii (l : list (string * string * string * float))
    (registry : dict Currencies.Currency) :
  Forall (fun item => is_ascii (fst (fst (fst item))) = true
                      /\ is_ascii (snd (fst (fst item))) = true) l ->
  Currencies.register_cryptos l registry
  = Currencies.register_cryptos (B := ascii_builtins) l registry.
Proof.
  intros H. revert registry.
  induction H as [|[[[name code] algo] mcap] l [Hn Hc] _ IH]; intros registry;
    cbn [Currencies.register_cryptos]; [reflexivity|].
  cbn [fst snd] in Hn, Hc. unfold Currencies.CryptoCurrency__init__.
  rewrite (Currency__init___ascii _ _ Hn Hc).
  destruct (Currencies.Currency__init__ (B := ascii_builtins) name code)
    as [[n c]|e]; [apply IH | reflexivity].
Qed.

(** The registry is built as with the ASCII builtins. *)
Lemma initialize_currencies_ascii :
  Currencies._initialize_currencies []
  = Currencies._initialize_currencies (B := ascii_builtins) [].
Proof.
  unfold Currencies._initialize_currencies.
  rewrite register_fiats_ascii by (repeat constructor).
  destruct (Currencies.register_fiats (B := ascii_builtins) _ _);
    [|reflexivity].
  apply register_cryptos_ascii. repeat constructor.
Qed.

Lemma stored_balance_on_ascii (user_id : Z) (currency_code : string)
    (w : World) :
  is_ascii currency_code = true ->
  stored_balance user_id currency_code w
  = stored_balance (B := ascii_builtins) user_id currency_code w.
Proof.
  intros H. unfold stored_balance. now rewrite (upper_on_ascii _ H).
Qed.

Lemma get_rate_on_ascii (snapshot : dict float)
    (from_currency to_currency : string) :
  is_ascii from_currency = true -> is_ascii to_currency = true ->
  Utils.get_rate snapshot from_currency to_currency
  = Utils.get_rate (B := ascii_builtins) snapshot from_currency to_currency.
Proof.
  intros Hf Ht. unfold Utils.get_rate.
  now rewrite (upper_on_ascii _ Hf), (upper_on_ascii _ Ht).
Qed.

Lemma get_currency_on_ascii (code : string) :
  is_ascii code = true ->
  Currencies.get_currency code
  = Currencies.get_currency (B := ascii_builtins) code.
Proof.
  intros H. unfold Currencies.get_currency, Currencies._CURRENCY_REGISTRY.
  now rewrite (upper_on_ascii _ H), initialize_currencies_ascii.
Qed.

(** A sale of an ASCII code, with rate services that agree on its pair. *)
Lemma sell_currency_on_ascii (get_rate get_rate' : string -> string -> option float)
    (user_id : Z) (currency_code : string) (amount : float) (w : World) :
  is_ascii currency_code = true ->
  get_rate (ascii_upper currency_code) "USD"
  = get_rate' (ascii_upper currency_code) "USD" ->
  sell_currency get_rate user_id currency_code amount w
  = sell_currency (B := ascii_builtins) get_rate' user_id currency_code
      amount w.
Proof.
  intros H Hrate.
  unfold sell_currency, Portfolio.get_wallet, Portfolio.put_wallet. cbv zeta.
  rewrite !(upper_on_ascii _ H), !(upper_upper_on_ascii _ H), Hrate.
  reflexivity.
Qed.

(** A purchase of an ASCII code, with rate services that agree on its
    pair. *)
Lemma buy_currency_on_ascii (get_rate get_rate' : string -> string -> option float)
    (user_id : Z) (currency_code : string) (amount : float) (w : World) :
  is_ascii currency_code = true ->
  get_rate (ascii_upper currency_code) "USD"
  = get_rate' (ascii_upper currency_code) "USD" ->
  buy_currency get_rate user_id currency_code amount w
  = buy_currency (B := ascii_builtins) get_rate' user_id currency_code
      amount w.
Proof.
  intros H Hrate.
  unfold buy_currency, Portfolio.add_currency, Portfolio.get_wallet,
    Portfolio.put_wallet. cbv zeta.
  rewrite !(upper_on_ascii _ H), !(upper_upper_on_ascii _ H), Hrate.
  reflexivity.
Qed.

End WithBuiltins.

End OnAscii.

(* ================================================================= *)
(** ** buy_currency and sell_currency: what they raise *)

Module LedgerErrors.
Import PortfolioManager Ledger.
Local Open Scope float_scope.

Section WithBuiltins.
Context {B : Builtins}.
Hypothesis upper_idem : forall s : string, upper (upper s) = upper s.

Lemma set_balance_raise (value : float) (wallet : Wallet.t) (e : exn) :
  Wallet.set_balance value wallet = Raise e -> is_ValueError e = true.
Proof.
  unfold Wallet.set_balance. destruct (value <? 0); [|discriminate].
  now intros [= <-].
Qed.

Lemma deposit_raise (amount : float) (wallet : Wallet.t) (e : exn) :
  Wallet.deposit amount wallet = Raise e -> is_ValueError e = true.
Proof.
  unfold Wallet.deposit. destruct (amount <=? 0).
  - now intros [= <-].
  - apply set_balance_raise.
Qed.

(** [withdraw] changes nothing but the console, and raises [ValueError]
    only. *)
Lemma withdraw_raise (amount : float) (wallet : Wallet.t) (w w' : World)
    (e : exn) :
  Wallet.withdraw amount wallet w = (Raise e, w') ->
  is_ValueError e = true /\ portfolios_json w' = portfolios_json w.
Proof.
  unfold Wallet.withdraw. destruct (amount <=? 0).
  - now intros [= <- <-].
  - unfold Store.bind, Store.lift.
    destruct (Wallet._balance wallet <? amount); simpl;
      intros [= H <-]; (split; [exact (set_balance_raise _ _ _ H) | reflexivity]).
Qed.

Lemma get_user_portfolio_ok (user_id : Z) (w : World) :
  exists p w', get_user_portfolio user_id w = (Ok p, w').
Proof.
  destruct (find_portfolio user_id (portfolios_json w)) as [doc|] eqn:E.
  - rewrite (StoreFacts.get_user_portfolio_found _ _ _ E). eauto.
  - rewrite (StoreFacts.get_user_portfolio_new _ _ E). eauto.
Qed.

(** [sell_currency] raises [ValueError] and nothing else. *)
Lemma sell_currency_raises_ValueError_only
    (get_rate : string -> string -> option float) (user_id : Z)
    (currency_code : string) (amount : float) (w w' : World) (e : exn) :
  sell_currency get_rate user_id currency_code amount w = (Raise e, w') ->
  is_ValueError e = true.
Proof.
  unfold sell_currency. destruct (negb (Utils.validate_amount amount)).
  - now intros [= <- <-].
  - unfold Store.bind at 1.
    destruct (get_user_portfolio_ok user_id w) as (p & w1 & ->).
    destruct (Portfolio.get_wallet _ p) as [wallet|].
    + unfold Store.bind at 1.
      destruct (Wallet.withdraw amount wallet w1) as [[wallet'|e'] w2] eqn:Ew.
      * unfold Store.bind. rewrite StoreFacts.save_portfolio_spec. discriminate.
      * intros [= <- <-]. exact (proj1 (withdraw_raise _ _ _ _ _ Ew)).
    + now intros [= <- <-].
Qed.

(** Whatever [sell_currency] raises, it is not [InsufficientFundsError]. *)
Lemma sell_currency_never_InsufficientFunds
    (get_rate : string -> string -> option float) (user_id : Z)
    (currency_code : string) (amount : float) (w w' : World) (e : exn) :
  sell_currency get_rate user_id currency_code amount w = (Raise e, w') ->
  is_InsufficientFunds e = false.
Proof.
  intros H. apply sell_currency_raises_ValueError_only in H.
  now destruct e.
Qed.

Lemma sell_currency_never_CurrencyNotFound
    (get_rate : string -> string -> option float) (user_id : Z)
    (currency_code : string) (amount : float) (w w' : World) (e : exn) :
  sell_currency get_rate user_id currency_code amount w = (Raise e, w') ->
  is_CurrencyNotFound e = false.
Proof.
  intros H. apply sell_currency_raises_ValueError_only in H.
  now destruct e.
Qed.

(** What [buy_currency] does between loading the portfolio and the
    deposit: the wallet is there afterwards. *)
Lemma buy_wallet_ready (currency_code : string) (p : Portfolio.t) :
  let code := upper currency_code in
  exists p' wallet,
    (if negb (dict_contains code (Portfolio.wallets p))
     then Portfolio.add_currency code p else Ok p) = Ok p'
    /\ Portfolio.get_wallet code p' = Some wallet
    /\ Portfolio._user_id p' = Portfolio._user_id p
    /\ Wallet.balance wallet
       = match Portfolio.get_wallet code p with
         | Some wallet0 => Wallet.balance wallet0
         | None => 0
         end.
Proof.
  intros code. unfold Portfolio.add_currency, Portfolio.get_wallet,
    Portfolio.wallets, dict_contains. subst code.
  rewrite !upper_idem.
  destruct (dict_get (upper currency_code) (Portfolio._wallets p))
    as [wallet|] eqn:E; simpl.
  - exists p, wallet. now rewrite E.
  - eexists _, _. split; [reflexivity|]. simpl.
    rewrite PyFacts.dict_get_set_same. repeat split; reflexivity.
Qed.

(** [buy_currency] raises [ValueError] and nothing else. *)
Lemma buy_currency_raises_ValueError_only
    (get_rate : string -> string -> option float) (user_id : Z)
    (currency_code : string) (amount : float) (w w' : World) (e : exn) :
  buy_currency get_rate user_id currency_code amount w = (Raise e, w') ->
  is_ValueError e = true.
Proof.
  unfold buy_currency. destruct (negb (Utils.validate_amount amount)).
  - now intros [= <- <-].
  - unfold Store.bind at 1.
    destruct (get_user_portfolio_ok user_id w) as (p & w1 & ->).
    destruct (buy_wallet_ready currency_code p) as (p' & wallet & Hp & Hw & _).
    unfold Store.bind at 1.
    replace ((if negb (dict_contains (upper currency_code) (Portfolio.wallets p))
              then Store.lift (Portfolio.add_currency (upper currency_code) p)
              else Store.ret p) w1) with (Ok p', w1)
      by (unfold Store.lift, Store.ret; rewrite <- Hp;
          now destruct (negb (dict_contains _ _))).
    rewrite Hw. unfold Store.bind at 1, Store.lift.
    destruct (Wallet.deposit amount wallet) as [wallet'|e'] eqn:Ed.
    + unfold Store.bind. rewrite StoreFacts.save_portfolio_spec. discriminate.
    + intros [= <- <-]. exact (deposit_raise _ _ _ Ed).
Qed.

(** Whatever [buy_currency] raises, it is not [CurrencyNotFoundError]. *)
Lemma buy_currency_never_CurrencyNotFound
    (get_rate : string -> string -> option float) (user_id : Z)
    (currency_code : string) (amount : float) (w w' : World) (e : exn) :
  buy_currency get_rate user_id currency_code amount w = (Raise e, w') ->
  is_CurrencyNotFound e = false.
Proof.
  intros H. apply buy_currency_raises_ValueError_only in H.
  now destruct e.
Qed.

(** The result of [buy_currency] never has a cost estimate, whatever the
    rate service answers. *)
Lemma buy_currency_estimated_cost_None
    (get_rate : string -> string -> option float) (user_id : Z)
    (currency_code : string) (amount : float) (w w' : World)
    (r : buy_result) :
  buy_currency get_rate user_id currency_code amount w = (Ok r, w') ->
  b_estimated_cost r = None /\ b_rate r = get_rate (upper currency_code) "USD".
Proof.
  unfold buy_currency. destruct (negb (Utils.validate_amount amount)).
  - discriminate.
  - unfold Store.bind at 1.
    destruct (get_user_portfolio_ok user_id w) as (p & w1 & ->).
    unfold Store.bind at 1.
    destruct ((if negb (dict_contains (upper currency_code) (Portfolio.wallets p))
               then Store.lift (Portfolio.add_currency (upper currency_code) p)
               else Store.ret p) w1) as [[p'|e'] w2]; [|discriminate].
    destruct (Portfolio.get_wallet _ p') as [wallet|]; [|discriminate].
    unfold Store.bind at 1, Store.lift.
    destruct (Wallet.deposit amount wallet) as [wallet'|e']; [|discriminate].
    unfold Store.bind. rewrite StoreFacts.save_portfolio_spec.
    intros [= <- <-]. split; reflexivity.
Qed.

(** A sale that raises after the user's portfolio was found leaves
    [portfolios.json] as it was. *)
Lemma sell_currency_raise_keeps_store
    (get_rate : string -> string -> option float) (user_id : Z)
    (currency_code : string) (amount : float) (w w' : World) (e : exn)
    (doc : portfolio_data) :
  find_portfolio user_id (portfolios_json w) = Some doc ->
  sell_currency get_rate user_id currency_code amount w = (Raise e, w') ->
  portfolios_json w' = portfolios_json w.
Proof.
  intros Hdoc. unfold sell_currency.
  destruct (negb (Utils.validate_amount amount)).
  - now intros [= <- <-].
  - unfold Store.bind at 1.
    rewrite (StoreFacts.get_user_portfolio_found _ _ _ Hdoc).
    destruct (Portfolio.get_wallet _ _) as [wallet|].
    + unfold Store.bind at 1.
      destruct (Wallet.withdraw amount wallet w) as [[wallet'|e'] w1] eqn:Ew.
      * unfold Store.bind. rewrite StoreFacts.save_portfolio_spec.
        discriminate.
      * intros [= <- <-]. exact (proj2 (withdraw_raise _ _ _ _ _ Ew)).
    + now intros [= <- <-].
Qed.

(** C7: an amount that is zero or negative makes [buy_currency] and
    [sell_currency] raise the [ValueError] of the amount check at once: the
    world they return is the world they got, so no portfolio was loaded or
    created, no wallet added, no balance changed, nothing saved. *)
Theorem nonpositive_amount_rejected :
  forall (get_rate : string -> string -> option float) (user_id : Z)
         (currency_code : string) (amount : float) (w : World),
    (amount <=? 0) = true ->
    buy_currency get_rate user_id currency_code amount w
    = (Raise (ValueError "Сумма должна быть положительной"), w)
    /\ sell_currency get_rate user_id currency_code amount w
       = (Raise (ValueError "Сумма должна быть положительной"), w).
Proof.
  intros get_rate user_id currency_code amount w H.
  unfold buy_currency, sell_currency, Utils.validate_amount.
  rewrite (FloatFacts.leb_zero_not_pos _ H). split; reflexivity.
Qed.

End WithBuiltins.

(** The examples are on ASCII text: their builtins are [ascii_builtins].
    By [OnAscii.buy_currency_on_ascii], [OnAscii.sell_currency_on_ascii],
    [OnAscii.stored_balance_on_ascii] and [OnAscii.get_currency_on_ascii],
    what they state of an ASCII code is what the builtins of any interpreter
    give that is faithful on ASCII text. *)
#[local] Existing Instance ascii_builtins.

Lemma nonpositive_amount_rejected_witness :
  buy_currency (Utils.get_rate btc_snapshot) 1 "BTC" (-3) world_2btc
  = (Raise (ValueError "Сумма должна быть положительной"), world_2btc)
  /\ sell_currency (Utils.get_rate btc_snapshot) 1 "BTC" (-3) world_2btc
     = (Raise (ValueError "Сумма должна быть положительной"), world_2btc).
Proof.
  apply nonpositive_amount_rejected. reflexivity.
Defined.

(** C1 (the code at the failing input): user 1 holds 2.0 BTC and sells
    5.0.  [withdraw] prints ["error"] and goes on to the setter, which raises
    the [ValueError] of a negative balance: no [InsufficientFundsError], no
    [available] and [required].  The stored balance stays 2.0. *)
Theorem sell_above_balance_raises_ValueError :
  forall get_rate : string -> string -> option float,
    sell_currency get_rate 1 "BTC" 5 world_2btc
    = (Raise (ValueError "Баланс не может быть отрицательным"),
       {| portfolios_json := portfolios_json world_2btc;
          stdout := ["error"] |})
    /\ stored_balance 1 "BTC" world_2btc = Some 2.
Proof.
  intros get_rate. split; reflexivity.
Qed.

(** C2 (the code at the failing input): the cache holds BTC_USD and user 1
    buys 0.5 BTC on a fresh store.  The result carries the rate and no
    estimated cost. *)
Theorem buy_with_rate_has_no_estimated_cost :
  exists w',
    buy_currency (Utils.get_rate btc_snapshot) 1 "BTC" 0.5 fresh_world
    = (Ok {| b_currency := "BTC";
             b_amount := 0.5;
             b_rate := Some 59337.21;
             b_estimated_cost := None;
             b_old_balance := 0;
             b_new_balance := 0.5 |}, w').
Proof.
  eexists. vm_compute. reflexivity.
Qed.

(** C4 (the code at the failing input): XYZ is not in the registry, yet
    buying 1.0 XYZ on a fresh store succeeds and persists an XYZ wallet, and
    selling XYZ there fails only for the missing wallet. *)
Theorem unregistered_currency_is_traded :
  Currencies.get_currency "XYZ" = Raise (CurrencyNotFoundError "XYZ")
  /\ (forall get_rate : string -> string -> option float,
        buy_currency get_rate 1 "XYZ" 1 fresh_world
        = (Ok {| b_currency := "XYZ";
                 b_amount := 1;
                 b_rate := get_rate "XYZ" "USD";
                 b_estimated_cost := None;
                 b_old_balance := 0;
                 b_new_balance := 1 |},
           {| portfolios_json :=
                [ {| pd_user_id := 1;
                     pd_wallets :=
                       [ ("XYZ", {| wd_currency_code := "XYZ";
                                    wd_balance := 1 |}) ] |} ];
              stdout := [] |}))
  /\ (forall get_rate : string -> string -> option float,
        sell_currency get_rate 1 "XYZ" 1 fresh_world
        = (Raise (ValueError "У вас нет кошелька для валюты 'XYZ'"),
           {| portfolios_json := [ {| pd_user_id := 1; pd_wallets := [] |} ];
              stdout := [] |})).
Proof.
  repeat split; intros; reflexivity.
Qed.

End LedgerErrors.

(* ================================================================= *)
(** ** Wallet and Portfolio *)

Module ModelFacts.
Import Ledger.
Local Open Scope float_scope.

Section WithBuiltins.
Context {B : Builtins}.

Section Registry.
Hypothesis on_ascii : ascii_faithful B.

(** The registry is what [_initialize_currencies] builds from [{}]: the
    five fiat and four crypto currencies, whose names and codes are ASCII
    and all pass validation. *)
Lemma registry_initialized :
  Currencies._initialize_currencies [] = Ok Currencies._CURRENCY_REGISTRY
  /\ dict_keys Currencies._CURRENCY_REGISTRY
     = ["USD"; "EUR"; "RUB"; "GBP"; "JPY"; "BTC"; "ETH"; "LTC"; "ADA"].
Proof.
  unfold Currencies._CURRENCY_REGISTRY.
  rewrite (OnAscii.initialize_currencies_ascii on_ascii). split; reflexivity.
Qed.

End Registry.

(** C9: a negative balance passes the constructor and [from_dict], which
    assign the field, and so does a stored document on its way into a
    portfolio; the setter is the one place that refuses it. *)
Theorem negative_balance_enters_unchecked :
  forall (currency_code : string) (b : float),
    (b <? 0) = true ->
    Wallet.balance (Wallet.__init__ currency_code b) = b
    /\ Wallet.balance
         (Wallet.from_dict {| wd_currency_code := currency_code;
                              wd_balance := b |}) = b
    /\ (forall (user_id : Z) (w : World),
          stored_balance user_id currency_code w = Some b ->
          exists p wallet,
            PortfolioManager.get_user_portfolio user_id w = (Ok p, w)
            /\ Portfolio.get_wallet currency_code p = Some wallet
            /\ Wallet.balance wallet = b)
    /\ (forall wallet : Wallet.t,
          Wallet.set_balance b wallet
          = Raise (ValueError "Баланс не может быть отрицательным")).
Proof.
  intros currency_code b Hneg. repeat split.
  - intros user_id w. unfold stored_balance.
    destruct (PortfolioManager.find_portfolio user_id (portfolios_json w))
      as [doc|] eqn:Edoc; [|discriminate].
    destruct (dict_get (upper currency_code) (pd_wallets doc))
      as [wd|] eqn:Ewd; [|discriminate].
    intros [= <-].
    exists (Portfolio.from_dict doc), (Wallet.from_dict wd).
    split; [exact (StoreFacts.get_user_portfolio_found _ _ _ Edoc)|].
    split; [|reflexivity].
    unfold Portfolio.get_wallet, Portfolio.from_dict. simpl.
    now rewrite (PyFacts.dict_get_map Wallet.from_dict), Ewd.
  - intros wallet. unfold Wallet.set_balance. now rewrite Hneg.
Qed.

End WithBuiltins.

(** The examples are on ASCII text: their builtins are [ascii_builtins]. *)
#[local] Existing Instance ascii_builtins.

Lemma negative_balance_enters_unchecked_witness :
  Wallet.balance (Wallet.__init__ "BTC" (-5)) = (-5)
  /\ Wallet.balance
       (Wallet.from_dict {| wd_currency_code := "BTC";
                            wd_balance := (-5) |}) = (-5)
  /\ (forall (user_id : Z) (w : World),
        stored_balance user_id "BTC" w = Some (-5) ->
        exists p wallet,
          PortfolioManager.get_user_portfolio user_id w = (Ok p, w)
          /\ Portfolio.get_wallet "BTC" p = Some wallet
          /\ Wallet.balance wallet = (-5))
  /\ (forall wallet : Wallet.t,
        Wallet.set_balance (-5) wallet
        = Raise (ValueError "Баланс не может быть отрицательным")).
Proof.
  apply (negative_balance_enters_unchecked "BTC" (-5)). reflexivity.
Defined.

Lemma total_value_loop_app (base_currency : string)
    (exchange_rates : dict Portfolio.rate_entry) (items items' : dict Wallet.t)
    (total : float) :
  Portfolio.total_value_loop base_currency exchange_rates total
    (items ++ items')%list
  = match Portfolio.total_value_loop base_currency exchange_rates total items
    with
    | Ok total' =>
        Portfolio.total_value_loop base_currency exchange_rates total' items'
    | Raise e => Raise e
    end.
Proof.
  revert total. induction items as [|item items IH]; intros total; simpl.
  - reflexivity.
  - destruct (Portfolio.total_value_step _ _ total item); [apply IH | reflexivity].
Qed.

(** What the loop of [get_total_value] adds for a wallet of another
    currency than the base whose pair the rates do not have. *)
Lemma missing_pair_step (base_currency : string)
    (exchange_rates : dict Portfolio.rate_entry) (total : float)
    (currency_code : string) (wallet : Wallet.t) :
  String.eqb currency_code base_currency = false ->
  dict_get (currency_code ++ "_" ++ base_currency) exchange_rates = None ->
  Portfolio.total_value_step base_currency exchange_rates total
    (currency_code, wallet)
  = Ok (let rate_key := currency_code ++ "_" ++ base_currency in
        if String.eqb rate_key "BTC_USD"
        then total + Wallet.balance wallet * 59337.21
        else if String.eqb rate_key "EUR_USD"
        then total + Wallet.balance wallet * 1.0786
        else if String.eqb rate_key "RUB_USD"
        then total + Wallet.balance wallet * 0.01016
        else if String.eqb rate_key "ETH_USD"
        then total + Wallet.balance wallet * 3720.00
        else total).
Proof.
  intros Hne Habs. unfold Portfolio.total_value_step.
  rewrite Hne, Habs. unfold Portfolio.demo_rates. cbn [dict_get].
  rewrite !(String.eqb_sym _ (currency_code ++ "_" ++ base_currency)).
  repeat match goal with
         | |- context [String.eqb ?a ?b] => destruct (String.eqb a b)
         end; reflexivity.
Qed.

(** C10 (as stated, at an input): a USD wallet valued in USD with no rates.
    Its pair USD_USD is absent from the rates and is not a demo pair, yet it
    counts for its balance, not for 0. *)
Lemma base_currency_wallet_counts_in_full :
  dict_get ("USD" ++ "_" ++ "USD") ([] : dict Portfolio.rate_entry) = None
  /\ dict_get ("USD" ++ "_" ++ "USD") Portfolio.demo_rates = None
  /\ Portfolio.get_total_value "USD" None usd_portfolio = Ok 100
  /\ Portfolio.get_total_value "USD" None usd_portfolio <> Ok 0.
Proof.
  repeat split; try reflexivity.
  intros H. vm_compute in H. discriminate H.
Qed.

(** C10 (amended): for a wallet of another currency than the base whose
    pair is absent from the rates, [get_total_value] on a portfolio that ends
    with this wallet returns the total of the wallets before it plus the
    balance times the demo rate when the pair is BTC_USD, EUR_USD, RUB_USD or
    ETH_USD, and that total unchanged for any other pair; the outcome is a
    bare number either way. *)
Theorem missing_pair_valued_by_demo_rate :
  forall (base_currency : string) (exchange_rates : dict Portfolio.rate_entry)
         (user_id : Z) (wallets : dict Wallet.t) (currency_code : string)
         (wallet : Wallet.t),
    String.eqb currency_code base_currency = false ->
    dict_get (currency_code ++ "_" ++ base_currency) exchange_rates = None ->
    Portfolio.get_total_value base_currency (Some exchange_rates)
      {| Portfolio._user_id := user_id;
         Portfolio._wallets := (wallets ++ [(currency_code, wallet)])%list |}
    = match Portfolio.get_total_value base_currency (Some exchange_rates)
              {| Portfolio._user_id := user_id;
                 Portfolio._wallets := wallets |}
      with
      | Raise e => Raise e
      | Ok total =>
          Ok (let rate_key := currency_code ++ "_" ++ base_currency in
              if String.eqb rate_key "BTC_USD"
              then total + Wallet.balance wallet * 59337.21
              else if String.eqb rate_key "EUR_USD"
              then total + Wallet.balance wallet * 1.0786
              else if String.eqb rate_key "RUB_USD"
              then total + Wallet.balance wallet * 0.01016
              else if String.eqb rate_key "ETH_USD"
              then total + Wallet.balance wallet * 3720.00
              else total)
      end.
Proof.
  intros base_currency exchange_rates user_id wallets currency_code wallet
    Hne Habs.
  unfold Portfolio.get_total_value. cbn [Portfolio._wallets].
  rewrite total_value_loop_app.
  destruct (Portfolio.total_value_loop base_currency exchange_rates 0 wallets)
    as [total|e]; [|reflexivity].
  cbn [Portfolio.total_value_loop].
  now rewrite (missing_pair_step _ _ _ _ _ Hne Habs).
Qed.

Lemma missing_pair_valued_by_demo_rate_witness :
  Portfolio.get_total_value "USD" (Some [])
    {| Portfolio._user_id := 1;
       Portfolio._wallets :=
         ([("USD", Wallet.__init__ "USD" 100)]
          ++ [("BTC", Wallet.__init__ "BTC" 2)])%list |}
  = Ok (100 + 2 * 59337.21).
Proof.
  exact (missing_pair_valued_by_demo_rate "USD" [] 1
           [("USD", Wallet.__init__ "USD" 100)] "BTC"
           (Wallet.__init__ "BTC" 2) eq_refl eq_refl).
Defined.

End ModelFacts.

(* ================================================================= *)
(** ** The update batch *)

Module BatchFacts.
Import ApiClients RatesUpdater Batch.

Lemma bind_Ok {E A B : Type} (a : A) (t : list E) (k : A -> Eff E B) :
  Trace.bind (Ok a, t) k = (fst (k a), (t ++ snd (k a))%list).
Proof. unfold Trace.bind. now destruct (k a). Qed.

Lemma bind_Raise {E A B : Type} (e : exn) (t : list E) (k : A -> Eff E B) :
  Trace.bind (Raise e, t) k = (Raise e, t).
Proof. reflexivity. Qed.

Section WithBuiltins.
Context {B : Builtins}.

Lemma unpack_pair_is_pair (key : string) :
  is_pair key = true ->
  exists from_currency to_currency,
    unpack_pair key = Ok (from_currency, to_currency).
Proof.
  unfold is_pair, unpack_pair.
  destruct (split "_" key) as [|a [|b [|c l]]]; try discriminate.
  intros _. now exists a, b.
Qed.

(** With pairs for keys, the history loop ends and writes one record for
    each item. *)
Lemma save_history_pairs (client_name : string) (rates : dict float) :
  all_pairs rates = true ->
  save_history client_name rates = (Ok tt, history_of client_name rates).
Proof.
  unfold all_pairs, history_of.
  induction rates as [|[key rate] rates IH];
    cbn [save_history forallb flat_map fst snd]; [reflexivity|].
  intros H. apply andb_prop in H as [Hk Hr].
  destruct (unpack_pair_is_pair key Hk) as (f & t & E).
  rewrite E. unfold Trace.pure. rewrite bind_Ok.
  unfold Trace.emit. rewrite bind_Ok, (IH Hr). reflexivity.
Qed.

Lemma storage_calls_app (t t' : list event) :
  storage_calls (t ++ t') = (storage_calls t ++ storage_calls t')%list.
Proof. apply filter_app. Qed.

Lemma snapshot_writes_app (t t' : list event) :
  snapshot_writes (t ++ t') = (snapshot_writes t ++ snapshot_writes t')%list.
Proof. apply filter_app. Qed.

Lemma storage_calls_logs (t : list log_record) :
  storage_calls (map Log t) = [].
Proof. induction t as [|r t IH]; [reflexivity | exact IH]. Qed.

Lemma snapshot_writes_logs (t : list log_record) :
  snapshot_writes (map Log t) = [].
Proof. induction t as [|r t IH]; [reflexivity | exact IH]. Qed.

Lemma snapshot_writes_history (client_name : string) (rates : dict float) :
  snapshot_writes (history_of client_name rates) = [].
Proof.
  unfold history_of. induction rates as [|kv rates IH]; [reflexivity|].
  simpl. rewrite snapshot_writes_app, IH, app_nil_r.
  destruct (unpack_pair (fst kv)) as [[f t]|]; reflexivity.
Qed.

(** One turn of the loop for a name that is no source. *)
Lemma update_loop_unknown (self : RatesUpdater.t) (client_name : string)
    (names : list string) (all_rates : dict float) :
  dict_get client_name (clients self) = None ->
  update_loop self (client_name :: names) all_rates
  = (fst (update_loop self names all_rates),
     (Log (LogRecord WARNING ("Неизвестный источник: " ++ client_name))
      :: snd (update_loop self names all_rates))).
Proof.
  intros H. cbn [update_loop]. rewrite H.
  unfold Trace.logger, Trace.emit. now rewrite bind_Ok.
Qed.

(** One turn of the loop for a source that raises [ApiRequestError]: what
    it logged, one error line, and on to the next with the same mapping. *)
Lemma update_loop_fails (self : RatesUpdater.t) (client_name : string)
    (names : list string) (all_rates : dict float) (client : BaseApiClient)
    (reason : string) (t : list log_record) :
  dict_get client_name (clients self) = Some client ->
  fetch_rates client = (Raise (ApiRequestError reason), t) ->
  update_loop self (client_name :: names) all_rates
  = (fst (update_loop self names all_rates),
     (map Log t
      ++ Log (LogRecord ERROR ("Ошибка обновления из " ++ client_name ++ ": "
                               ++ ApiRequestError_str reason))
      :: snd (update_loop self names all_rates))%list).
Proof.
  intros Hc Hf. cbn [update_loop]. rewrite Hc.
  unfold Trace.logged. rewrite Hf. cbn [fst snd].
  rewrite bind_Raise. unfold try_except_ApiRequestError.
  unfold Trace.logger, Trace.emit. rewrite bind_Ok.
  cbn [fst snd Trace.ret]. rewrite bind_Ok.
  now rewrite <- app_assoc.
Qed.

(** One turn of the loop for a source that returns pairs: what it logged,
    the history records, one info line, and on with the merged mapping. *)
Lemma update_loop_returns (self : RatesUpdater.t) (client_name : string)
    (names : list string) (all_rates : dict float) (client : BaseApiClient)
    (rates : dict float) (t : list log_record) :
  dict_get client_name (clients self) = Some client ->
  fetch_rates client = (Ok rates, t) ->
  all_pairs rates = true ->
  update_loop self (client_name :: names) all_rates
  = (fst (update_loop self names (dict_update all_rates rates)),
     (map Log t ++ history_of client_name rates
      ++ Log (LogRecord INFO ("Успешно обновлено из " ++ client_name ++ ": "
                              ++ str_nat (List.length rates) ++ " курсов"))
      :: snd (update_loop self names (dict_update all_rates rates)))%list).
Proof.
  intros Hc Hf Hp. cbn [update_loop]. rewrite Hc.
  unfold Trace.logged. rewrite Hf. cbn [fst snd].
  rewrite bind_Ok, (save_history_pairs _ _ Hp), bind_Ok.
  unfold Trace.logger, Trace.emit. rewrite bind_Ok.
  cbn [fst snd Trace.ret]. unfold try_except_ApiRequestError.
  rewrite bind_Ok. f_equal.
  rewrite !app_nil_r, <- !app_assoc. reflexivity.
Qed.

(** The loop over names that bring nothing ends with the empty mapping and
    made no storage call. *)
Lemma update_loop_nothing (self : RatesUpdater.t) (names : list string) :
  Forall (brings_nothing (clients self)) names ->
  fst (update_loop self names []) = Ok []
  /\ storage_calls (snd (update_loop self names [])) = [].
Proof.
  induction 1 as [|name names Hn _ IH].
  - split; reflexivity.
  - unfold brings_nothing in Hn.
    destruct (dict_get name (clients self)) as [client|] eqn:Ec.
    + destruct Hn as [(reason & t & Hf) | (t & Hf)].
      * rewrite (update_loop_fails _ _ _ _ _ _ _ Ec Hf). cbn [fst snd].
        split; [apply IH|].
        rewrite storage_calls_app, storage_calls_logs. simpl. apply IH.
      * rewrite (update_loop_returns _ _ _ _ _ _ _ Ec Hf eq_refl).
        cbn [fst snd]. change (dict_update [] []) with (@nil (string * float)).
        split; [apply IH|].
        rewrite storage_calls_app, storage_calls_logs. simpl. apply IH.
    + rewrite (update_loop_unknown _ _ _ _ Ec). cbn [fst snd].
      split; [apply IH | simpl; apply IH].
Qed.

(** [run_update] around its loop: the opening line, the loop, then the
    snapshot write when something was brought. *)
Lemma run_update_unfold (self : RatesUpdater.t) (source : option string) :
  run_update self source
  = match update_loop self (sources_to_update self source) [] with
    | (Ok all_rates, t) =>
        (Ok all_rates,
         (Log (LogRecord INFO "Запуск обновления курсов") :: t
          ++ match all_rates with
             | _ :: _ =>
                 [ SaveCurrentRates all_rates "ParserService";
                   Log (LogRecord INFO
                          ("Обновление завершено. Всего курсов: "
                           ++ str_nat (List.length all_rates))) ]
             | [] => [ Log (LogRecord WARNING "Курсы не были обновлены") ]
             end)%list)
    | (Raise e, t) =>
        (Raise e, Log (LogRecord INFO "Запуск обновления курсов") :: t)
    end.
Proof.
  unfold run_update, Trace.logger, Trace.emit. rewrite bind_Ok.
  destruct (update_loop self (sources_to_update self source) [])
    as [[all_rates|e] t].
  - rewrite bind_Ok. destruct all_rates as [|kv all_rates].
    + rewrite bind_Ok. reflexivity.
    + repeat (rewrite bind_Ok; cbn [fst snd Trace.ret]).
      now rewrite !app_nil_r.
  - reflexivity.
Qed.

Lemma sources_of_no_filter (self : RatesUpdater.t) (source : option string) :
  truthy_str source = false ->
  sources_to_update self source = dict_keys (clients self).
Proof.
  unfold sources_to_update. destruct source as [s|]; [|reflexivity].
  now intros ->.
Qed.

(** C6: when every name of the working set is unknown, fails, or returns
    an empty mapping, [run_update] returns the empty mapping, raises nothing
    and makes no call to the storage: no snapshot write, no history record. *)
Theorem run_update_nothing_fetched :
  forall (self : RatesUpdater.t) (source : option string),
    Forall (brings_nothing (clients self)) (sources_to_update self source) ->
    exists t,
      run_update self source = (Ok [], t) /\ storage_calls t = [].
Proof.
  intros self source H. rewrite run_update_unfold.
  destruct (update_loop_nothing self _ H) as [Hr Ht].
  destruct (update_loop self (sources_to_update self source) [])
    as [r t]. cbn [fst snd] in Hr, Ht. subst r.
  eexists. split; [reflexivity|].
  change (storage_calls (?a :: ?l)) with (storage_calls l).
  cbn [storage_calls filter is_storage_call].
  fold (storage_calls (t ++ [Log (LogRecord WARNING "Курсы не были обновлены")])).
  rewrite storage_calls_app, Ht. reflexivity.
Qed.

(** C5: two providers, no source filter; one raises [ApiRequestError], the
    other returns a non-empty mapping of pairs.  [run_update] returns that
    mapping, raises nothing, and writes the snapshot once, with that
    mapping. *)
Theorem run_update_survives_one_failure :
  forall (config : ParserConfig) (name1 name2 : string)
         (client1 client2 : BaseApiClient) (source : option string)
         (rates : dict float),
    truthy_str source = false ->
    String.eqb name1 name2 = false ->
    dict_wf rates -> rates <> [] -> all_pairs rates = true ->
    (fails client1 /\ returns client2 rates)
    \/ (returns client1 rates /\ fails client2) ->
    exists t,
      run_update {| config := config;
                    clients := [(name1, client1); (name2, client2)] |} source
      = (Ok rates, t)
      /\ snapshot_writes t = [SaveCurrentRates rates "ParserService"].
Proof.
  intros config name1 name2 client1 client2 source rates
    Hsrc Hne Hwf Hnonempty Hpairs Hcase.
  set (self := {| config := config;
                  clients := [(name1, client1); (name2, client2)] |}).
  assert (H1 : dict_get name1 (clients self) = Some client1)
    by (simpl; now rewrite String.eqb_refl).
  assert (H2 : dict_get name2 (clients self) = Some client2)
    by (simpl; now rewrite Hne, String.eqb_refl).
  rewrite run_update_unfold, (sources_of_no_filter _ _ Hsrc).
  change (dict_keys (clients self)) with [name1; name2].
  destruct Hcase as [[(reason & t1 & Hf1) (t2 & Hf2)]
                    | [(t1 & Hf1) (reason & t2 & Hf2)]].
  - rewrite (update_loop_fails _ _ _ _ _ _ _ H1 Hf1).
    rewrite (update_loop_returns _ _ _ _ _ _ _ H2 Hf2 Hpairs).
    rewrite (PyFacts.dict_update_empty _ Hwf). cbn [update_loop fst snd Trace.ret].
    destruct rates as [|kv rates']; [contradiction|].
    eexists. split; [reflexivity|].
    change (snapshot_writes (?a :: ?l)) with (snapshot_writes l).
    rewrite !snapshot_writes_app, !snapshot_writes_logs. cbn [app].
    change (snapshot_writes (Log ?r :: ?l)) with (snapshot_writes l).
    rewrite !snapshot_writes_app, !snapshot_writes_logs,
      snapshot_writes_history. reflexivity.
  - rewrite (update_loop_returns _ _ _ _ _ _ _ H1 Hf1 Hpairs).
    rewrite (PyFacts.dict_update_empty _ Hwf).
    rewrite (update_loop_fails _ _ _ _ _ _ _ H2 Hf2).
    cbn [update_loop fst snd Trace.ret].
    destruct rates as [|kv rates']; [contradiction|].
    eexists. split; [reflexivity|].
    change (snapshot_writes (?a :: ?l)) with (snapshot_writes l).
    rewrite !snapshot_writes_app, !snapshot_writes_logs,
      snapshot_writes_history. cbn [app].
    change (snapshot_writes (Log ?r :: ?l)) with (snapshot_writes l).
    rewrite !snapshot_writes_app, !snapshot_writes_logs. reflexivity.
Qed.

(** C8: without an API key (unset or empty), [fetch_rates] of the fiat
    client logs its opening line and a warning and returns the empty
    mapping; it makes no request and raises nothing.  In the updater's batch
    the pairs CoinGecko returned are then the pairs [run_update] returns. *)
Theorem missing_api_key_returns_empty :
  forall (config : ParserConfig)
         (requests_get : string -> http_outcome exchangerate_data),
    truthy_str (EXCHANGERATE_API_KEY config) = false ->
    fetch_rates (ExchangeRateApiClient config requests_get)
    = (Ok [], keyless_log)
    /\ (forall (coingecko_get : string -> http_outcome coingecko_data)
               (rates : dict float) (t : list log_record),
          fetch_rates (CoinGeckoClient config coingecko_get) = (Ok rates, t) ->
          all_pairs rates = true ->
          fst (run_update (RatesUpdater.__init__ config coingecko_get
                             requests_get) None)
          = Ok (dict_update [] rates)).
Proof.
  intros config requests_get Hkey.
  assert (Hfetch : fetch_rates (ExchangeRateApiClient config requests_get)
                   = (Ok [], keyless_log)).
  { cbn [fetch_rates ExchangeRateApiClient].
    unfold ExchangeRateApi_fetch_rates. rewrite Hkey. reflexivity. }
  split; [exact Hfetch|].
  intros coingecko_get rates t Hcg Hpairs.
  set (self := RatesUpdater.__init__ config coingecko_get requests_get).
  assert (H1 : dict_get "coingecko" (clients self)
               = Some (CoinGeckoClient config coingecko_get))
    by reflexivity.
  assert (H2 : dict_get "exchangerate" (clients self)
               = Some (ExchangeRateApiClient config requests_get))
    by reflexivity.
  rewrite run_update_unfold.
  change (sources_to_update self None) with ["coingecko"; "exchangerate"].
  rewrite (update_loop_returns _ _ _ _ _ _ _ H1 Hcg Hpairs).
  rewrite (update_loop_returns _ _ _ _ _ _ _ H2 Hfetch eq_refl).
  reflexivity.
Qed.

End WithBuiltins.

(** The examples are on ASCII text: their builtins are [ascii_builtins]. *)
#[local] Existing Instance ascii_builtins.

(** An unknown source name: a warning for the name, a warning for the
    empty batch, and the empty mapping. *)
Example run_update_unknown_source :
  run_update
    (RatesUpdater.__init__ keyless_config
       (fun _ => RequestException "unreachable")
       (fun _ => RequestException "unreachable"))
    (Some "bank")
  = (Ok [],
     [ Log (LogRecord INFO "Запуск обновления курсов");
       Log (LogRecord WARNING "Неизвестный источник: bank");
       Log (LogRecord WARNING "Курсы не были обновлены") ]).
Proof. reflexivity. Qed.

(** Both sources out of reach: three error lines each, and the empty
    mapping. *)
Example run_update_all_down :
  fst (run_update
         (RatesUpdater.__init__
            {| EXCHANGERATE_API_KEY := Some "key";
               COINGECKO_URL := COINGECKO_URL keyless_config;
               EXCHANGERATE_API_URL := EXCHANGERATE_API_URL keyless_config;
               BASE_CURRENCY := "USD";
               FIAT_CURRENCIES := ["EUR"];
               CRYPTO_CURRENCIES := ["BTC"];
               CRYPTO_ID_MAP := [("BTC", "bitcoin")];
               REQUEST_TIMEOUT := 10 |}
            (fun _ => RequestException "unreachable")
            (fun _ => JsonValueError "not JSON"))
         None)
  = Ok [].
Proof. reflexivity. Qed.

Lemma run_update_nothing_fetched_witness :
  exists t,
    run_update
      {| config := keyless_config;
         clients := [("coingecko", down_client); ("exchangerate", up_client)] |}
      (Some "bank")
    = (Ok [], t) /\ storage_calls t = [].
Proof.
  apply run_update_nothing_fetched. simpl. repeat constructor.
Defined.

Lemma run_update_survives_one_failure_witness :
  exists t,
    run_update
      {| config := keyless_config;
         clients := [("coingecko", down_client); ("exchangerate", up_client)] |}
      None
    = (Ok three_pairs, t)
    /\ snapshot_writes t = [SaveCurrentRates three_pairs "ParserService"].
Proof.
  apply run_update_survives_one_failure; try reflexivity.
  - unfold dict_wf. simpl. repeat constructor; simpl; intuition discriminate.
  - discriminate.
  - left. split.
    + exists "timeout", [LogRecord ERROR "timeout"]. reflexivity.
    + exists [LogRecord INFO "3"]. reflexivity.
Defined.

Lemma missing_api_key_returns_empty_witness :
  fetch_rates
    (ExchangeRateApiClient keyless_config
       (fun _ => RequestException "unreachable"))
  = (Ok [], keyless_log)
  /\ (forall (coingecko_get : string -> http_outcome coingecko_data)
             (rates : dict float) (t : list log_record),
        fetch_rates (CoinGeckoClient keyless_config coingecko_get)
        = (Ok rates, t) ->
        all_pairs rates = true ->
        fst (run_update (RatesUpdater.__init__ keyless_config coingecko_get
                           (fun _ => RequestException "unreachable")) None)
        = Ok (dict_update [] rates)).
Proof.
  apply missing_api_key_returns_empty. reflexivity.
Defined.

End BatchFacts.

(* ================================================================= *)
(** ** Buying and selling the same amount *)

Module RoundTrip.
Import PortfolioManager Ledger.
Local Open Scope float_scope.

Section WithBuiltins.
Context {B : Builtins}.
Hypothesis upper_idem : forall s : string, upper (upper s) = upper s.

Lemma get_wallet_put (currency_code : string) (wallet : Wallet.t)
    (p : Portfolio.t) :
  Portfolio.get_wallet (upper currency_code)
    (Portfolio.put_wallet (upper currency_code) wallet p) = Some wallet.
Proof.
  unfold Portfolio.get_wallet, Portfolio.put_wallet. cbn [Portfolio._wallets].
  rewrite !upper_idem. apply PyFacts.dict_get_set_same.
Qed.

(** The balance the store holds after a save is the saved wallet's. *)
Lemma stored_balance_saved (user_id : Z) (currency_code : string)
    (p : Portfolio.t) (wallet : Wallet.t) (docs : list portfolio_data)
    (out : list string) :
  Portfolio._user_id p = user_id ->
  Portfolio.get_wallet (upper currency_code) p = Some wallet ->
  stored_balance user_id currency_code
    {| portfolios_json := saved p docs; stdout := out |}
  = Some (Wallet.balance wallet).
Proof.
  intros <- Hw. unfold stored_balance. cbn [portfolios_json].
  rewrite StoreFacts.find_saved. unfold Portfolio.to_dict. cbn [pd_wallets].
  rewrite (PyFacts.dict_get_map Wallet.to_dict).
  unfold Portfolio.get_wallet in Hw. rewrite upper_idem in Hw.
  now rewrite Hw.
Qed.

(** The loaded portfolio holds what the store holds. *)
Lemma loaded_balance (user_id : Z) (currency_code : string) (w w1 : World)
    (p : Portfolio.t) :
  get_user_portfolio user_id w = (Ok p, w1) ->
  Portfolio._user_id p = user_id
  /\ option_map Wallet.balance (Portfolio.get_wallet (upper currency_code) p)
     = stored_balance user_id currency_code w.
Proof.
  unfold stored_balance.
  destruct (find_portfolio user_id (portfolios_json w)) as [doc|] eqn:E.
  - rewrite (StoreFacts.get_user_portfolio_found _ _ _ E). intros [= <- <-].
    split; [exact (StoreFacts.find_some_user _ _ _ E)|].
    unfold Portfolio.get_wallet, Portfolio.from_dict. cbn [Portfolio.__init__
      Portfolio._wallets]. rewrite upper_idem.
    rewrite (PyFacts.dict_get_map Wallet.from_dict).
    now destruct (dict_get (upper currency_code) (pd_wallets doc)).
  - rewrite (StoreFacts.get_user_portfolio_new _ _ E). intros [= <- <-].
    split; reflexivity.
Qed.

(** Buying into a wallet that is missing or at zero. *)
Lemma buy_currency_from_zero (get_rate : string -> string -> option float)
    (user_id : Z) (currency_code : string) (amount : float) (w w1 : World)
    (p : Portfolio.t) :
  (0 <? amount) = true ->
  get_user_portfolio user_id w = (Ok p, w1) ->
  match Portfolio.get_wallet (upper currency_code) p with
  | Some wallet0 => (Wallet.balance wallet0 =? 0) = true
  | None => True
  end ->
  exists p' old wallet,
    buy_currency get_rate user_id currency_code amount w
    = (Ok {| b_currency := upper currency_code;
             b_amount := amount;
             b_rate := get_rate (upper currency_code) "USD";
             b_estimated_cost := None;
             b_old_balance := old;
             b_new_balance := amount |},
       {| portfolios_json := saved p' (portfolios_json w1);
          stdout := stdout w1 |})
    /\ (old =? 0) = true
    /\ Portfolio._user_id p' = Portfolio._user_id p
    /\ Portfolio.get_wallet (upper currency_code) p' = Some wallet
    /\ Wallet.balance wallet = amount.
Proof.
  intros Hpos Hload Hzero.
  destruct (LedgerErrors.buy_wallet_ready upper_idem currency_code p)
    as (p1 & wallet1 & Hp1 & Hw1 & Hid & Hbal).
  assert (Hold : (Wallet.balance wallet1 =? 0) = true).
  { rewrite Hbal. destruct (Portfolio.get_wallet (upper currency_code) p);
      [exact Hzero | reflexivity]. }
  set (wallet2 := {| Wallet.currency_code := Wallet.currency_code wallet1;
                     Wallet._balance := amount |}).
  assert (Hdep : Wallet.deposit amount wallet1 = Ok wallet2).
  { unfold Wallet.deposit, Wallet.set_balance.
    rewrite (FloatFacts.pos_not_leb_zero _ Hpos).
    rewrite (FloatFacts.zero_add_pos _ _ Hold Hpos).
    now rewrite (FloatFacts.pos_not_ltb_zero _ Hpos). }
  exists (Portfolio.put_wallet (upper currency_code) wallet2 p1),
    (Wallet.balance wallet1), wallet2.
  split; [|repeat split; [exact Hold | exact Hid | apply get_wallet_put]].
  unfold buy_currency, Utils.validate_amount. rewrite Hpos. cbn [negb].
  unfold Store.bind at 1. rewrite Hload.
  unfold Store.bind at 1.
  replace ((if negb (dict_contains (upper currency_code) (Portfolio.wallets p))
            then Store.lift (Portfolio.add_currency (upper currency_code) p)
            else Store.ret p) w1) with (Ok p1, w1)
    by (unfold Store.lift, Store.ret; rewrite <- Hp1;
        now destruct (negb (dict_contains _ _))).
  rewrite Hw1. unfold Store.bind at 1, Store.lift. rewrite Hdep.
  unfold Store.bind. rewrite StoreFacts.save_portfolio_spec. reflexivity.
Qed.

(** Selling the whole of a finite balance. *)
Lemma sell_currency_whole_balance (get_rate : string -> string -> option float)
    (user_id : Z) (currency_code : string) (amount : float) (w : World)
    (p : Portfolio.t) (wallet : Wallet.t) :
  (0 <? amount) = true -> (amount <? infinity) = true ->
  get_user_portfolio user_id w = (Ok p, w) ->
  Portfolio.get_wallet (upper currency_code) p = Some wallet ->
  Wallet.balance wallet = amount ->
  exists r p' wallet' out,
    sell_currency get_rate user_id currency_code amount w
    = (Ok r, {| portfolios_json := saved p' (portfolios_json w);
                stdout := out |})
    /\ s_old_balance r = amount
    /\ s_new_balance r = 0
    /\ Portfolio._user_id p' = Portfolio._user_id p
    /\ Portfolio.get_wallet (upper currency_code) p' = Some wallet'
    /\ Wallet.balance wallet' = 0.
Proof.
  intros Hpos Hfin Hload Hw Hbal.
  set (wallet' := {| Wallet.currency_code := Wallet.currency_code wallet;
                     Wallet._balance := 0 |}).
  assert (Hwd : exists out,
             Wallet.withdraw amount wallet w
             = (Ok wallet', {| portfolios_json := portfolios_json w;
                               stdout := out |})).
  { unfold Wallet.withdraw, Wallet.set_balance.
    rewrite (FloatFacts.pos_not_leb_zero _ Hpos).
    unfold Wallet.balance in *. rewrite Hbal.
    rewrite (FloatFacts.finite_sub_self _ Hpos Hfin).
    unfold Store.bind, Store.lift, Store.print, Store.ret.
    destruct w as [docs out0].
    destruct (amount <? amount); eexists; reflexivity. }
  destruct Hwd as (out & Hwd).
  eexists _, (Portfolio.put_wallet (upper currency_code) wallet' p), wallet', out.
  split.
  { unfold sell_currency, Utils.validate_amount. rewrite Hpos. cbn [negb].
    unfold Store.bind at 1. rewrite Hload. rewrite Hw.
    unfold Store.bind at 1. rewrite Hwd.
    unfold Store.bind. rewrite StoreFacts.save_portfolio_spec. reflexivity. }
  repeat split; [exact Hbal | apply get_wallet_put].
Qed.

(** C3 (amended): for every finite amount above zero and every user whose
    stored portfolio has no wallet in the currency, or one whose balance is
    zero, [buy_currency] and then [sell_currency] of that amount both
    succeed; the balance before the purchase is zero, the purchase brings it
    to the amount, and after the sale the wallet, in the result and in the
    store, is at 0.0 again.  The code is upper-cased by the interpreter;
    all that is used of [upper] is that it is idempotent. *)
Theorem buy_then_sell_round_trip :
  forall (get_rate : string -> string -> option float) (user_id : Z)
         (currency_code : string) (amount : float) (w : World),
    (0 <? amount) = true ->
    (amount <? infinity) = true ->
    stored_balance user_id currency_code w = None
    \/ (exists b, stored_balance user_id currency_code w = Some b
                  /\ (b =? 0) = true) ->
    exists rb w1 rs w2,
      buy_currency get_rate user_id currency_code amount w = (Ok rb, w1)
      /\ sell_currency get_rate user_id currency_code amount w1 = (Ok rs, w2)
      /\ (b_old_balance rb =? 0) = true
      /\ b_new_balance rb = amount
      /\ s_new_balance rs = 0
      /\ (s_new_balance rs =? b_old_balance rb) = true
      /\ stored_balance user_id currency_code w2 = Some 0.
Proof.
  intros get_rate user_id currency_code amount w Hpos Hfin Hstored.
  destruct (LedgerErrors.get_user_portfolio_ok user_id w) as (p & w0 & Hload).
  destruct (loaded_balance user_id currency_code _ _ _ Hload) as [Hid Hbal].
  assert (Hzero : match Portfolio.get_wallet (upper currency_code) p with
                  | Some wallet0 => (Wallet.balance wallet0 =? 0) = true
                  | None => True
                  end).
  { destruct (Portfolio.get_wallet (upper currency_code) p) as [wallet0|];
      [|exact I].
    cbn [option_map] in Hbal.
    destruct Hstored as [Hs | (b & Hs & Hb)]; rewrite Hs in Hbal.
    - discriminate.
    - injection Hbal as ->. exact Hb. }
  destruct (buy_currency_from_zero get_rate user_id currency_code amount
              _ _ _ Hpos Hload Hzero)
    as (p1 & old & wallet1 & Hbuy & Hold & Hid1 & Hw1 & Hbal1).
  set (w1 := {| portfolios_json := saved p1 (portfolios_json w0);
                stdout := stdout w0 |}) in *.
  assert (Hload1 : get_user_portfolio user_id w1 = (Ok p1, w1)).
  { rewrite <- (StoreFacts.portfolio_from_to_dict p1) at 1.
    apply StoreFacts.get_user_portfolio_found.
    rewrite <- Hid, <- Hid1. apply StoreFacts.find_saved. }
  destruct (sell_currency_whole_balance get_rate user_id currency_code amount
              _ _ _ Hpos Hfin Hload1 Hw1 Hbal1)
    as (rs & p2 & wallet2 & out & Hsell & _ & Hnew & Hid2 & Hw2 & Hbal2).
  eexists _, w1, rs, _. split; [exact Hbuy|]. split; [exact Hsell|].
  cbn [b_old_balance b_new_balance].
  split; [exact Hold|]. split; [reflexivity|]. split; [exact Hnew|].
  split.
  - rewrite Hnew. destruct (FloatFacts.zero_cases _ Hold) as (s & Es).
    rewrite FloatAxioms.eqb_spec, Es. reflexivity.
  - rewrite <- Hbal2. apply stored_balance_saved; [|exact Hw2].
    now rewrite Hid2, Hid1.
Qed.

End WithBuiltins.

(** The examples are on ASCII text: their builtins are [ascii_builtins].
    By [OnAscii.buy_currency_on_ascii], [OnAscii.sell_currency_on_ascii],
    [OnAscii.stored_balance_on_ascii] and [OnAscii.get_currency_on_ascii],
    what they state of an ASCII code is what the builtins of any interpreter
    give that is faithful on ASCII text. *)
#[local] Existing Instance ascii_builtins.

(** C3 (as stated, at an input): [inf] is a positive amount.  Bought into
    a fresh portfolio and sold again, it leaves the wallet at NaN, which is
    not the 0.0 it had before the purchase. *)
Lemma infinite_amount_does_not_round_trip :
  Utils.validate_amount infinity = true
  /\ stored_balance 1 "BTC" fresh_world = None
  /\ exists rb w1 rs w2,
       buy_currency (Utils.get_rate btc_snapshot) 1 "BTC" infinity fresh_world
       = (Ok rb, w1)
       /\ sell_currency (Utils.get_rate btc_snapshot) 1 "BTC" infinity w1
          = (Ok rs, w2)
       /\ b_old_balance rb = 0
       /\ s_new_balance rs = nan
       /\ (s_new_balance rs =? b_old_balance rb) = false
       /\ stored_balance 1 "BTC" w2 = Some nan.
Proof.
  split; [reflexivity|]. split; [reflexivity|].
  eexists _, _, _, _.
  split; [vm_compute; reflexivity|].
  split; [vm_compute; reflexivity|].
  repeat split.
Qed.

Lemma buy_then_sell_round_trip_witness :
  exists rb w1 rs w2,
    buy_currency (Utils.get_rate btc_snapshot) 1 "BTC" 0.5 fresh_world
    = (Ok rb, w1)
    /\ sell_currency (Utils.get_rate btc_snapshot) 1 "BTC" 0.5 w1 = (Ok rs, w2)
    /\ (b_old_balance rb =? 0) = true
    /\ b_new_balance rb = 0.5
    /\ s_new_balance rs = 0
    /\ (s_new_balance rs =? b_old_balance rb) = true
    /\ stored_balance 1 "BTC" w2 = Some 0.
Proof.
  apply (buy_then_sell_round_trip PyFacts.ascii_builtins_upper_idem);
    [reflexivity | reflexivity |].
  left. reflexivity.
Defined.

End RoundTrip.

(* ================================================================= *)
(** ** The ledger: what a purchase or a sale does to the store *)

Module LedgerMore.
Import PortfolioManager Ledger.
Local Open Scope float_scope.

Section WithBuiltins.
Context {B : Builtins}.
Hypothesis upper_idem : forall s : string, upper (upper s) = upper s.

Lemma dict_get_set_other {V : Type} (k k' : string) (v : V) (d : dict V) :
  String.eqb k k' = false ->
  dict_get k' (dict_set k v d) = dict_get k' d.
Proof.
  intros Hne. induction d as [|[k0 v0] d IH]; simpl.
  - now rewrite Hne.
  - destruct (String.eqb k0 k) eqn:E; simpl.
    + apply String.eqb_eq in E. subst k0. now rewrite Hne.
    + now rewrite IH.
Qed.

Lemma find_replaced_other (doc : portfolio_data) (user_id : Z)
    (docs docs' : list portfolio_data) :
  pd_user_id doc <> user_id ->
  replace_portfolio doc docs = Some docs' ->
  find_portfolio user_id docs' = find_portfolio user_id docs.
Proof.
  intros Hne. revert docs'. induction docs as [|d docs IH]; intros docs'; simpl.
  - discriminate.
  - destruct (Z.eqb_spec (pd_user_id d) (pd_user_id doc)) as [E|E].
    + intros [= <-]. simpl.
      destruct (Z.eqb_spec (pd_user_id doc) user_id); [contradiction|].
      destruct (Z.eqb_spec (pd_user_id d) user_id); [congruence | reflexivity].
    + destruct (replace_portfolio doc docs) as [rest|]; [|discriminate].
      intros [= <-]. simpl. now rewrite (IH rest eq_refl).
Qed.

Lemma find_app_other (doc : portfolio_data) (user_id : Z)
    (docs : list portfolio_data) :
  pd_user_id doc <> user_id ->
  find_portfolio user_id (docs ++ [doc])%list = find_portfolio user_id docs.
Proof.
  intros Hne. induction docs as [|d docs IH]; simpl.
  - destruct (Z.eqb_spec (pd_user_id doc) user_id); [contradiction | reflexivity].
  - now rewrite IH.
Qed.

(** A save touches the saved user's document only. *)
Lemma find_saved_other (p : Portfolio.t) (user_id : Z)
    (docs : list portfolio_data) :
  Portfolio._user_id p <> user_id ->
  find_portfolio user_id (saved p docs) = find_portfolio user_id docs.
Proof.
  intros Hne. unfold saved.
  destruct (replace_portfolio (Portfolio.to_dict p) docs) as [docs'|] eqn:E.
  - exact (find_replaced_other (Portfolio.to_dict p) _ _ _ Hne E).
  - exact (find_app_other (Portfolio.to_dict p) _ _ Hne).
Qed.

Lemma replace_absent (doc : portfolio_data) (docs : list portfolio_data) :
  find_portfolio (pd_user_id doc) docs = None ->
  replace_portfolio doc docs = None.
Proof.
  induction docs as [|d docs IH]; simpl; [reflexivity|].
  destruct (Z.eqb (pd_user_id d) (pd_user_id doc)); [discriminate|].
  intros H. now rewrite (IH H).
Qed.

Lemma portfolio_to_from_dict (doc : portfolio_data) :
  Portfolio.to_dict (Portfolio.from_dict doc) = doc.
Proof.
  destruct doc as [uid ws].
  unfold Portfolio.to_dict, Portfolio.from_dict. simpl. f_equal.
  induction ws as [|[k [c b]] ws IH]; simpl; [reflexivity | now rewrite IH].
Qed.

(** Loading: the portfolio is the user's, and the store afterwards holds
    it as the user's document; the console is not touched. *)
Lemma get_user_portfolio_spec (user_id : Z) (w w1 : World) (p : Portfolio.t) :
  get_user_portfolio user_id w = (Ok p, w1) ->
  Portfolio._user_id p = user_id
  /\ find_portfolio user_id (portfolios_json w1) = Some (Portfolio.to_dict p)
  /\ stdout w1 = stdout w
  /\ (forall other, other <> user_id ->
        find_portfolio other (portfolios_json w1)
        = find_portfolio other (portfolios_json w))
  /\ (portfolios_json w1 = portfolios_json w
      \/ (find_portfolio user_id (portfolios_json w) = None
          /\ Portfolio._wallets p = []
          /\ portfolios_json w1
             = (portfolios_json w
                ++ [{| pd_user_id := user_id; pd_wallets := [] |}])%list)).
Proof.
  destruct (find_portfolio user_id (portfolios_json w)) as [doc|] eqn:E.
  - rewrite (StoreFacts.get_user_portfolio_found _ _ _ E). intros [= <- <-].
    pose proof (StoreFacts.find_some_user _ _ _ E) as Hid.
    repeat split; auto.
    now rewrite E, portfolio_to_from_dict.
  - rewrite (StoreFacts.get_user_portfolio_new _ _ E). intros [= <- <-].
    cbn [portfolios_json stdout]. repeat split.
    + apply (StoreFacts.find_saved (Portfolio.__init__ user_id None)).
    + intros other Hne. now apply find_saved_other.
    + right. repeat split. unfold saved.
      now rewrite (replace_absent
                     (Portfolio.to_dict (Portfolio.__init__ user_id None))
                     _ E).
Qed.

Lemma withdraw_spec (amount : float) (wallet : Wallet.t) (w w2 : World)
    (res : result Wallet.t) :
  Wallet.withdraw amount wallet w = (res, w2) ->
  portfolios_json w2 = portfolios_json w
  /\ (((amount <=? 0) = true /\ exists msg, res = Raise (ValueError msg))
      \/ ((amount <=? 0) = false
          /\ res = Wallet.set_balance (Wallet.balance wallet - amount) wallet)).
Proof.
  unfold Wallet.withdraw. destruct (amount <=? 0).
  - intros [= <- <-]. split; [reflexivity|]. left. eauto.
  - unfold Store.bind, Store.lift.
    destruct (Wallet._balance wallet <? amount); cbn;
      intros [= <- <-]; (split; [reflexivity | right; split; reflexivity]).
Qed.

Lemma set_balance_ok (value : float) (wallet wallet' : Wallet.t) :
  Wallet.set_balance value wallet = Ok wallet' ->
  (value <? 0) = false
  /\ Wallet.balance wallet' = value
  /\ Wallet.currency_code wallet' = Wallet.currency_code wallet.
Proof.
  unfold Wallet.set_balance. destruct (value <? 0); [discriminate|].
  intros [= <-]. repeat split.
Qed.

(** The ways through [sell_currency]. *)
Lemma sell_currency_cases (get_rate : string -> string -> option float)
    (user_id : Z) (currency_code : string) (amount : float) (w w' : World)
    (r : result sell_result) :
  sell_currency get_rate user_id currency_code amount w = (r, w') ->
  (Utils.validate_amount amount = false /\ w' = w
   /\ r = Raise (ValueError "Сумма должна быть положительной"))
  \/ exists p w1,
       Utils.validate_amount amount = true
       /\ get_user_portfolio user_id w = (Ok p, w1)
       /\ ((Portfolio.get_wallet (upper currency_code) p = None /\ w' = w1
            /\ r = Raise (ValueError ("У вас нет кошелька для валюты '"
                                      ++ upper currency_code ++ "'")))
           \/ exists wallet,
                Portfolio.get_wallet (upper currency_code) p = Some wallet
                /\ ((exists msg, r = Raise (ValueError msg)
                                 /\ portfolios_json w' = portfolios_json w1)
                    \/ exists wallet',
                         Wallet.set_balance (Wallet.balance wallet - amount)
                           wallet = Ok wallet'
                         /\ portfolios_json w'
                            = saved (Portfolio.put_wallet (upper currency_code)
                                       wallet' p) (portfolios_json w1)
                         /\ exists r', r = Ok r'
                              /\ s_currency r' = upper currency_code
                              /\ s_amount r' = amount
                              /\ s_rate r' = get_rate (upper currency_code) "USD"
                              /\ s_old_balance r' = Wallet.balance wallet
                              /\ s_new_balance r' = Wallet.balance wallet')).
Proof.
  unfold sell_currency. destruct (Utils.validate_amount amount) eqn:Hv; cbn [negb].
  - intros H. right.
    destruct (LedgerErrors.get_user_portfolio_ok user_id w) as (p & w1 & Hload).
    exists p, w1. split; [reflexivity|]. split; [exact Hload|].
    revert H. unfold Store.bind at 1. rewrite Hload.
    destruct (Portfolio.get_wallet (upper currency_code) p) as [wallet|].
    + intros H. right. exists wallet. split; [reflexivity|].
      revert H. unfold Store.bind at 1.
      destruct (Wallet.withdraw amount wallet w1) as [res w2] eqn:Ew.
      destruct (withdraw_spec _ _ _ _ _ Ew) as [Hw2 Hres].
      destruct res as [wallet'|e].
      * unfold Store.bind. rewrite StoreFacts.save_portfolio_spec.
        intros [= <- <-]. right. exists wallet'.
        destruct Hres as [[_ (msg & Hm)] | [_ Hs]]; [discriminate|].
        split; [now symmetry|]. cbn [portfolios_json]. rewrite Hw2.
        split; [reflexivity|]. eexists. split; [reflexivity|].
        repeat split.
      * intros [= <- <-]. left.
        destruct Hres as [[_ (msg & Hm)] | [_ Hs]].
        -- injection Hm as ->. exists msg. split; [reflexivity | exact Hw2].
        -- symmetry in Hs. pose proof (LedgerErrors.set_balance_raise _ _ _ Hs).
           destruct e; try discriminate. eexists. split; [reflexivity | exact Hw2].
    + intros [= <- <-]. left. repeat split.
  - intros [= <- <-]. left. repeat split.
Qed.

(** The ways through [buy_currency]. *)
Lemma buy_currency_cases (get_rate : string -> string -> option float)
    (user_id : Z) (currency_code : string) (amount : float) (w w' : World)
    (r : result buy_result) :
  buy_currency get_rate user_id currency_code amount w = (r, w') ->
  (Utils.validate_amount amount = false /\ w' = w
   /\ r = Raise (ValueError "Сумма должна быть положительной"))
  \/ exists p w1 p1 wallet,
       Utils.validate_amount amount = true
       /\ get_user_portfolio user_id w = (Ok p, w1)
       /\ Portfolio._user_id p1 = Portfolio._user_id p
       /\ Portfolio.get_wallet (upper currency_code) p1 = Some wallet
       /\ Wallet.balance wallet
          = match Portfolio.get_wallet (upper currency_code) p with
            | Some wallet0 => Wallet.balance wallet0
            | None => 0
            end
       /\ (forall other,
             String.eqb (upper currency_code) (upper other) = false ->
             Portfolio.get_wallet other p1 = Portfolio.get_wallet other p)
       /\ ((exists msg, r = Raise (ValueError msg) /\ w' = w1)
           \/ exists wallet',
                Wallet.set_balance (Wallet.balance wallet + amount) wallet
                = Ok wallet'
                /\ w' = {| portfolios_json :=
                             saved (Portfolio.put_wallet (upper currency_code)
                                      wallet' p1) (portfolios_json w1);
                           stdout := stdout w1 |}
                /\ exists r', r = Ok r'
                     /\ b_currency r' = upper currency_code
                     /\ b_amount r' = amount
                     /\ b_rate r' = get_rate (upper currency_code) "USD"
                     /\ b_old_balance r' = Wallet.balance wallet
                     /\ b_new_balance r' = Wallet.balance wallet').
Proof.
  unfold buy_currency. destruct (Utils.validate_amount amount) eqn:Hv; cbn [negb].
  - intros H. right.
    destruct (LedgerErrors.get_user_portfolio_ok user_id w) as (p & w1 & Hload).
    destruct (LedgerErrors.buy_wallet_ready upper_idem currency_code p)
      as (p1 & wallet & Hp1 & Hw1 & Hid & Hbal).
    exists p, w1, p1, wallet.
    split; [reflexivity|]. split; [exact Hload|]. split; [exact Hid|].
    split; [exact Hw1|]. split; [exact Hbal|].
    split.
    { intros other Hne. revert Hp1.
      unfold Portfolio.add_currency, Portfolio.wallets, dict_contains.
      rewrite upper_idem.
      destruct (dict_get (upper currency_code) (Portfolio._wallets p)); cbn.
      - now intros [= <-].
      - intros [= <-]. unfold Portfolio.get_wallet. cbn.
        now apply dict_get_set_other. }
    revert H. unfold Store.bind at 1. rewrite Hload. unfold Store.bind at 1.
    replace ((if negb (dict_contains (upper currency_code) (Portfolio.wallets p))
              then Store.lift (Portfolio.add_currency (upper currency_code) p)
              else Store.ret p) w1) with (Ok p1, w1)
      by (unfold Store.lift, Store.ret; rewrite <- Hp1;
          now destruct (negb (dict_contains _ _))).
    rewrite Hw1. unfold Store.bind at 1, Store.lift.
    unfold Wallet.deposit.
    assert (Hle : (amount <=? 0) = false)
      by (apply FloatFacts.pos_not_leb_zero; exact Hv).
    rewrite Hle.
    destruct (Wallet.set_balance (Wallet.balance wallet + amount) wallet)
      as [wallet'|e] eqn:Es.
    + unfold Store.bind. rewrite StoreFacts.save_portfolio_spec.
      intros [= <- <-]. right. exists wallet'. split; [reflexivity|].
      split; [reflexivity|]. eexists. split; [reflexivity|]. repeat split.
    + intros [= <- <-]. left.
      pose proof (LedgerErrors.set_balance_raise _ _ _ Es).
      destruct e; try discriminate. eexists. split; reflexivity.
  - intros [= <- <-]. left. repeat split.
Qed.

(** The balance the store holds, read off the user's document. *)
Lemma stored_balance_of_doc (user_id : Z) (currency_code : string) (w : World)
    (p : Portfolio.t) :
  find_portfolio user_id (portfolios_json w) = Some (Portfolio.to_dict p) ->
  stored_balance user_id currency_code w
  = option_map Wallet.balance (Portfolio.get_wallet currency_code p).
Proof.
  intros H. unfold stored_balance. rewrite H.
  unfold Portfolio.to_dict, Portfolio.get_wallet. cbn [pd_wallets].
  rewrite (PyFacts.dict_get_map Wallet.to_dict).
  now destruct (dict_get (upper currency_code) (Portfolio._wallets p)).
Qed.

Lemma get_wallet_upper (currency_code : string) (p : Portfolio.t) :
  Portfolio.get_wallet (upper currency_code) p
  = Portfolio.get_wallet currency_code p.
Proof. unfold Portfolio.get_wallet. now rewrite upper_idem. Qed.

Lemma get_wallet_put_other (currency_code other : string) (wallet : Wallet.t)
    (p : Portfolio.t) :
  String.eqb (upper currency_code) (upper other) = false ->
  Portfolio.get_wallet other
    (Portfolio.put_wallet (upper currency_code) wallet p)
  = Portfolio.get_wallet other p.
Proof.
  intros Hne. unfold Portfolio.get_wallet, Portfolio.put_wallet.
  cbn [Portfolio._wallets]. rewrite upper_idem.
  now apply dict_get_set_other.
Qed.

(** X1: a sale that succeeds was for a positive amount of a wallet the
    store held under the upper-cased code; the new balance is the old one
    minus the amount, it is not below zero, and it is what the store holds
    afterwards.  All that is used of [upper] is that it is idempotent. *)
Theorem successful_sale_debits_exactly :
  forall (get_rate : string -> string -> option float) (user_id : Z)
         (currency_code : string) (amount : float) (w w' : World)
         (r : sell_result),
    sell_currency get_rate user_id currency_code amount w = (Ok r, w') ->
    (0 <? amount) = true
    /\ stored_balance user_id currency_code w = Some (s_old_balance r)
    /\ s_new_balance r = s_old_balance r - amount
    /\ (s_new_balance r <? 0) = false
    /\ stored_balance user_id currency_code w' = Some (s_new_balance r)
    /\ s_currency r = upper currency_code.
Proof.
  intros get_rate user_id currency_code amount w w' r H.
  destruct (sell_currency_cases _ _ _ _ _ _ _ H)
    as [(_ & _ & Hr) | (p & w1 & Hv & Hload & Hcase)]; [discriminate|].
  destruct Hcase as [(_ & _ & Hr) | (wallet & Hw & Hcase)]; [discriminate|].
  destruct Hcase as [(msg & Hr & _) | (wallet' & Hs & Hw' & r' & Hr & Hc & _ & _ & Ho & Hn)];
    [discriminate|].
  injection Hr as <-.
  destruct (set_balance_ok _ _ _ Hs) as (Hneg & Hb & _).
  destruct (RoundTrip.loaded_balance upper_idem _ currency_code _ _ _ Hload) as [Hid Hst].
  rewrite Hw in Hst. cbn [option_map] in Hst.
  split; [exact Hv|]. split; [now rewrite Ho|].
  split; [now rewrite Hn, Ho, Hb|]. split; [now rewrite Hn, Hb|].
  split; [|exact Hc].
  destruct w' as [docs' out']. cbn [portfolios_json] in Hw'. subst docs'.
  rewrite Hn. apply (RoundTrip.stored_balance_saved upper_idem); [exact Hid|].
  apply (RoundTrip.get_wallet_put upper_idem).
Qed.

(** X2: a purchase that succeeds was for a positive amount; the old balance
    is what the store held under the upper-cased code (0.0 when it held no
    such wallet), the new balance is the old one plus the amount, it is not
    below zero, and it is what the store holds afterwards.  All that is used
    of [upper] is that it is idempotent. *)
Theorem successful_purchase_credits_exactly :
  forall (get_rate : string -> string -> option float) (user_id : Z)
         (currency_code : string) (amount : float) (w w' : World)
         (r : buy_result),
    buy_currency get_rate user_id currency_code amount w = (Ok r, w') ->
    (0 <? amount) = true
    /\ b_old_balance r
       = match stored_balance user_id currency_code w with
         | Some b => b
         | None => 0
         end
    /\ b_new_balance r = b_old_balance r + amount
    /\ (b_new_balance r <? 0) = false
    /\ stored_balance user_id currency_code w' = Some (b_new_balance r)
    /\ b_currency r = upper currency_code.
Proof.
  intros get_rate user_id currency_code amount w w' r H.
  destruct (buy_currency_cases _ _ _ _ _ _ _ H)
    as [(_ & _ & Hr) | (p & w1 & p1 & wallet & Hv & Hload & Hid1 & Hw1 & Hbal & _ & Hcase)];
    [discriminate|].
  destruct Hcase as [(msg & Hr & _) | (wallet' & Hs & Hw' & r' & Hr & Hc & _ & _ & Ho & Hn)];
    [discriminate|].
  injection Hr as <-.
  destruct (set_balance_ok _ _ _ Hs) as (Hneg & Hb & _).
  destruct (RoundTrip.loaded_balance upper_idem _ currency_code _ _ _ Hload) as [Hid Hst].
  split; [exact Hv|].
  split.
  { rewrite Ho, Hbal, <- Hst.
    now destruct (Portfolio.get_wallet (upper currency_code) p). }
  split; [now rewrite Hn, Ho, Hb|]. split; [now rewrite Hn, Hb|].
  split; [|exact Hc].
  subst w'. rewrite Hn. apply (RoundTrip.stored_balance_saved upper_idem).
  - cbn. now rewrite Hid1.
  - apply (RoundTrip.get_wallet_put upper_idem).
Qed.

Lemma stored_after_save (user_id : Z) (currency_code : string)
    (p : Portfolio.t) (docs : list portfolio_data) (out : list string) :
  Portfolio._user_id p = user_id ->
  stored_balance user_id currency_code
    {| portfolios_json := saved p docs; stdout := out |}
  = option_map Wallet.balance (Portfolio.get_wallet currency_code p).
Proof.
  intros <-. apply stored_balance_of_doc. apply StoreFacts.find_saved.
Qed.

Lemma stored_loaded (user_id : Z) (currency_code : string) (w w1 : World)
    (p : Portfolio.t) :
  get_user_portfolio user_id w = (Ok p, w1) ->
  stored_balance user_id currency_code w
  = option_map Wallet.balance (Portfolio.get_wallet currency_code p)
  /\ stored_balance user_id currency_code w1
     = option_map Wallet.balance (Portfolio.get_wallet currency_code p).
Proof.
  intros H. split.
  - destruct (RoundTrip.loaded_balance upper_idem _ currency_code _ _ _ H) as [_ E].
    now rewrite <- E, get_wallet_upper.
  - apply stored_balance_of_doc. apply (get_user_portfolio_spec _ _ _ _ H).
Qed.

(** Where [buy_currency] leaves the store: as the loading left it, or with
    a portfolio of the same user saved on top. *)
Lemma buy_currency_store (get_rate : string -> string -> option float)
    (user_id : Z) (currency_code : string) (amount : float) (w w' : World)
    (r : result buy_result) :
  buy_currency get_rate user_id currency_code amount w = (r, w') ->
  w' = w
  \/ exists p w1,
       get_user_portfolio user_id w = (Ok p, w1)
       /\ (w' = w1
           \/ exists p',
                Portfolio._user_id p' = Portfolio._user_id p
                /\ portfolios_json w' = saved p' (portfolios_json w1)).
Proof.
  unfold buy_currency. destruct (negb (Utils.validate_amount amount)).
  { intros [= _ <-]. now left. }
  intros H. right.
  destruct (LedgerErrors.get_user_portfolio_ok user_id w) as (p & w1 & Hload).
  exists p, w1. split; [exact Hload|]. revert H.
  unfold Store.bind at 1. rewrite Hload. unfold Store.bind at 1.
  assert (Hadd : forall p1,
             Portfolio.add_currency (upper currency_code) p = Ok p1 ->
             Portfolio._user_id p1 = Portfolio._user_id p).
  { unfold Portfolio.add_currency.
    destruct (dict_contains _ _); [discriminate | now intros p1 [= <-]]. }
  destruct ((if negb (dict_contains (upper currency_code) (Portfolio.wallets p))
             then Store.lift (Portfolio.add_currency (upper currency_code) p)
             else Store.ret p) w1) as [[p1|e1] w2] eqn:Eadd.
  - assert (Hp1 : Portfolio._user_id p1 = Portfolio._user_id p /\ w2 = w1).
    { revert Eadd. unfold Store.lift, Store.ret.
      destruct (negb (dict_contains _ _)).
      - intros [= Ea <-]. split; [now apply Hadd | reflexivity].
      - now intros [= <- <-]. }
    destruct Hp1 as [Hid ->].
    destruct (Portfolio.get_wallet (upper currency_code) p1) as [wallet|].
    + unfold Store.bind at 1, Store.lift.
      destruct (Wallet.deposit amount wallet) as [wallet'|e'].
      * unfold Store.bind. rewrite StoreFacts.save_portfolio_spec.
        intros [= _ <-]. right. eexists. split; [|reflexivity]. exact Hid.
      * intros [= _ <-]. now left.
    + intros [= _ <-]. now left.
  - assert (Hw2 : w2 = w1).
    { revert Eadd. unfold Store.lift, Store.ret.
      destruct (negb (dict_contains _ _)); now intros [= _ <-]. }
    subst w2. intros [= _ <-]. now left.
Qed.

(** X3: whatever a purchase or a sale for one user does, succeed or raise,
    the document of any other user is afterwards what it was. *)
Theorem trade_leaves_other_users_alone :
  forall (get_rate : string -> string -> option float) (user_id other : Z)
         (currency_code : string) (amount : float) (w : World),
    other <> user_id ->
    find_portfolio other
      (portfolios_json
         (snd (buy_currency get_rate user_id currency_code amount w)))
    = find_portfolio other (portfolios_json w)
    /\ find_portfolio other
         (portfolios_json
            (snd (sell_currency get_rate user_id currency_code amount w)))
       = find_portfolio other (portfolios_json w).
Proof.
  intros get_rate user_id other currency_code amount w Hne. split.
  - destruct (buy_currency get_rate user_id currency_code amount w)
      as [r w'] eqn:H. cbn [snd].
    destruct (buy_currency_store _ _ _ _ _ _ _ H)
      as [-> | (p & w1 & Hload & Hcase)]; [reflexivity|].
    destruct (get_user_portfolio_spec _ _ _ _ Hload) as (Hid & _ & _ & Hother & _).
    destruct Hcase as [-> | (p' & Hid' & ->)].
    + now apply Hother.
    + rewrite find_saved_other; [now apply Hother|].
      rewrite Hid', Hid. congruence.
  - destruct (sell_currency get_rate user_id currency_code amount w)
      as [r w'] eqn:H. cbn [snd].
    destruct (sell_currency_cases _ _ _ _ _ _ _ H)
      as [(_ & -> & _) | (p & w1 & _ & Hload & Hcase)]; [reflexivity|].
    destruct (get_user_portfolio_spec _ _ _ _ Hload) as (Hid & _ & _ & Hother & _).
    destruct Hcase as [(_ & -> & _) | (wallet & _ & [(msg & _ & Hw') | (wallet' & _ & Hw' & _)])].
    + now apply Hother.
    + rewrite Hw'. now apply Hother.
    + rewrite Hw'. rewrite find_saved_other; [now apply Hother|].
      cbn. rewrite Hid. congruence.
Qed.

(** X4: whatever a purchase or a sale in one currency does, succeed or
    raise, the balance the store holds for the same user in any other
    currency (one whose upper-cased code is another) is afterwards what it
    was.  All that is used of [upper] is that it is idempotent. *)
Theorem trade_leaves_other_wallets_alone :
  forall (get_rate : string -> string -> option float) (user_id : Z)
         (currency_code other : string) (amount : float) (w : World),
    String.eqb (upper currency_code) (upper other) = false ->
    stored_balance user_id other
      (snd (buy_currency get_rate user_id currency_code amount w))
    = stored_balance user_id other w
    /\ stored_balance user_id other
         (snd (sell_currency get_rate user_id currency_code amount w))
       = stored_balance user_id other w.
Proof.
  intros get_rate user_id currency_code other amount w Hne. split.
  - destruct (buy_currency get_rate user_id currency_code amount w)
      as [r w'] eqn:H. cbn [snd].
    destruct (buy_currency_cases _ _ _ _ _ _ _ H)
      as [(_ & -> & _) | (p & w1 & p1 & wallet & _ & Hload & Hid1 & _ & _ & Hkeep & Hcase)];
      [reflexivity|].
    destruct (get_user_portfolio_spec _ _ _ _ Hload) as (Hid & _).
    destruct (stored_loaded _ other _ _ _ Hload) as [Hw Hw1].
    destruct Hcase as [(msg & _ & ->) | (wallet' & _ & -> & _)].
    + now rewrite Hw, Hw1.
    + rewrite stored_after_save by (cbn; now rewrite Hid1).
      rewrite (get_wallet_put_other _ _ _ _ Hne), (Hkeep _ Hne). now rewrite Hw.
  - destruct (sell_currency get_rate user_id currency_code amount w)
      as [r w'] eqn:H. cbn [snd].
    destruct (sell_currency_cases _ _ _ _ _ _ _ H)
      as [(_ & -> & _) | (p & w1 & _ & Hload & Hcase)]; [reflexivity|].
    destruct (get_user_portfolio_spec _ _ _ _ Hload) as (Hid & Hdoc & _).
    destruct (stored_loaded _ other _ _ _ Hload) as [Hw Hw1].
    destruct Hcase as [(_ & -> & _) | (wallet & _ & [(msg & _ & Hw') | (wallet' & _ & Hw' & _)])].
    + now rewrite Hw, Hw1.
    + rewrite Hw. unfold stored_balance in *. now rewrite Hw'.
    + destruct w' as [docs' out']. cbn [portfolios_json] in Hw'. subst docs'.
      rewrite stored_after_save by (cbn; exact Hid).
      now rewrite (get_wallet_put_other _ _ _ _ Hne), Hw.
Qed.

(** X5: selling a positive amount of a currency the store holds no wallet
    for raises the [ValueError] that names the upper-cased code.  The console
    is untouched; the store is as it was, or, when the user had no portfolio
    at all, has gained an empty one for the user.  All that is used of
    [upper] is that it is idempotent. *)
Theorem sale_without_wallet :
  forall (get_rate : string -> string -> option float) (user_id : Z)
         (currency_code : string) (amount : float) (w : World),
    (0 <? amount) = true ->
    stored_balance user_id currency_code w = None ->
    exists w',
      sell_currency get_rate user_id currency_code amount w
      = (Raise (ValueError ("У вас нет кошелька для валюты '"
                            ++ upper currency_code ++ "'")), w')
      /\ stdout w' = stdout w
      /\ (portfolios_json w' = portfolios_json w
          \/ (find_portfolio user_id (portfolios_json w) = None
              /\ portfolios_json w'
                 = (portfolios_json w
                    ++ [{| pd_user_id := user_id; pd_wallets := [] |}])%list)).
Proof.
  intros get_rate user_id currency_code amount w Hpos Hnone.
  destruct (sell_currency get_rate user_id currency_code amount w)
    as [r w'] eqn:H.
  destruct (sell_currency_cases _ _ _ _ _ _ _ H)
    as [(Hv & _) | (p & w1 & _ & Hload & Hcase)].
  - unfold Utils.validate_amount in Hv. congruence.
  - destruct (stored_loaded _ currency_code _ _ _ Hload) as [Hw _].
    destruct (get_user_portfolio_spec _ _ _ _ Hload) as (_ & _ & Hout & _ & Hdocs).
    destruct Hcase as [(_ & -> & ->) | (wallet & Hwallet & _)].
    + exists w1. split; [reflexivity|]. split; [exact Hout|].
      destruct Hdocs as [E | (E1 & _ & E2)]; [now left | right; now split].
    + rewrite Hnone, <- get_wallet_upper, Hwallet in Hw. discriminate.
Qed.

(** X6: [get_user_portfolio] settles at once: called again on the store it
    left, it returns the same portfolio and leaves the store as it is. *)
Theorem get_user_portfolio_settles :
  forall (user_id : Z) (w w1 : World) (p : Portfolio.t),
    get_user_portfolio user_id w = (Ok p, w1) ->
    get_user_portfolio user_id w1 = (Ok p, w1).
Proof.
  intros user_id w w1 p H.
  destruct (get_user_portfolio_spec _ _ _ _ H) as (_ & Hdoc & _).
  rewrite (StoreFacts.get_user_portfolio_found _ _ _ Hdoc).
  now rewrite StoreFacts.portfolio_from_to_dict.
Qed.

(** X7: [to_dict] and [from_dict] of a portfolio undo each other, both
    ways, wallets included. *)
Theorem portfolio_dict_round_trip :
  forall (p : Portfolio.t) (doc : portfolio_data),
    Portfolio.from_dict (Portfolio.to_dict p) = p
    /\ Portfolio.to_dict (Portfolio.from_dict doc) = doc.
Proof.
  intros p doc. split.
  - apply StoreFacts.portfolio_from_to_dict.
  - apply portfolio_to_from_dict.
Qed.

(** X8: [add_currency] keeps one wallet for a code.  For a code whose
    upper-cased form has no wallet it adds one at 0.0 under that form and
    leaves the wallets of other codes alone; for a code whose upper-cased
    form has a wallet it raises [ValueError] and adds nothing.  This holds
    whatever [upper] is. *)
Theorem add_currency_once :
  forall (currency_code : string) (p : Portfolio.t),
    match Portfolio.get_wallet currency_code p with
    | None =>
        exists p',
          Portfolio.add_currency currency_code p = Ok p'
          /\ Portfolio.get_wallet currency_code p'
             = Some (Wallet.__init__ (upper currency_code) 0)
          /\ (forall other,
                String.eqb (upper currency_code) (upper other) = false ->
                Portfolio.get_wallet other p' = Portfolio.get_wallet other p)
          /\ (exists msg,
                Portfolio.add_currency currency_code p'
                = Raise (ValueError msg))
    | Some _ =>
        Portfolio.add_currency currency_code p
        = Raise (ValueError ("Кошелек для валюты '" ++ upper currency_code
                             ++ "' уже существует"))
    end.
Proof.
  intros currency_code p. unfold Portfolio.get_wallet, Portfolio.add_currency,
    dict_contains.
  destruct (dict_get (upper currency_code) (Portfolio._wallets p)) eqn:E.
  - reflexivity.
  - eexists. split; [reflexivity|]. cbn [Portfolio._wallets].
    rewrite PyFacts.dict_get_set_same.
    split; [reflexivity|]. split.
    + intros other Hne. now apply dict_get_set_other.
    + eexists. reflexivity.
Qed.

(** X9: the currency code counts without regard to case: a purchase or a
    sale under a code and under its upper-cased form are the same call, for
    an [upper] that is idempotent. *)
Theorem trade_ignores_case :
  forall (get_rate : string -> string -> option float) (user_id : Z)
         (currency_code : string) (amount : float) (w : World),
    buy_currency get_rate user_id (upper currency_code) amount w
    = buy_currency get_rate user_id currency_code amount w
    /\ sell_currency get_rate user_id (upper currency_code) amount w
       = sell_currency get_rate user_id currency_code amount w.
Proof.
  intros get_rate user_id currency_code amount w.
  unfold buy_currency, sell_currency. now rewrite !upper_idem.
Qed.

End WithBuiltins.

(** The examples are on ASCII text: their builtins are [ascii_builtins]. *)
#[local] Existing Instance ascii_builtins.

Lemma successful_sale_debits_exactly_witness :
  exists r w',
    sell_currency (Utils.get_rate btc_snapshot) 1 "btc" 1.5 world_2btc
    = (Ok r, w')
    /\ ((0 <? 1.5) = true
        /\ stored_balance 1 "btc" world_2btc = Some (s_old_balance r)
        /\ s_new_balance r = s_old_balance r - 1.5
        /\ (s_new_balance r <? 0) = false
        /\ stored_balance 1 "btc" w' = Some (s_new_balance r)
        /\ s_currency r = upper "btc").
Proof.
  eexists _, _. split; [vm_compute; reflexivity|].
  apply (successful_sale_debits_exactly PyFacts.ascii_builtins_upper_idem (Utils.get_rate btc_snapshot)).
  vm_compute. reflexivity.
Defined.

Lemma successful_purchase_credits_exactly_witness :
  exists r w',
    buy_currency (Utils.get_rate btc_snapshot) 1 "eth" 0.25 world_2btc
    = (Ok r, w')
    /\ ((0 <? 0.25) = true
        /\ b_old_balance r
           = match stored_balance 1 "eth" world_2btc with
             | Some b => b
             | None => 0
             end
        /\ b_new_balance r = b_old_balance r + 0.25
        /\ (b_new_balance r <? 0) = false
        /\ stored_balance 1 "eth" w' = Some (b_new_balance r)
        /\ b_currency r = upper "eth").
Proof.
  eexists _, _. split; [vm_compute; reflexivity|].
  apply (successful_purchase_credits_exactly PyFacts.ascii_builtins_upper_idem (Utils.get_rate btc_snapshot)).
  vm_compute. reflexivity.
Defined.

Lemma trade_leaves_other_users_alone_witness :
  find_portfolio 1
    (portfolios_json
       (snd (buy_currency (Utils.get_rate btc_snapshot) 2 "ETH" 3 world_2btc)))
  = find_portfolio 1 (portfolios_json world_2btc)
  /\ find_portfolio 1
       (portfolios_json
          (snd (sell_currency (Utils.get_rate btc_snapshot) 2 "ETH" 3
                  world_2btc)))
     = find_portfolio 1 (portfolios_json world_2btc).
Proof.
  apply trade_leaves_other_users_alone. discriminate.
Defined.

Lemma trade_leaves_other_wallets_alone_witness :
  stored_balance 1 "BTC"
    (snd (buy_currency (Utils.get_rate btc_snapshot) 1 "eth" 3 world_2btc))
  = stored_balance 1 "BTC" world_2btc
  /\ stored_balance 1 "BTC"
       (snd (sell_currency (Utils.get_rate btc_snapshot) 1 "eth" 3 world_2btc))
     = stored_balance 1 "BTC" world_2btc.
Proof.
  apply (trade_leaves_other_wallets_alone PyFacts.ascii_builtins_upper_idem). reflexivity.
Defined.

Lemma sale_without_wallet_witness :
  exists w',
    sell_currency (Utils.get_rate btc_snapshot) 7 "eth" 2 world_2btc
    = (Raise (ValueError ("У вас нет кошелька для валюты '"
                          ++ upper "eth" ++ "'")), w')
    /\ stdout w' = stdout world_2btc
    /\ (portfolios_json w' = portfolios_json world_2btc
        \/ (find_portfolio 7 (portfolios_json world_2btc) = None
            /\ portfolios_json w'
               = (portfolios_json world_2btc
                  ++ [{| pd_user_id := 7; pd_wallets := [] |}])%list)).
Proof.
  apply (sale_without_wallet PyFacts.ascii_builtins_upper_idem); reflexivity.
Defined.

Lemma get_user_portfolio_settles_witness :
  get_user_portfolio 5
    {| portfolios_json :=
         portfolios_json world_2btc
         ++ [Portfolio.to_dict (Portfolio.__init__ 5 None)];
       stdout := [] |}
  = (Ok (Portfolio.__init__ 5 None),
     {| portfolios_json :=
          portfolios_json world_2btc
          ++ [Portfolio.to_dict (Portfolio.__init__ 5 None)];
        stdout := [] |}).
Proof.
  apply (get_user_portfolio_settles 5 world_2btc). reflexivity.
Defined.

Lemma trade_ignores_case_witness :
  buy_currency (Utils.get_rate btc_snapshot) 1 (upper "btc") 0.5 world_2btc
  = buy_currency (Utils.get_rate btc_snapshot) 1 "btc" 0.5 world_2btc
  /\ sell_currency (Utils.get_rate btc_snapshot) 1 (upper "btc") 0.5 world_2btc
     = sell_currency (Utils.get_rate btc_snapshot) 1 "btc" 0.5 world_2btc.
Proof.
  apply (trade_ignores_case PyFacts.ascii_builtins_upper_idem).
Defined.

End LedgerMore.

(* ================================================================= *)
(** ** Valuation and the currency registry *)

Module ModelMore.
Import Ledger Vocabulary.
Local Open Scope float_scope.

(** The loop of [get_total_value] reads no item of [exchange_rates] when
    it has the pair of no wallet: it goes as it goes without rates, and
    ends with a number. *)
Lemma total_value_loop_unread (base_currency : string)
    (exchange_rates : dict Portfolio.rate_entry) (items : dict Wallet.t) :
  (forall currency_code wallet,
     In (currency_code, wallet) items ->
     String.eqb currency_code base_currency = false ->
     dict_get (currency_code ++ "_" ++ base_currency) exchange_rates = None) ->
  forall total : float,
    exists total',
      Portfolio.total_value_loop base_currency exchange_rates total items
      = Ok total'
      /\ Portfolio.total_value_loop base_currency [] total items = Ok total'.
Proof.
  induction items as [|[code wallet] items IH]; intros Hnone total;
    cbn [Portfolio.total_value_loop].
  - now exists total.
  - assert (Hstep : exists total1,
               Portfolio.total_value_step base_currency exchange_rates total
                 (code, wallet) = Ok total1
               /\ Portfolio.total_value_step base_currency [] total
                    (code, wallet) = Ok total1).
    { unfold Portfolio.total_value_step.
      destruct (String.eqb code base_currency) eqn:Hc; [eauto|].
      rewrite (Hnone code wallet (or_introl eq_refl) Hc). cbn [dict_get].
      destruct (dict_get _ Portfolio.demo_rates); eauto. }
    destruct Hstep as (total1 & -> & ->). apply IH.
    intros c w' Hin. apply (Hnone c w'). now right.
Qed.

(** X10: rates that no wallet needs are not read.  When [exchange_rates]
    has the pair of no wallet of another currency than the base,
    [get_total_value] raises nothing and returns the number it returns
    with [exchange_rates] left out. *)
Theorem unneeded_rates_are_not_read :
  forall (base_currency : string) (exchange_rates : dict Portfolio.rate_entry)
         (p : Portfolio.t),
    (forall currency_code wallet,
       In (currency_code, wallet) (Portfolio._wallets p) ->
       String.eqb currency_code base_currency = false ->
       dict_get (currency_code ++ "_" ++ base_currency) exchange_rates = None) ->
    exists total,
      Portfolio.get_total_value base_currency (Some exchange_rates) p = Ok total
      /\ Portfolio.get_total_value base_currency None p = Ok total.
Proof.
  intros base_currency exchange_rates p Hnone.
  unfold Portfolio.get_total_value.
  exact (total_value_loop_unread _ _ _ Hnone 0).
Qed.

(** X11: a rate given in [exchange_rates] is the rate used, demo pair or
    not: for a wallet of another currency than the base whose pair has an
    item with a rate, [get_total_value] on a portfolio that ends with this
    wallet returns the total of the wallets before it plus the balance times
    that rate. *)
Theorem given_rate_is_used :
  forall (base_currency : string) (exchange_rates : dict Portfolio.rate_entry)
         (user_id : Z) (wallets : dict Wallet.t) (currency_code : string)
         (wallet : Wallet.t) (rate : float),
    String.eqb currency_code base_currency = false ->
    dict_get (currency_code ++ "_" ++ base_currency) exchange_rates
    = Some {| Portfolio.rate_item := Some rate |} ->
    Portfolio.get_total_value base_currency (Some exchange_rates)
      {| Portfolio._user_id := user_id;
         Portfolio._wallets := (wallets ++ [(currency_code, wallet)])%list |}
    = match Portfolio.get_total_value base_currency (Some exchange_rates)
              {| Portfolio._user_id := user_id;
                 Portfolio._wallets := wallets |}
      with
      | Raise e => Raise e
      | Ok total => Ok (total + Wallet.balance wallet * rate)
      end.
Proof.
  intros base_currency exchange_rates user_id wallets currency_code wallet
    rate Hne Hrate.
  unfold Portfolio.get_total_value. cbn [Portfolio._wallets].
  rewrite ModelFacts.total_value_loop_app.
  destruct (Portfolio.total_value_loop base_currency exchange_rates 0 wallets)
    as [total|e]; [|reflexivity].
  cbn [Portfolio.total_value_loop]. unfold Portfolio.total_value_step.
  now rewrite Hne, Hrate.
Qed.

Lemma upper_letter_not_lower (c : ascii) :
  is_upper_letter c = true -> is_lower_letter c = false.
Proof. destruct c as [[] [] [] [] [] [] [] []]; now vm_compute. Qed.

Lemma all_upper_fixed (s : string) :
  all_chars is_upper_letter s = true -> ascii_upper s = s.
Proof.
  induction s as [|c s IH]; cbn; [reflexivity|].
  intros H. apply andb_prop in H as [Hc Hs].
  unfold ascii_upper_char.
  now rewrite (upper_letter_not_lower _ Hc), (IH Hs).
Qed.

Lemma all_upper_no_lower (s : string) :
  all_chars is_upper_letter s = true ->
  any_char is_lower_letter s = false
  /\ all_chars (fun c => is_upper_letter c || is_lower_letter c) s = true.
Proof.
  induction s as [|c s IH]; cbn; [now split|].
  intros H. apply andb_prop in H as [Hc Hs]. destruct (IH Hs) as [H1 H2].
  now rewrite (upper_letter_not_lower _ Hc), Hc, H1, H2.
Qed.

Lemma letters_without_lower (s : string) :
  all_chars (fun c => is_upper_letter c || is_lower_letter c) s = true ->
  any_char is_lower_letter s = false ->
  all_chars is_upper_letter s = true.
Proof.
  induction s as [|c s IH]; cbn; [reflexivity|].
  intros H1 H2. apply andb_prop in H1 as [Hc Hs].
  apply orb_false_elim in H2 as [Hl Hls].
  rewrite Hl, orb_false_r in Hc. now rewrite Hc, (IH Hs Hls).
Qed.

Section WithBuiltins.
Context {B : Builtins}.
Hypothesis upper_idem : forall s : string, upper (upper s) = upper s.
Hypothesis on_ascii : ascii_faithful B.

(** On an ASCII code the tests of [_validate_code] pass together exactly
    when the code is well formed. *)
Lemma validate_code_ok (code : string) :
  is_ascii code = true ->
  Currencies._validate_code code = Ok tt <-> well_formed_code code = true.
Proof.
  intros Hascii. destruct (on_ascii code Hascii) as (_ & Ha & Hu & _ & Hl).
  unfold Currencies._validate_code, well_formed_code.
  rewrite Ha, Hu, Hl. unfold ascii_isalpha, ascii_isupper, falsy.
  destruct ((2 <=? String.length code)%nat && (String.length code <=? 5)%nat)
    eqn:Hlen; cbn [negb andb]; [|split; discriminate].
  assert (Hne : String.eqb code EmptyString = false)
    by (destruct code; [discriminate | reflexivity]).
  rewrite Hne. cbn [negb andb]. split.
  - destruct (all_chars _ code) eqn:Hall; cbn [negb]; [|discriminate].
    destruct (any_char is_upper_letter code); cbn [andb negb]; [|discriminate].
    destruct (any_char is_lower_letter code) eqn:Hlow;
      cbn [negb]; [discriminate|].
    intros _. now apply letters_without_lower.
  - intros Hup. destruct (all_upper_no_lower _ Hup) as [Hlow Hall].
    rewrite Hall, Hlow. cbn [negb].
    assert (Hany : any_char is_upper_letter code = true).
    { destruct code as [|c code]; [discriminate|]. cbn in Hup |- *.
      apply andb_prop in Hup as [Hc _]. now rewrite Hc. }
    now rewrite Hany.
Qed.

(** What [_validate_code] raises is a [ValueError]. *)
Lemma validate_code_raise (code : string) (e : exn) :
  Currencies._validate_code code = Raise e -> is_ValueError e = true.
Proof.
  unfold Currencies._validate_code.
  repeat match goal with
         | |- context [if ?b then _ else _] => destruct b
         end; intros [= <-]; reflexivity.
Qed.

(** X12: for a code of ASCII characters, [Currency.__init__] accepts a
    name and a code exactly when the code is 2 to 5 letters A-Z and
    [name.strip()] is not empty; it then keeps both as given (the
    upper-casing changes nothing), and in any other case it raises
    [ValueError].  Used of the builtins: the law of ASCII text. *)
Theorem currency_accepted_iff_well_formed :
  forall name code : string,
    is_ascii code = true ->
    (well_formed_code code && negb (falsy (strip name)) = true ->
     Currencies.Currency__init__ name code = Ok (name, code))
    /\ (forall n c,
          Currencies.Currency__init__ name code = Ok (n, c) ->
          well_formed_code code = true
          /\ falsy (strip name) = false
          /\ n = name /\ c = code)
    /\ (forall e,
          Currencies.Currency__init__ name code = Raise e ->
          is_ValueError e = true).
Proof.
  intros name code Hascii. unfold Currencies.Currency__init__.
  destruct (Currencies._validate_code code) as [[]|e] eqn:Hv.
  - apply (validate_code_ok _ Hascii) in Hv. rewrite Hv. cbn [andb].
    unfold Currencies._validate_name.
    assert (Hup : upper code = code).
    { destruct (on_ascii code Hascii) as (-> & _).
      apply all_upper_fixed. unfold well_formed_code in Hv.
      now apply andb_prop in Hv as [_ Hv]. }
    rewrite Hup.
    destruct (falsy (strip name)); cbn [negb].
    + split; [discriminate|]. split; [discriminate|]. now intros e [= <-].
    + split; [reflexivity|]. split; [|discriminate].
      intros n c [= <- <-]. repeat split.
  - assert (Hwf : well_formed_code code = false).
    { destruct (well_formed_code code) eqn:Hw; [|reflexivity].
      apply (validate_code_ok _ Hascii) in Hw. congruence. }
    rewrite Hwf. cbn [andb].
    split; [discriminate|]. split; [discriminate|].
    intros e' [= <-]. exact (validate_code_raise _ _ Hv).
Qed.

End WithBuiltins.

Lemma dict_get_set {V : Type} (k k' : string) (v : V) (d : dict V) :
  dict_get k' (dict_set k v d)
  = if String.eqb k k' then Some v else dict_get k' d.
Proof.
  destruct (String.eqb k k') eqn:E.
  - apply String.eqb_eq in E. subst k'. apply PyFacts.dict_get_set_same.
  - now apply LedgerMore.dict_get_set_other.
Qed.

Lemma dict_get_in_keys {V : Type} (k : string) (d : dict V) :
  dict_get k d <> None <-> In k (dict_keys d).
Proof.
  induction d as [|[k' v] d IH]; cbn.
  - split; [congruence | contradiction].
  - destruct (String.eqb_spec k' k) as [->|Hne].
    + split; [now left | discriminate].
    + rewrite IH. split; [now right | now intros [H|H]].
Qed.

Lemma register_currency_keyed (currency : Currencies.Currency)
    (registry : dict Currencies.Currency) :
  keyed_by_code registry ->
  keyed_by_code (Currencies.register_currency currency registry).
Proof.
  unfold Currencies.register_currency. intros Hk k c. rewrite dict_get_set.
  destruct (String.eqb_spec (Currencies.code currency) k) as [<-|_].
  - now intros [= <-].
  - apply Hk.
Qed.

(** X13: registering a currency files it under its code, where a lookup
    finds it, replaces what was filed there, and leaves the other codes
    alone; a registry in which every key is the code of its currency stays
    so. *)
Theorem register_currency_files_by_code :
  forall (currency : Currencies.Currency) (registry : dict Currencies.Currency),
    dict_get (Currencies.code currency)
      (Currencies.register_currency currency registry) = Some currency
    /\ (forall k, String.eqb (Currencies.code currency) k = false ->
          dict_get k (Currencies.register_currency currency registry)
          = dict_get k registry)
    /\ (keyed_by_code registry ->
        keyed_by_code (Currencies.register_currency currency registry)).
Proof.
  intros currency registry. unfold Currencies.register_currency.
  split; [apply PyFacts.dict_get_set_same|].
  split; [intros k Hne; now apply LedgerMore.dict_get_set_other|].
  apply register_currency_keyed.
Qed.

Section Registry.
Context {B : Builtins}.
Hypothesis upper_idem : forall s : string, upper (upper s) = upper s.
Hypothesis on_ascii : ascii_faithful B.

Lemma register_fiats_keyed (l : list (string * string * string))
    (registry registry' : dict Currencies.Currency) :
  keyed_by_code registry ->
  Currencies.register_fiats l registry = Ok registry' ->
  keyed_by_code registry'.
Proof.
  revert registry. induction l as [|[[name code] country] l IH];
    intros registry Hk; cbn.
  - now intros [= <-].
  - destruct (Currencies.FiatCurrency__init__ name code country) as [c|e];
      [|discriminate].
    apply IH. now apply register_currency_keyed.
Qed.

Lemma register_cryptos_keyed (l : list (string * string * string * float))
    (registry registry' : dict Currencies.Currency) :
  keyed_by_code registry ->
  Currencies.register_cryptos l registry = Ok registry' ->
  keyed_by_code registry'.
Proof.
  revert registry. induction l as [|[[[name code] algo] mcap] l IH];
    intros registry Hk; cbn.
  - now intros [= <-].
  - destruct (Currencies.CryptoCurrency__init__ name code algo mcap) as [c|e];
      [|discriminate].
    apply IH. now apply register_currency_keyed.
Qed.

Lemma registry_keyed_by_code : keyed_by_code Currencies._CURRENCY_REGISTRY.
Proof.
  destruct (ModelFacts.registry_initialized on_ascii) as [Hinit _].
  unfold Currencies._initialize_currencies in Hinit.
  destruct (Currencies.register_fiats Currencies.fiats []) as [r1|] eqn:E1;
    [|discriminate].
  eapply register_cryptos_keyed; [|exact Hinit].
  eapply register_fiats_keyed; [|exact E1].
  intros k c. discriminate.
Qed.

(** X14: [get_currency] looks a code up without regard to case.  It finds
    a currency exactly when the upper-cased code is one of the nine
    registered codes, and the currency it returns has the upper-cased code
    as its code; otherwise it raises [CurrencyNotFoundError] with the
    upper-cased code.  Used of the builtins: [upper] is idempotent, and the
    law of ASCII text, for the names and codes of the registry. *)
Theorem get_currency_by_code :
  forall code : string,
    Currencies.get_currency (upper code) = Currencies.get_currency code
    /\ match Currencies.get_currency code with
       | Ok currency =>
           Currencies.code currency = upper code
           /\ In (upper code)
                ["USD"; "EUR"; "RUB"; "GBP"; "JPY"; "BTC"; "ETH"; "LTC"; "ADA"]
       | Raise e =>
           e = CurrencyNotFoundError (upper code)
           /\ ~ In (upper code)
                  ["USD"; "EUR"; "RUB"; "GBP"; "JPY"; "BTC"; "ETH"; "LTC"; "ADA"]
       end.
Proof.
  intros code. unfold Currencies.get_currency.
  rewrite upper_idem. split; [reflexivity|].
  destruct (ModelFacts.registry_initialized on_ascii) as [_ Hkeys]. rewrite <- Hkeys.
  destruct (dict_get (upper code) Currencies._CURRENCY_REGISTRY)
    as [currency|] eqn:E.
  - split; [exact (registry_keyed_by_code _ _ E)|].
    apply dict_get_in_keys. congruence.
  - split; [reflexivity|]. rewrite <- dict_get_in_keys. congruence.
Qed.

End Registry.

(** The examples are on ASCII text: their builtins are [ascii_builtins]. *)
#[local] Existing Instance ascii_builtins.

Lemma given_rate_is_used_witness :
  Portfolio.get_total_value "USD"
    (Some [("BTC_USD", {| Portfolio.rate_item := Some 60000 |})])
    {| Portfolio._user_id := 1;
       Portfolio._wallets :=
         ([("USD", Wallet.__init__ "USD" 100)]
          ++ [("BTC", Wallet.__init__ "BTC" 2)])%list |}
  = Ok (100 + 2 * 60000).
Proof.
  exact (given_rate_is_used "USD"
           [("BTC_USD", {| Portfolio.rate_item := Some 60000 |})] 1
           [("USD", Wallet.__init__ "USD" 100)] "BTC"
           (Wallet.__init__ "BTC" 2) 60000 eq_refl eq_refl).
Defined.

Lemma unneeded_rates_are_not_read_witness :
  exists total,
    Portfolio.get_total_value "USD"
      (Some [("ETH_USD", {| Portfolio.rate_item := None |})])
      {| Portfolio._user_id := 1;
         Portfolio._wallets := [ ("USD", Wallet.__init__ "USD" 100);
                                 ("BTC", Wallet.__init__ "BTC" 2) ] |}
    = Ok total
    /\ Portfolio.get_total_value "USD" None
         {| Portfolio._user_id := 1;
            Portfolio._wallets := [ ("USD", Wallet.__init__ "USD" 100);
                                    ("BTC", Wallet.__init__ "BTC" 2) ] |}
       = Ok total.
Proof.
  apply unneeded_rates_are_not_read.
  intros currency_code wallet [[= <- <-] | [[= <- <-] | []]] _; reflexivity.
Defined.

Lemma currency_accepted_iff_well_formed_witness :
  (well_formed_code "EUR" && negb (falsy (strip "Euro")) = true ->
   Currencies.Currency__init__ "Euro" "EUR" = Ok ("Euro", "EUR"))
  /\ (forall n c,
        Currencies.Currency__init__ "Euro" "EUR" = Ok (n, c) ->
        well_formed_code "EUR" = true
        /\ falsy (strip "Euro") = false
        /\ n = "Euro" /\ c = "EUR")
  /\ (forall e,
        Currencies.Currency__init__ "Euro" "EUR" = Raise e ->
        is_ValueError e = true).
Proof.
  apply (currency_accepted_iff_well_formed PyFacts.ascii_builtins_faithful).
  reflexivity.
Defined.

Lemma get_currency_by_code_witness :
  Currencies.get_currency (upper "btc") = Currencies.get_currency "btc"
  /\ match Currencies.get_currency "btc" with
     | Ok currency =>
         Currencies.code currency = upper "btc"
         /\ In (upper "btc")
              ["USD"; "EUR"; "RUB"; "GBP"; "JPY"; "BTC"; "ETH"; "LTC"; "ADA"]
     | Raise e =>
         e = CurrencyNotFoundError (upper "btc")
         /\ ~ In (upper "btc")
                ["USD"; "EUR"; "RUB"; "GBP"; "JPY"; "BTC"; "ETH"; "LTC"; "ADA"]
     end.
Proof.
  apply (get_currency_by_code PyFacts.ascii_builtins_upper_idem
           PyFacts.ascii_builtins_faithful).
Defined.

End ModelMore.

(* ================================================================= *)
(** ** Pair keys and the two clients *)

Module ClientsMore.
Import ApiClients RatesUpdater Batch Vocabulary.

Lemma split_not_nil (sep : ascii) (s : string) : split sep s <> [].
Proof.
  destruct s as [|c s]; cbn; [discriminate|].
  destruct (Ascii.eqb c sep); [discriminate|].
  destruct (split sep s); discriminate.
Qed.

Lemma join_cons (sep p : string) (l : list string) :
  l <> [] -> join sep (p :: l) = p ++ sep ++ join sep l.
Proof. destruct l; [contradiction | reflexivity]. Qed.

Lemma join_split (sep : ascii) (s : string) :
  join (String sep EmptyString) (split sep s) = s.
Proof.
  induction s as [|c s IH]; [reflexivity|]. cbn [split].
  pose proof (split_not_nil sep s) as Hne.
  destruct (Ascii.eqb_spec c sep) as [->|Hc].
  - rewrite (join_cons _ _ _ Hne), IH. reflexivity.
  - destruct (split sep s) as [|q qs]; [contradiction|].
    destruct qs as [|q' qs].
    + cbn [join] in IH |- *. now rewrite IH.
    + rewrite join_cons by discriminate.
      rewrite join_cons in IH by discriminate.
      rewrite <- IH. reflexivity.
Qed.

Lemma split_pieces (sep : ascii) (s : string) :
  Forall (fun piece =>
            all_chars (fun c => negb (Ascii.eqb c sep)) piece = true)
         (split sep s).
Proof.
  induction s as [|c s IH]; cbn [split].
  - now repeat constructor.
  - destruct (Ascii.eqb c sep) eqn:Ec.
    + constructor; [reflexivity | exact IH].
    + pose proof (split_not_nil sep s) as Hne.
      destruct (split sep s) as [|q qs]; [contradiction|].
      inversion IH as [|? ? Hq Hqs]; subst. constructor; [|exact Hqs].
      cbn. now rewrite Ec, Hq.
Qed.

Lemma split_clean (sep : ascii) (a : string) :
  all_chars (fun c => negb (Ascii.eqb c sep)) a = true ->
  split sep a = [a].
Proof.
  induction a as [|c a IH]; cbn; [reflexivity|].
  intros H. apply andb_prop in H as [Hc Ha].
  apply negb_true_iff in Hc. now rewrite Hc, (IH Ha).
Qed.

Lemma split_append (sep : ascii) (a b : string) :
  all_chars (fun c => negb (Ascii.eqb c sep)) a = true ->
  split sep (a ++ String sep b) = a :: split sep b.
Proof.
  induction a as [|c a IH]; cbn [append split all_chars].
  - intros _. now rewrite Ascii.eqb_refl.
  - intros H. apply andb_prop in H as [Hc Ha].
    apply negb_true_iff in Hc. now rewrite Hc, (IH Ha).
Qed.

(** [split] and [join] on one separator undo each other: joining the
    pieces of a string gives the string back; there is always a piece, and
    no piece holds the separator. *)
Lemma join_undoes_split :
  forall (sep : ascii) (s : string),
    join (String sep EmptyString) (split sep s) = s
    /\ split sep s <> []
    /\ Forall (fun piece =>
                 all_chars (fun c => negb (Ascii.eqb c sep)) piece
                 = true)
              (split sep s).
Proof.
  intros sep s. split; [apply join_split|].
  split; [apply split_not_nil | apply split_pieces].
Qed.

(** X16: the keys the updater can unpack are the keys the clients build
    from codes without underscore: [from_currency, to_currency =
    pair.split('_')] yields [(a, b)] exactly when the key is [a_b] and
    neither [a] nor [b] holds an underscore. *)
Theorem unpack_pair_iff_built_from_codes :
  forall key a b : string,
    unpack_pair key = Ok (a, b)
    <-> key = a ++ "_" ++ b
        /\ no_underscore a = true /\ no_underscore b = true.
Proof.
  intros key a b. unfold no_underscore. split.
  - unfold unpack_pair. intros H.
    pose proof (join_split "_" key) as Hj.
    pose proof (split_pieces "_" key) as Hp.
    destruct (split "_" key) as [|x [|y [|z l]]]; try discriminate.
    injection H as <- <-. cbn [join] in Hj.
    apply Forall_cons_iff in Hp as [Hx Hp].
    apply Forall_cons_iff in Hp as [Hy _].
    now rewrite <- Hj.
  - intros (-> & Ha & Hb). unfold unpack_pair.
    change (a ++ "_" ++ b) with (a ++ String "_" b).
    now rewrite (split_append _ _ _ Ha), (split_clean _ _ Hb).
Qed.



(** The list of ids is built up to the first code that has none. *)
Lemma lookup_all_first_unmapped (d : dict string) (keys : list string) :
  match find (fun k => negb (dict_contains k d)) keys with
  | Some k => lookup_all d keys = Raise (KeyError k)
  | None => exists vs, lookup_all d keys = Ok vs
  end.
Proof.
  unfold dict_contains.
  induction keys as [|k keys IH]; cbn [find lookup_all]; [eauto|].
  destruct (dict_get k d) as [v|]; cbn [negb]; [|reflexivity].
  destruct (find _ keys) as [k'|].
  - now rewrite IH.
  - destruct IH as (vs & ->). eauto.
Qed.

Lemma coingecko_collect_ok (config : ParserConfig) (data : coingecko_data)
    (codes : list string) (ids : list string) (rates : dict float) :
  lookup_all (CRYPTO_ID_MAP config) codes = Ok ids ->
  exists rates', coingecko_collect config data codes rates = Ok rates'.
Proof.
  revert ids rates. induction codes as [|code codes IH]; intros ids rates; cbn.
  - eauto.
  - destruct (dict_get code (CRYPTO_ID_MAP config)); [|discriminate].
    destruct (lookup_all (CRYPTO_ID_MAP config) codes) as [vs|] eqn:E;
      [|discriminate].
    intros _. eapply IH. reflexivity.
Qed.

(** X18: what stops [CoinGeckoClient.fetch_rates] before it has a body.
    A configured crypto code without an id in [CRYPTO_ID_MAP] makes it raise
    the [KeyError] of the first such code with only the opening line logged,
    whatever the provider would answer.  With an id for every code, a
    request that raises a [RequestException], or a [ValueError] that is
    none, makes it raise [ApiRequestError] with the reason [_make_request]
    gives for that clause, after its opening line, the error line of
    [_make_request] and its own error line. *)
Theorem coingecko_stops_before_a_body :
  forall (config : ParserConfig)
         (requests_get : string -> http_outcome coingecko_data),
    match first_unmapped config with
    | Some code =>
        fetch_rates (CoinGeckoClient config requests_get)
        = (Raise (KeyError code),
           [LogRecord INFO "Получение курсов криптовалют с CoinGecko"])
    | None =>
        exists ids,
          lookup_all (CRYPTO_ID_MAP config) (CRYPTO_CURRENCIES config) = Ok ids
          /\ forall e : string,
               (requests_get (COINGECKO_URL config ++ "?ids=" ++ join "," ids
                              ++ "&vs_currencies=usd") = RequestException e ->
                fetch_rates (CoinGeckoClient config requests_get)
                = (Raise (ApiRequestError ("Сетевая ошибка: " ++ e)),
                   [ LogRecord INFO "Получение курсов криптовалют с CoinGecko";
                     LogRecord ERROR ("Ошибка запроса: " ++ e);
                     LogRecord ERROR "Не удалось получить курсы криптовалют" ]))
               /\ (requests_get (COINGECKO_URL config ++ "?ids="
                                 ++ join "," ids ++ "&vs_currencies=usd")
                   = JsonValueError e ->
                   fetch_rates (CoinGeckoClient config requests_get)
                   = (Raise (ApiRequestError ("Неверный формат ответа: " ++ e)),
                      [ LogRecord INFO
                          "Получение курсов криптовалют с CoinGecko";
                        LogRecord ERROR ("Ошибка парсинга JSON: " ++ e);
                        LogRecord ERROR
                          "Не удалось получить курсы криптовалют" ]))
    end.
Proof.
  intros config requests_get. unfold first_unmapped.
  pose proof (lookup_all_first_unmapped (CRYPTO_ID_MAP config)
                (CRYPTO_CURRENCIES config)) as H.
  cbn [fetch_rates CoinGeckoClient]. unfold CoinGecko_fetch_rates.
  destruct (find _ (CRYPTO_CURRENCIES config)) as [code|].
  - rewrite H. reflexivity.
  - destruct H as (ids & Hids). exists ids. split; [exact Hids|].
    rewrite Hids. intros e.
    unfold Trace.logger, Trace.emit, Trace.pure.
    rewrite !BatchFacts.bind_Ok. cbn beta. unfold _make_request.
    split; intros ->; reflexivity.
Qed.

Lemma length_append (a b : string) :
  String.length (a ++ b) = (String.length a + String.length b)%nat.
Proof. induction a as [|c a IH]; cbn; [reflexivity | now rewrite IH]. Qed.

Lemma append_cancel_r (a b suffix : string) :
  a ++ suffix = b ++ suffix -> a = b.
Proof.
  revert b. induction a as [|c a IH]; intros [|c' b] H; cbn in H.
  - reflexivity.
  - apply (f_equal String.length) in H. cbn in H. rewrite length_append in H. lia.
  - apply (f_equal String.length) in H. cbn in H. rewrite length_append in H. lia.
  - injection H as -> H. now rewrite (IH _ H).
Qed.

Lemma eqb_append_r (a b suffix : string) :
  String.eqb (a ++ suffix) (b ++ suffix) = String.eqb a b.
Proof.
  destruct (String.eqb_spec a b) as [->|Hne].
  - apply String.eqb_refl.
  - apply String.eqb_neq. intros H. apply Hne. exact (append_cancel_r _ _ _ H).
Qed.

Lemma existsb_eqb_in (c : string) (l : list string) :
  existsb (String.eqb c) l = true <-> In c l.
Proof.
  rewrite existsb_exists. split.
  - intros (x & Hin & Hx). apply String.eqb_eq in Hx. now subst.
  - intros H. exists c. split; [exact H | apply String.eqb_refl].
Qed.

Lemma dict_set_keys {V : Type} (k : string) (v : V) (d : dict V) :
  dict_keys (dict_set k v d)
  = if dict_contains k d then dict_keys d else (dict_keys d ++ [k])%list.
Proof.
  unfold dict_contains, dict_keys.
  induction d as [|[k' v'] d IH]; cbn [dict_set dict_get map fst app];
    [reflexivity|].
  destruct (String.eqb k' k) eqn:E; cbn [map fst]; [reflexivity|].
  rewrite IH. now destruct (dict_get k d).
Qed.

Lemma dict_set_wf {V : Type} (k : string) (v : V) (d : dict V) :
  dict_wf d -> dict_wf (dict_set k v d).
Proof.
  unfold dict_wf. rewrite dict_set_keys. unfold dict_contains.
  destruct (dict_get k d) eqn:E; [trivial|].
  intros H. apply NoDup_app; [exact H | repeat constructor; intros [] |].
  intros x Hx [<-|[]]. apply ModelMore.dict_get_in_keys in Hx. congruence.
Qed.

(** What the loop of [ExchangeRateApiClient.fetch_rates] has collected. *)
Lemma exchangerate_collect_spec (config : ParserConfig)
    (conversion_rates : dict float) (currencies : list string)
    (rates : dict float) :
  let collected :=
    exchangerate_collect config conversion_rates currencies rates in
  (dict_wf rates -> dict_wf collected)
  /\ (forall c,
        dict_get (c ++ "_" ++ BASE_CURRENCY config) collected
        = match (if existsb (String.eqb c) currencies
                 then dict_get c conversion_rates else None) with
          | Some rate => Some rate
          | None => dict_get (c ++ "_" ++ BASE_CURRENCY config) rates
          end)
  /\ (forall k, In k (dict_keys collected) ->
                In k (dict_keys rates)
                \/ exists c, In c currencies
                             /\ k = c ++ "_" ++ BASE_CURRENCY config).
Proof.
  revert rates. induction currencies as [|c0 currencies IH]; intros rates;
    cbn [exchangerate_collect existsb].
  - repeat split; auto.
  - set (rates' := match dict_get c0 conversion_rates with
                   | Some rate =>
                       dict_set (c0 ++ "_" ++ BASE_CURRENCY config) rate rates
                   | None => rates
                   end).
    destruct (IH rates') as (Hwf & Hget & Hkeys). repeat split.
    + intros H. apply Hwf. subst rates'.
      destruct (dict_get c0 conversion_rates); [now apply dict_set_wf | exact H].
    + intros c. rewrite Hget. subst rates'.
      destruct (existsb (String.eqb c) currencies) eqn:Ex.
      * rewrite orb_true_r.
        destruct (dict_get c conversion_rates) eqn:Ec; [reflexivity|].
        destruct (dict_get c0 conversion_rates) eqn:E0; [|reflexivity].
        rewrite ModelMore.dict_get_set, eqb_append_r.
        destruct (String.eqb_spec c0 c) as [->|_]; [congruence | reflexivity].
      * rewrite orb_false_r. rewrite (String.eqb_sym c c0).
        destruct (dict_get c0 conversion_rates) eqn:E0.
        -- rewrite ModelMore.dict_get_set, eqb_append_r.
           destruct (String.eqb_spec c0 c) as [->|_].
           ++ now rewrite E0.
           ++ reflexivity.
        -- destruct (String.eqb_spec c0 c) as [->|_]; [now rewrite E0 | reflexivity].
    + intros k Hk. destruct (Hkeys k Hk) as [Hin | (c & Hc & ->)].
      * subst rates'. destruct (dict_get c0 conversion_rates); [|now left].
        rewrite dict_set_keys in Hin.
        destruct (dict_contains _ rates); [now left|].
        apply in_app_or in Hin as [Hin | [<- | []]]; [now left|].
        right. exists c0. split; [now left | reflexivity].
      * right. exists c. split; [now right | reflexivity].
Qed.

(** X19: what [ExchangeRateApiClient.fetch_rates] returns, when it has a
    key, comes from a body whose ["result"] is ["success"]: a mapping
    without repeated keys that holds, for every configured fiat currency,
    under the key [CURRENCY_BASE], the rate the body quotes for it (nothing
    when the body does not quote it), and that has no other keys. *)
Theorem exchangerate_returns_the_quoted_rates :
  forall (config : ParserConfig)
         (requests_get : string -> http_outcome exchangerate_data)
         (key : string) (rates : dict float) (t : list log_record),
    EXCHANGERATE_API_KEY config = Some key ->
    key <> EmptyString ->
    fetch_rates (ExchangeRateApiClient config requests_get) = (Ok rates, t) ->
    exists data,
      requests_get (EXCHANGERATE_API_URL config ++ "/" ++ key ++ "/latest/"
                    ++ BASE_CURRENCY config) = HttpJson data
      /\ result_item data = Some "success"
      /\ dict_wf rates
      /\ (forall c, In c (FIAT_CURRENCIES config) ->
            dict_get (c ++ "_" ++ BASE_CURRENCY config) rates
            = match conversion_rates_item data with
              | Some quoted => dict_get c quoted
              | None => None
              end)
      /\ (forall k, In k (dict_keys rates) ->
            exists c, In c (FIAT_CURRENCIES config)
                      /\ k = c ++ "_" ++ BASE_CURRENCY config).
Proof.
  intros config requests_get key rates t Hkey Hne.
  cbn [fetch_rates ExchangeRateApiClient]. unfold ExchangeRateApi_fetch_rates.
  rewrite Hkey.
  assert (Ht : truthy_str (Some key) = true)
    by (destruct key; [contradiction | reflexivity]).
  rewrite Ht. cbn [negb]. unfold Trace.logger, Trace.emit.
  rewrite BatchFacts.bind_Ok. unfold _make_request.
  destruct (requests_get _) as [data|e|e] eqn:Eg; [|cbn; discriminate..].
  unfold Trace.ret at 1. rewrite BatchFacts.bind_Ok. cbn [fst snd app].
  intros H. exists data. split; [reflexivity|]. revert H.
  assert (Hsucc : result_item data = Some "success"
                  \/ result_item data <> Some "success")
    by (destruct (result_item data) as [s|];
        [destruct (String.eqb_spec s "success") as [->|Hs];
         [now left | right; congruence] | right; discriminate]).
  destruct Hsucc as [Hs|Hs].
  - rewrite Hs. intros H. split; [reflexivity|]. revert H.
    cbn [fst snd Trace.bind Trace.ret try_except_ApiRequestError].
    intros [= <- _].
    set (quoted := match conversion_rates_item data with
                   | Some cr => cr | None => [] end).
    destruct (exchangerate_collect_spec config quoted
                (FIAT_CURRENCIES config) []) as (Hwf & Hget & Hkeys).
    split; [apply Hwf; constructor|]. split.
    + intros c Hc. rewrite Hget.
      apply existsb_eqb_in in Hc. rewrite Hc. subst quoted.
      destruct (conversion_rates_item data) as [cr|]; cbn;
        [now destruct (dict_get c cr) | reflexivity].
    + intros k Hk. destruct (Hkeys k Hk) as [[] | Hc]. exact Hc.
  - intros H. exfalso. revert H.
    destruct (result_item data) as [s|]; [|discriminate].
    repeat match goal with
           | |- context [match ?x with _ => _ end] =>
               destruct x; try discriminate
           end; intros _; now apply Hs.
Qed.

Lemma exchangerate_returns_the_quoted_rates_witness :
  exists data,
    (fun _ : string =>
       HttpJson {| result_item := Some "success";
                   error_type_item := None;
                   conversion_rates_item :=
                     Some [("EUR", 0.5%float); ("JPY", 150%float)] |})
      ("https://v6.exchangerate-api.com/v6" ++ "/" ++ "key" ++ "/latest/"
       ++ "USD") = HttpJson data
    /\ result_item data = Some "success"
    /\ dict_wf [("EUR_USD", 0.5%float)]
    /\ (forall c, In c ["EUR"; "RUB"] ->
          dict_get (c ++ "_" ++ "USD") [("EUR_USD", 0.5%float)]
          = match conversion_rates_item data with
            | Some quoted => dict_get c quoted
            | None => None
            end)
    /\ (forall k, In k (dict_keys [("EUR_USD", 0.5%float)]) ->
          exists c, In c ["EUR"; "RUB"] /\ k = c ++ "_" ++ "USD").
Proof.
  apply (exchangerate_returns_the_quoted_rates
           {| EXCHANGERATE_API_KEY := Some "key";
              COINGECKO_URL := COINGECKO_URL keyless_config;
              EXCHANGERATE_API_URL := "https://v6.exchangerate-api.com/v6";
              BASE_CURRENCY := "USD";
              FIAT_CURRENCIES := ["EUR"; "RUB"];
              CRYPTO_CURRENCIES := ["BTC"];
              CRYPTO_ID_MAP := [("BTC", "bitcoin")];
              REQUEST_TIMEOUT := 10 |}
           (fun _ : string =>
              HttpJson {| result_item := Some "success";
                          error_type_item := None;
                          conversion_rates_item :=
                            Some [("EUR", 0.5%float); ("JPY", 150%float)] |})
           "key" [("EUR_USD", 0.5%float)]
           [ LogRecord INFO "Получение курсов фиатных валют с ExchangeRate-API";
             LogRecord INFO "Получено курсов фиатных валют: 1" ]).
  - reflexivity.
  - discriminate.
  - reflexivity.
Defined.

(** What the loop of [CoinGeckoClient.fetch_rates] has collected. *)
Lemma coingecko_collect_spec (config : ParserConfig) (data : coingecko_data)
    (codes : list string) :
  forall (rates collected : dict float),
    coingecko_collect config data codes rates = Ok collected ->
    (dict_wf rates -> dict_wf collected)
    /\ (forall c,
          dict_get (c ++ "_" ++ BASE_CURRENCY config) collected
          = match (if existsb (String.eqb c) codes
                   then coingecko_quote config data c else None) with
            | Some rate => Some rate
            | None => dict_get (c ++ "_" ++ BASE_CURRENCY config) rates
            end)
    /\ (forall k, In k (dict_keys collected) ->
                  In k (dict_keys rates)
                  \/ exists c, In c codes
                               /\ k = c ++ "_" ++ BASE_CURRENCY config).
Proof.
  induction codes as [|c0 codes IH]; intros rates collected;
    cbn [coingecko_collect existsb].
  - intros [= <-]. repeat split; auto.
  - destruct (dict_get c0 (CRYPTO_ID_MAP config)) as [id|] eqn:Eid;
      [|discriminate].
    set (rates' := match dict_get id data with
                   | Some quotes =>
                       match dict_get "usd" quotes with
                       | Some rate =>
                           dict_set (c0 ++ "_" ++ BASE_CURRENCY config) rate
                             rates
                       | None => rates
                       end
                   | None => rates
                   end).
    intros Hc. destruct (IH rates' collected Hc) as (Hwf & Hget & Hkeys).
    assert (Hq : coingecko_quote config data c0
                 = match dict_get id data with
                   | Some quotes => dict_get "usd" quotes
                   | None => None
                   end)
      by (unfold coingecko_quote; now rewrite Eid).
    assert (Hrates' : rates' = match coingecko_quote config data c0 with
                               | Some rate =>
                                   dict_set (c0 ++ "_" ++ BASE_CURRENCY config)
                                     rate rates
                               | None => rates
                               end).
    { rewrite Hq. subst rates'. destruct (dict_get id data); reflexivity. }
    clearbody rates'. subst rates'. clear Hq. repeat split.
    + intros H. apply Hwf.
      destruct (coingecko_quote config data c0); [now apply dict_set_wf | exact H].
    + intros c. rewrite Hget.
      destruct (existsb (String.eqb c) codes) eqn:Ex.
      * rewrite orb_true_r.
        destruct (coingecko_quote config data c) eqn:Ec; [reflexivity|].
        destruct (coingecko_quote config data c0) eqn:E0; [|reflexivity].
        rewrite ModelMore.dict_get_set, eqb_append_r.
        destruct (String.eqb_spec c0 c) as [->|_]; [congruence | reflexivity].
      * rewrite orb_false_r. rewrite (String.eqb_sym c c0).
        destruct (coingecko_quote config data c0) eqn:E0.
        -- rewrite ModelMore.dict_get_set, eqb_append_r.
           destruct (String.eqb_spec c0 c) as [->|_].
           ++ now rewrite E0.
           ++ reflexivity.
        -- destruct (String.eqb_spec c0 c) as [->|_]; [now rewrite E0 | reflexivity].
    + intros k Hk. destruct (Hkeys k Hk) as [Hin | (c & Hcin & ->)].
      * destruct (coingecko_quote config data c0); [|now left].
        rewrite dict_set_keys in Hin.
        destruct (dict_contains _ rates); [now left|].
        apply in_app_or in Hin as [Hin | [<- | []]]; [now left|].
        right. exists c0. split; [now left | reflexivity].
      * right. exists c. split; [now right | reflexivity].
Qed.

(** X30: what [CoinGeckoClient.fetch_rates] returns comes from the body of
    one request, for the ids of all configured crypto codes joined by
    commas: a mapping without repeated keys that holds, for every configured
    code, under the key [CODE_BASE], the USD quote the body has for the
    code's id (nothing when the body has none), and that has no other
    keys. *)
Theorem coingecko_returns_the_quoted_rates :
  forall (config : ParserConfig)
         (requests_get : string -> http_outcome coingecko_data)
         (rates : dict float) (t : list log_record),
    fetch_rates (CoinGeckoClient config requests_get) = (Ok rates, t) ->
    exists ids data,
      lookup_all (CRYPTO_ID_MAP config) (CRYPTO_CURRENCIES config) = Ok ids
      /\ requests_get (COINGECKO_URL config ++ "?ids=" ++ join "," ids
                       ++ "&vs_currencies=usd") = HttpJson data
      /\ dict_wf rates
      /\ (forall c, In c (CRYPTO_CURRENCIES config) ->
            dict_get (c ++ "_" ++ BASE_CURRENCY config) rates
            = coingecko_quote config data c)
      /\ (forall k, In k (dict_keys rates) ->
            exists c, In c (CRYPTO_CURRENCIES config)
                      /\ k = c ++ "_" ++ BASE_CURRENCY config).
Proof.
  intros config requests_get rates t. cbn [fetch_rates CoinGeckoClient].
  unfold CoinGecko_fetch_rates, Trace.logger, Trace.emit.
  rewrite BatchFacts.bind_Ok. unfold Trace.pure at 1.
  destruct (lookup_all (CRYPTO_ID_MAP config) (CRYPTO_CURRENCIES config))
    as [ids|e0] eqn:El; [|discriminate].
  rewrite BatchFacts.bind_Ok. cbn [fst snd]. unfold _make_request.
  destruct (requests_get _) as [data|e|e] eqn:Eg; [|cbn; discriminate..].
  unfold Trace.ret at 1. rewrite BatchFacts.bind_Ok. cbn [fst snd app].
  destruct (coingecko_collect_ok config data _ _ [] El) as (collected & Hc).
  rewrite Hc. unfold Trace.pure. rewrite BatchFacts.bind_Ok.
  cbn [fst snd Trace.bind Trace.ret try_except_ApiRequestError].
  intros [= <- _]. exists ids, data.
  split; [reflexivity|]. split; [exact Eg|].
  destruct (coingecko_collect_spec config data _ _ _ Hc) as (Hwf & Hget & Hkeys).
  split; [apply Hwf; constructor|]. split.
  - intros c Hin. rewrite Hget. apply existsb_eqb_in in Hin. rewrite Hin.
    now destruct (coingecko_quote config data c).
  - intros k Hk. destruct (Hkeys k Hk) as [[] | H]. exact H.
Qed.

Lemma coingecko_returns_the_quoted_rates_witness :
  exists ids data,
    lookup_all [("BTC", "bitcoin"); ("ETH", "ethereum")] ["BTC"; "ETH"] = Ok ids
    /\ (fun _ : string =>
          HttpJson [("bitcoin", [("usd", 59337.21%float)]);
                    ("ethereum", [("eur", 3000%float)])])
         (COINGECKO_URL keyless_config ++ "?ids=" ++ join "," ids
          ++ "&vs_currencies=usd") = HttpJson data
    /\ dict_wf [("BTC_USD", 59337.21%float)]
    /\ (forall c, In c ["BTC"; "ETH"] ->
          dict_get (c ++ "_" ++ "USD") [("BTC_USD", 59337.21%float)]
          = coingecko_quote keyless_config data c)
    /\ (forall k, In k (dict_keys [("BTC_USD", 59337.21%float)]) ->
          exists c, In c ["BTC"; "ETH"] /\ k = c ++ "_" ++ "USD").
Proof.
  apply (coingecko_returns_the_quoted_rates keyless_config
           (fun _ : string =>
              HttpJson [("bitcoin", [("usd", 59337.21%float)]);
                        ("ethereum", [("eur", 3000%float)])])
           [("BTC_USD", 59337.21%float)]
           [ LogRecord INFO "Получение курсов криптовалют с CoinGecko";
             LogRecord INFO "Получено курсов криптовалют: 1" ]).
  reflexivity.
Defined.

End ClientsMore.

(* ================================================================= *)
(** ** The update batch: one source, two sources, and what gets through *)

Module UpdaterMore.
Import ApiClients RatesUpdater Batch Vocabulary.

Section WithBuiltins.
Context {B : Builtins}.

Lemma storage_calls_history (client_name : string) (rates : dict float) :
  storage_calls (history_of client_name rates) = history_of client_name rates.
Proof.
  unfold history_of. induction rates as [|kv rates IH]; [reflexivity|].
  cbn [flat_map]. rewrite BatchFacts.storage_calls_app, IH.
  now destruct (unpack_pair (fst kv)) as [[f t]|].
Qed.

Lemma storage_calls_log (r : log_record) (l : list event) :
  storage_calls (Log r :: l) = storage_calls l.
Proof. reflexivity. Qed.

Lemma storage_calls_snapshot (rates : dict float) (origin : string)
    (l : list event) :
  storage_calls (SaveCurrentRates rates origin :: l)
  = SaveCurrentRates rates origin :: storage_calls l.
Proof. reflexivity. Qed.

Lemma storage_calls_nil : storage_calls [] = [].
Proof. reflexivity. Qed.

(** Reads the storage calls off a trace of [run_update]. *)
Ltac read_storage_calls :=
  repeat (rewrite BatchFacts.storage_calls_app
          || rewrite BatchFacts.storage_calls_logs
          || rewrite storage_calls_history
          || rewrite storage_calls_log
          || rewrite storage_calls_snapshot
          || rewrite storage_calls_nil);
  cbn [app]; rewrite ?app_nil_r.

Lemma dict_update_get {V : Type} (other d : dict V) (k : string) :
  dict_wf other ->
  dict_get k (dict_update d other)
  = match dict_get k other with
    | Some v => Some v
    | None => dict_get k d
    end.
Proof.
  unfold dict_update, dict_wf. revert d.
  induction other as [|[k0 v0] other IH]; intros d Hwf; cbn; [reflexivity|].
  cbn in Hwf. apply NoDup_cons_iff in Hwf as [Hk0 Hwf].
  rewrite (IH _ Hwf), ModelMore.dict_get_set.
  destruct (String.eqb_spec k0 k) as [->|_]; [|reflexivity].
  destruct (dict_get k other) eqn:E; [|reflexivity].
  exfalso. apply Hk0. apply ModelMore.dict_get_in_keys. congruence.
Qed.

Lemma sources_of_filter (self : RatesUpdater.t) (name : string) :
  name <> EmptyString -> sources_to_update self (Some name) = [name].
Proof.
  intros H. unfold sources_to_update. destruct name; [contradiction | reflexivity].
Qed.

(** X20: a named source restricts the batch to that source.  When it
    returns a non-empty mapping of pairs, [run_update] returns that mapping,
    and its storage calls are one history record for each pair, tagged with
    the upper-cased source name, then one snapshot write of the mapping;
    no other client is asked. *)
Theorem named_source_runs_alone :
  forall (self : RatesUpdater.t) (name : string) (client : BaseApiClient)
         (rates : dict float) (t : list log_record),
    name <> EmptyString ->
    dict_get name (clients self) = Some client ->
    fetch_rates client = (Ok rates, t) ->
    dict_wf rates -> all_pairs rates = true -> rates <> [] ->
    exists trace,
      run_update self (Some name) = (Ok rates, trace)
      /\ storage_calls trace
         = (history_of name rates
            ++ [SaveCurrentRates rates "ParserService"])%list
      /\ List.length (history_of name rates) = List.length rates.
Proof.
  intros self name client rates t Hname Hc Hf Hwf Hpairs Hne.
  rewrite BatchFacts.run_update_unfold, (sources_of_filter _ _ Hname).
  rewrite (BatchFacts.update_loop_returns _ _ _ _ _ _ _ Hc Hf Hpairs).
  rewrite (PyFacts.dict_update_empty _ Hwf). cbn [update_loop fst snd Trace.ret].
  destruct rates as [|kv rates']; [contradiction|].
  eexists. split; [reflexivity|]. split.
  - read_storage_calls. reflexivity.
  - clear - Hpairs. unfold history_of, all_pairs in *.
    induction (kv :: rates') as [|[k r] l IH]; [reflexivity|].
    cbn [forallb fst] in Hpairs. apply andb_prop in Hpairs as [Hk Hl].
    cbn [flat_map fst snd].
    destruct (BatchFacts.unpack_pair_is_pair k Hk) as (a & b & ->).
    cbn. now rewrite (IH Hl).
Qed.

(** X21: when both of two sources return pairs, [run_update] returns the
    first mapping updated with the second: a pair both returned has the
    second source's rate, any other pair the rate of the source that
    returned it.  The storage calls are the history of the first, the
    history of the second, then the snapshot write of the merged mapping
    (none when both mappings are empty). *)
Theorem two_sources_merge_later_wins :
  forall (config : ParserConfig) (name1 name2 : string)
         (client1 client2 : BaseApiClient) (source : option string)
         (rates1 rates2 : dict float),
    truthy_str source = false ->
    String.eqb name1 name2 = false ->
    returns client1 rates1 -> returns client2 rates2 ->
    dict_wf rates1 -> dict_wf rates2 ->
    all_pairs rates1 = true -> all_pairs rates2 = true ->
    exists merged trace,
      run_update {| config := config;
                    clients := [(name1, client1); (name2, client2)] |} source
      = (Ok merged, trace)
      /\ (forall k,
            dict_get k merged
            = match dict_get k rates2 with
              | Some rate => Some rate
              | None => dict_get k rates1
              end)
      /\ storage_calls trace
         = (history_of name1 rates1 ++ history_of name2 rates2
            ++ match merged with
               | [] => []
               | _ :: _ => [SaveCurrentRates merged "ParserService"]
               end)%list.
Proof.
  intros config name1 name2 client1 client2 source rates1 rates2
    Hsrc Hne (t1 & Hf1) (t2 & Hf2) Hwf1 Hwf2 Hp1 Hp2.
  set (self := {| config := config;
                  clients := [(name1, client1); (name2, client2)] |}).
  assert (H1 : dict_get name1 (clients self) = Some client1)
    by (simpl; now rewrite String.eqb_refl).
  assert (H2 : dict_get name2 (clients self) = Some client2)
    by (simpl; now rewrite Hne, String.eqb_refl).
  rewrite BatchFacts.run_update_unfold, (BatchFacts.sources_of_no_filter _ _ Hsrc).
  change (dict_keys (clients self)) with [name1; name2].
  rewrite (BatchFacts.update_loop_returns _ _ _ _ _ _ _ H1 Hf1 Hp1).
  rewrite (BatchFacts.update_loop_returns _ _ _ _ _ _ _ H2 Hf2 Hp2).
  rewrite (PyFacts.dict_update_empty _ Hwf1).
  cbn [update_loop fst snd Trace.ret].
  exists (dict_update rates1 rates2). eexists.
  split; [reflexivity|]. split; [intros k; now apply dict_update_get|].
  read_storage_calls.
  destruct (dict_update rates1 rates2); read_storage_calls;
    rewrite <- ?app_assoc; reflexivity.
Qed.

Lemma unpack_pair_raise (key : string) (e : exn) :
  unpack_pair key = Raise e -> is_ValueError e = true.
Proof.
  unfold unpack_pair.
  destruct (split "_" key) as [|a [|b [|c l]]]; try discriminate;
    now intros [= <-].
Qed.

Lemma unpack_pair_not_pair (key : string) :
  is_pair key = false -> exists e, unpack_pair key = Raise e.
Proof.
  unfold is_pair, unpack_pair.
  destruct (split "_" key) as [|a [|b [|c l]]]; try discriminate; eauto.
Qed.

(** The history loop on a mapping with a key that is no pair: it raises
    [ValueError] at the first such key, after the records of the pairs
    before it. *)
Lemma save_history_not_pairs (client_name : string) (rates : dict float) :
  all_pairs rates = false ->
  exists e t,
    save_history client_name rates = (Raise e, t)
    /\ is_ValueError e = true
    /\ snapshot_writes t = [].
Proof.
  unfold all_pairs. induction rates as [|[key rate] rates IH];
    cbn [forallb save_history fst snd]; [discriminate|].
  destruct (is_pair key) eqn:Hk; cbn [andb].
  - intros Hr. destruct (IH Hr) as (e & t & Hs & He & Ht).
    destruct (BatchFacts.unpack_pair_is_pair key Hk) as (a & b & ->).
    unfold Trace.pure. rewrite BatchFacts.bind_Ok.
    unfold Trace.emit. rewrite BatchFacts.bind_Ok, Hs.
    cbn [fst snd app]. eexists _, _. split; [reflexivity|].
    split; [exact He | exact Ht].
  - intros _. destruct (unpack_pair_not_pair key Hk) as (e & He).
    rewrite He. unfold Trace.pure. rewrite BatchFacts.bind_Raise.
    exists e, []. split; [reflexivity|].
    split; [exact (unpack_pair_raise _ _ He) | reflexivity].
Qed.

(** X22: a key that is no pair stops the batch.  When the first source of
    the working set returns a mapping with such a key, [run_update] raises
    the [ValueError] of the unpacking, asks no later source, and writes no
    snapshot. *)
Theorem key_that_is_no_pair_stops_the_batch :
  forall (self : RatesUpdater.t) (source : option string) (name : string)
         (rest : list string) (client : BaseApiClient) (rates : dict float)
         (t : list log_record),
    sources_to_update self source = name :: rest ->
    dict_get name (clients self) = Some client ->
    fetch_rates client = (Ok rates, t) ->
    all_pairs rates = false ->
    exists e trace,
      run_update self source = (Raise e, trace)
      /\ is_ValueError e = true
      /\ snapshot_writes trace = [].
Proof.
  intros self source name rest client rates t Hsrc Hc Hf Hbad.
  destruct (save_history_not_pairs name rates Hbad) as (e & th & Hs & He & Hth).
  rewrite BatchFacts.run_update_unfold, Hsrc. cbn [update_loop]. rewrite Hc.
  unfold Trace.logged. rewrite Hf. cbn [fst snd].
  rewrite BatchFacts.bind_Ok, Hs, BatchFacts.bind_Raise. cbn [fst snd].
  unfold try_except_ApiRequestError.
  destruct e; try discriminate He. rewrite BatchFacts.bind_Raise.
  eexists _, _. split; [reflexivity|]. split; [reflexivity|].
  change (snapshot_writes (?a :: ?l)) with (snapshot_writes l).
  now rewrite BatchFacts.snapshot_writes_app, BatchFacts.snapshot_writes_logs, Hth.
Qed.

(** X23: only [ApiRequestError] is absorbed.  When the first source of the
    working set raises anything else, [run_update] raises it too, asks no
    later source and makes no storage call. *)
Theorem other_exception_leaves_run_update :
  forall (self : RatesUpdater.t) (source : option string) (name : string)
         (rest : list string) (client : BaseApiClient) (e : exn)
         (t : list log_record),
    sources_to_update self source = name :: rest ->
    dict_get name (clients self) = Some client ->
    fetch_rates client = (Raise e, t) ->
    (forall reason, e <> ApiRequestError reason) ->
    exists trace,
      run_update self source = (Raise e, trace)
      /\ storage_calls trace = [].
Proof.
  intros self source name rest client e t Hsrc Hc Hf He.
  rewrite BatchFacts.run_update_unfold, Hsrc. cbn [update_loop]. rewrite Hc.
  unfold Trace.logged. rewrite Hf. cbn [fst snd].
  rewrite BatchFacts.bind_Raise. unfold try_except_ApiRequestError.
  destruct e; try (now exfalso; eapply He);
    rewrite BatchFacts.bind_Raise;
    (eexists; split; [reflexivity|]);
    read_storage_calls; reflexivity.
Qed.

End WithBuiltins.

(** The examples are on ASCII text: their builtins are [ascii_builtins]. *)
#[local] Existing Instance ascii_builtins.

Lemma named_source_runs_alone_witness :
  exists trace,
    run_update
      {| config := keyless_config;
         clients := [("coingecko", down_client); ("exchangerate", up_client)] |}
      (Some "exchangerate")
    = (Ok three_pairs, trace)
    /\ storage_calls trace
       = (history_of "exchangerate" three_pairs
          ++ [SaveCurrentRates three_pairs "ParserService"])%list
    /\ List.length (history_of "exchangerate" three_pairs)
       = List.length three_pairs.
Proof.
  apply (named_source_runs_alone _ _ up_client _ [LogRecord INFO "3"]);
    try reflexivity; try discriminate.
  unfold dict_wf. simpl. repeat constructor; simpl; intuition discriminate.
Defined.

Lemma two_sources_merge_later_wins_witness :
  exists merged trace,
    run_update
      {| config := keyless_config;
         clients :=
           [ ("first", {| fetch_rates := (Ok [("EUR_USD", 1%float)], []) |});
             ("second", up_client) ] |}
      None
    = (Ok merged, trace)
    /\ (forall k,
          dict_get k merged
          = match dict_get k three_pairs with
            | Some rate => Some rate
            | None => dict_get k [("EUR_USD", 1%float)]
            end)
    /\ storage_calls trace
       = (history_of "first" [("EUR_USD", 1%float)]
          ++ history_of "second" three_pairs
          ++ match merged with
             | [] => []
             | _ :: _ => [SaveCurrentRates merged "ParserService"]
             end)%list.
Proof.
  apply two_sources_merge_later_wins; try reflexivity.
  - exists []. reflexivity.
  - exists [LogRecord INFO "3"]. reflexivity.
  - unfold dict_wf. simpl. repeat constructor; simpl; intuition discriminate.
  - unfold dict_wf. simpl. repeat constructor; simpl; intuition discriminate.
Defined.

Lemma key_that_is_no_pair_stops_the_batch_witness :
  exists e trace,
    run_update
      {| config := keyless_config;
         clients :=
           [ ("first", {| fetch_rates := (Ok [("EURUSD", 1%float)], []) |});
             ("second", up_client) ] |}
      None
    = (Raise e, trace)
    /\ is_ValueError e = true
    /\ snapshot_writes trace = [].
Proof.
  apply (key_that_is_no_pair_stops_the_batch _ None "first" ["second"]
           {| fetch_rates := (Ok [("EURUSD", 1%float)], []) |}
           [("EURUSD", 1%float)] []); reflexivity.
Defined.

Lemma other_exception_leaves_run_update_witness :
  exists trace,
    run_update
      (RatesUpdater.__init__
         {| EXCHANGERATE_API_KEY := None;
            COINGECKO_URL := COINGECKO_URL keyless_config;
            EXCHANGERATE_API_URL := EXCHANGERATE_API_URL keyless_config;
            BASE_CURRENCY := "USD";
            FIAT_CURRENCIES := ["EUR"];
            CRYPTO_CURRENCIES := ["BTC"; "ETH"];
            CRYPTO_ID_MAP := [("BTC", "bitcoin")];
            REQUEST_TIMEOUT := 10 |}
         (fun _ => HttpJson [])
         (fun _ => RequestException "unreachable"))
      None
    = (Raise (KeyError "ETH"), trace)
    /\ storage_calls trace = [].
Proof.
  eapply (other_exception_leaves_run_update _ None "coingecko"
            ["exchangerate"]); try reflexivity.
  discriminate.
Defined.

End UpdaterMore.

(* ================================================================= *)
(** ** Users: registration and login *)

Module UsersMore.
Import Users Vocabulary.

Section WithLibraries.
Context {B : Builtins}.

Variable datetime : Type.
Variable isoformat : datetime -> string.
Variable fromisoformat : string -> result datetime.
Variable sha256_hexdigest : string -> string.

Local Abbreviation register_user :=
  (Users.register_user datetime isoformat sha256_hexdigest).
Local Abbreviation login := (Users.login datetime fromisoformat sha256_hexdigest).
Local Abbreviation login_loop :=
  (Users.login_loop datetime fromisoformat sha256_hexdigest).
Local Abbreviation User_to_dict := (Users.User_to_dict datetime isoformat).
Local Abbreviation User_from_dict := (Users.User_from_dict datetime fromisoformat).
Local Abbreviation verify_password := (Users.verify_password datetime sha256_hexdigest).
Local Abbreviation change_password := (Users.change_password datetime sha256_hexdigest).

Lemma login_loop_skips (username password : string)
    (users_data rest : list user_data) :
  username_taken username users_data = false ->
  login_loop username password (users_data ++ rest)%list
  = login_loop username password rest.
Proof.
  unfold username_taken. induction users_data as [|u users_data IH];
    cbn [existsb app login_loop]; [reflexivity|].
  intros H. apply orb_false_elim in H as [Hu Hrest].
  rewrite Hu. now apply IH.
Qed.

(** What [register_user] does, by outcome. *)
Lemma register_user_cases (username password : string) (user_id : Z)
    (salt : string) (registration_date : datetime) (st : State datetime) :
  match register_user username password user_id salt registration_date st with
  | (Ok user, st') =>
      falsy username || falsy (strip username) = false
      /\ (4 <= len password)%nat
      /\ username_taken username (users_json datetime st) = false
      /\ user = {| _user_id := user_id;
                   _username := username;
                   _hashed_password := sha256_hexdigest (password ++ salt);
                   _salt := salt;
                   _registration_date := registration_date |}
      /\ users_json datetime st'
         = (users_json datetime st ++ [User_to_dict user])%list
      /\ current_user datetime st' = current_user datetime st
      /\ world datetime st'
         = _create_user_portfolio user_id (world datetime st)
  | (Raise e, st') =>
      st' = st
      /\ is_ValueError e = true
      /\ (falsy username || falsy (strip username) = true
          \/ (len password < 4)%nat
          \/ username_taken username (users_json datetime st) = true)
  end.
Proof.
  unfold Users.register_user.
  destruct (falsy username || falsy (strip username)) eqn:Hb.
  - repeat split. now left.
  - destruct (Nat.ltb_spec (len password) 4) as [Hl|Hl].
    + repeat split. right. now left.
    + destruct (username_taken username (users_json datetime st)) eqn:Ht.
      * repeat split. right. now right.
      * repeat split. exact Hl.
Qed.

(** X24: a user who has just registered can log in.  When the date
    survives [isoformat] and [fromisoformat], [login] with the name and the
    password of a successful [register_user] returns that very user and makes
    it the current user, leaving [users.json] and the portfolios alone. *)
Theorem register_then_login :
  forall (username password : string) (user_id : Z) (salt : string)
         (registration_date : datetime) (st st' : State datetime)
         (user : User datetime),
    fromisoformat (isoformat registration_date) = Ok registration_date ->
    register_user username password user_id salt registration_date st
    = (Ok user, st') ->
    login username password st'
    = (Ok user, {| users_json := users_json datetime st';
                   current_user := Some user;
                   world := world datetime st' |}).
Proof.
  intros username password user_id salt registration_date st st' user
    Hdate Hreg.
  pose proof (register_user_cases username password user_id salt
                registration_date st) as H.
  rewrite Hreg in H. destruct H as (_ & _ & Hfree & -> & Husers & _).
  unfold Users.login. rewrite Husers, (login_loop_skips _ _ _ _ Hfree).
  unfold Users.User_to_dict.
  cbn [login_loop ud_username _username _registration_date _salt
         _hashed_password _user_id].
  rewrite String.eqb_refl. unfold Users.User_from_dict.
  cbn [ud_registration_date]. rewrite Hdate.
  unfold Users.verify_password, Users.User_hash_password.
  cbn [_salt _hashed_password ud_salt ud_hashed_password].
  now rewrite String.eqb_refl.
Qed.

(** X25: [register_user] validates first.  It raises exactly when the name
    is empty or strips to nothing, [len] of the password is below 4, or the
    name is taken; what it raises is a [ValueError], and the state is then
    what it was.  When it succeeds it appends one record to [users.json],
    with the digest of password and salt, and does not log anyone in. *)
Theorem register_user_validates_first :
  forall (username password : string) (user_id : Z) (salt : string)
         (registration_date : datetime) (st : State datetime),
    match register_user username password user_id salt registration_date st
    with
    | (Ok user, st') =>
        falsy username || falsy (strip username) = false
        /\ (4 <= len password)%nat
        /\ username_taken username (users_json datetime st) = false
        /\ users_json datetime st'
           = (users_json datetime st
              ++ [{| ud_user_id := user_id;
                     ud_username := username;
                     ud_hashed_password := sha256_hexdigest (password ++ salt);
                     ud_salt := salt;
                     ud_registration_date := isoformat registration_date |}])%list
        /\ current_user datetime st' = current_user datetime st
    | (Raise e, st') =>
        st' = st
        /\ is_ValueError e = true
        /\ (falsy username || falsy (strip username) = true
            \/ (len password < 4)%nat
            \/ username_taken username (users_json datetime st) = true)
    end.
Proof.
  intros username password user_id salt registration_date st.
  pose proof (register_user_cases username password user_id salt
                registration_date st) as H.
  destruct (register_user username password user_id salt registration_date st)
    as [[user|e] st']; [|exact H].
  destruct H as (Hb & Hl & Ht & -> & Hu & Hc & _).
  repeat split; assumption.
Qed.

(** X26: registration keeps user names unique: if no name occurs twice in
    [users.json], none does after [register_user], whatever its outcome. *)
Theorem register_user_keeps_names_unique :
  forall (username password : string) (user_id : Z) (salt : string)
         (registration_date : datetime) (st : State datetime),
    NoDup (usernames (users_json datetime st)) ->
    NoDup (usernames
             (users_json datetime
                (snd (register_user username password user_id salt
                        registration_date st)))).
Proof.
  intros username password user_id salt registration_date st Hnd.
  pose proof (register_user_cases username password user_id salt
                registration_date st) as H.
  destruct (register_user username password user_id salt registration_date st)
    as [[user|e] st']; cbn [snd].
  - destruct H as (_ & _ & Hfree & -> & -> & _).
    unfold usernames. rewrite map_app. cbn [map ud_username Users.User_to_dict
      _username].
    apply NoDup_app; [exact Hnd | repeat constructor; intros [] |].
    intros x Hx [<-|[]]. apply in_map_iff in Hx as (u & Hu & Hin).
    unfold username_taken in Hfree.
    assert (Hex : existsb (fun user => String.eqb (ud_username user) username)
                    (users_json datetime st) = true).
    { apply existsb_exists. exists u. split; [exact Hin|].
      rewrite Hu. apply String.eqb_refl. }
    congruence.
  - destruct H as (-> & _). exact Hnd.
Qed.

Lemma has_portfolio_iff (user_id : Z) (docs : list portfolio_data) :
  existsb (fun portfolio => Z.eqb (pd_user_id portfolio) user_id) docs
  = match PortfolioManager.find_portfolio user_id docs with
    | Some _ => true
    | None => false
    end.
Proof.
  induction docs as [|d docs IH]; cbn; [reflexivity|].
  destruct (Z.eqb (pd_user_id d) user_id); [reflexivity | exact IH].
Qed.

(** X27: registration leaves the new user with a portfolio.  A portfolio
    the store already held for the id is kept as it is; otherwise an empty
    one is appended.  The documents of other ids are untouched, and
    [get_user_portfolio] for the new user then finds a portfolio without
    writing. *)
Theorem register_user_bootstraps_portfolio :
  forall (username password : string) (user_id : Z) (salt : string)
         (registration_date : datetime) (st st' : State datetime)
         (user : User datetime),
    register_user username password user_id salt registration_date st
    = (Ok user, st') ->
    (forall other, other <> user_id ->
       PortfolioManager.find_portfolio other
         (portfolios_json (world datetime st'))
       = PortfolioManager.find_portfolio other
           (portfolios_json (world datetime st)))
    /\ match PortfolioManager.find_portfolio user_id
               (portfolios_json (world datetime st)) with
       | Some _ => world datetime st' = world datetime st
       | None =>
           portfolios_json (world datetime st')
           = (portfolios_json (world datetime st)
              ++ [{| pd_user_id := user_id; pd_wallets := [] |}])%list
       end
    /\ exists p,
         PortfolioManager.get_user_portfolio user_id (world datetime st')
         = (Ok p, world datetime st').
Proof.
  intros username password user_id salt registration_date st st' user Hreg.
  pose proof (register_user_cases username password user_id salt
                registration_date st) as H.
  rewrite Hreg in H. destruct H as (_ & _ & _ & _ & _ & _ & ->).
  unfold _create_user_portfolio. rewrite has_portfolio_iff.
  destruct (PortfolioManager.find_portfolio user_id
              (portfolios_json (world datetime st))) as [doc|] eqn:E.
  - split; [reflexivity|]. split; [reflexivity|].
    eexists. exact (StoreFacts.get_user_portfolio_found _ _ _ E).
  - cbn [portfolios_json]. split; [|split; [reflexivity|]].
    + intros other Hne.
      apply (LedgerMore.find_app_other
               (Portfolio.to_dict (Portfolio.__init__ user_id None))).
      cbn. congruence.
    + eexists. apply StoreFacts.get_user_portfolio_found. cbn [portfolios_json].
      apply (StoreFacts.find_not_replaced
               (Portfolio.to_dict (Portfolio.__init__ user_id None))).
      now apply LedgerMore.replace_absent.
Qed.

Lemma login_loop_ok (username password : string)
    (users_data : list user_data) (user : User datetime) :
  login_loop username password users_data = Ok user ->
  _username datetime user = username
  /\ sha256_hexdigest (password ++ _salt datetime user)
     = _hashed_password datetime user
  /\ exists ud, In ud users_data /\ ud_username ud = username
                /\ User_from_dict ud = Ok user.
Proof.
  induction users_data as [|ud users_data IH]; cbn [login_loop];
    [discriminate|].
  destruct (String.eqb_spec (ud_username ud) username) as [Hu|Hu].
  - destruct (User_from_dict ud) as [u|e] eqn:Ef; [|discriminate].
    destruct (verify_password password u) eqn:Hv; [|discriminate].
    intros [= <-]. split.
    + revert Ef. unfold Users.User_from_dict.
      destruct (fromisoformat _); [|discriminate]. now intros [= <-].
    + split; [now apply String.eqb_eq in Hv|].
      exists ud. split; [now left | now split].
  - intros H. destruct (IH H) as (H1 & H2 & ud' & Hin & H3 & H4).
    split; [exact H1|]. split; [exact H2|].
    exists ud'. split; [now right | now split].
Qed.

Lemma login_loop_unknown (username password : string)
    (users_data : list user_data) :
  username_taken username users_data = false ->
  login_loop username password users_data
  = Raise (ValueError ("Пользователь '" ++ username ++ "' не найден")).
Proof.
  intros H. rewrite <- (app_nil_r users_data).
  now rewrite (login_loop_skips _ _ _ _ H).
Qed.

(** X28: [login] succeeds only on a stored record with that name whose
    digest is the digest of the given password and the stored salt; it then
    sets the current user and changes nothing else.  A failed [login]
    changes nothing at all, and for a name no record has it raises the
    [ValueError] that says the user was not found. *)
Theorem login_checks_the_stored_digest :
  forall (username password : string) (st : State datetime),
    match login username password st with
    | (Ok user, st') =>
        _username datetime user = username
        /\ sha256_hexdigest (password ++ _salt datetime user)
           = _hashed_password datetime user
        /\ (exists ud, In ud (users_json datetime st)
                       /\ ud_username ud = username
                       /\ User_from_dict ud = Ok user)
        /\ st' = {| users_json := users_json datetime st;
                    current_user := Some user;
                    world := world datetime st |}
    | (Raise e, st') =>
        st' = st
        /\ (username_taken username (users_json datetime st) = false ->
            e = ValueError ("Пользователь '" ++ username ++ "' не найден"))
    end.
Proof.
  intros username password st. unfold Users.login.
  destruct (login_loop username password (users_json datetime st))
    as [user|e] eqn:E.
  - destruct (login_loop_ok _ _ _ _ E) as (H1 & H2 & H3). now repeat split.
  - split; [reflexivity|]. intros Hfree.
    rewrite (login_loop_unknown _ _ _ Hfree) in E. congruence.
Qed.

(** X29: after [change_password] the new password verifies.  A password
    whose [len] is 4 or more is accepted and stored as the digest of
    password and new salt, id and name unchanged; a shorter one raises
    [ValueError]. *)
Theorem change_password_then_verify :
  forall (new_password new_salt : string) (user : User datetime),
    match change_password new_password new_salt user with
    | Ok user' =>
        (4 <= len new_password)%nat
        /\ verify_password new_password user' = true
        /\ _salt datetime user' = new_salt
        /\ _user_id datetime user' = _user_id datetime user
        /\ _username datetime user' = _username datetime user
    | Raise e =>
        (len new_password < 4)%nat
        /\ e = ValueError "Пароль должен быть не менее 4 символов"
    end.
Proof.
  intros new_password new_salt user. unfold Users.change_password.
  destruct (Nat.ltb_spec (len new_password) 4) as [Hl|Hl].
  - now split.
  - unfold Users.verify_password. cbn. rewrite String.eqb_refl. now repeat split.
Qed.

End WithLibraries.

(** The examples are on ASCII text: their builtins are [ascii_builtins]. *)
#[local] Existing Instance ascii_builtins.

Lemma register_then_login_witness :
  Users.login iso_date of_iso toy_digest "alice" "secret"
    (snd (Users.register_user iso_date iso_of toy_digest "alice" "secret" 1
            "a1b2c3d4e5f60718" "2024-05-01T10:00:00" empty_state))
  = (Ok {| _user_id := 1;
           _username := "alice";
           _hashed_password := toy_digest ("secret" ++ "a1b2c3d4e5f60718");
           _salt := "a1b2c3d4e5f60718";
           _registration_date := "2024-05-01T10:00:00" |},
     {| users_json :=
          users_json iso_date
            (snd (Users.register_user iso_date iso_of toy_digest "alice"
                    "secret" 1 "a1b2c3d4e5f60718" "2024-05-01T10:00:00"
                    empty_state));
        current_user :=
          Some {| _user_id := 1;
                  _username := "alice";
                  _hashed_password :=
                    toy_digest ("secret" ++ "a1b2c3d4e5f60718");
                  _salt := "a1b2c3d4e5f60718";
                  _registration_date := "2024-05-01T10:00:00" |};
        world :=
          world iso_date
            (snd (Users.register_user iso_date iso_of toy_digest "alice"
                    "secret" 1 "a1b2c3d4e5f60718" "2024-05-01T10:00:00"
                    empty_state)) |}).
Proof.
  apply (register_then_login iso_date iso_of of_iso toy_digest
           "alice" "secret" 1 "a1b2c3d4e5f60718" "2024-05-01T10:00:00"
           empty_state); reflexivity.
Defined.

Lemma register_user_keeps_names_unique_witness :
  NoDup (usernames
           (users_json iso_date
              (snd (Users.register_user iso_date iso_of toy_digest "alice"
                      "secret" 1 "a1b2c3d4e5f60718" "2024-05-01T10:00:00"
                      empty_state)))).
Proof.
  apply register_user_keeps_names_unique. constructor.
Defined.

Lemma register_user_bootstraps_portfolio_witness :
  (forall other, other <> 1%Z ->
     PortfolioManager.find_portfolio other
       (portfolios_json
          (world iso_date
             (snd (Users.register_user iso_date iso_of toy_digest "alice"
                     "secret" 1 "a1b2c3d4e5f60718" "2024-05-01T10:00:00"
                     empty_state))))
     = PortfolioManager.find_portfolio other
         (portfolios_json (world iso_date empty_state)))
  /\ portfolios_json
       (world iso_date
          (snd (Users.register_user iso_date iso_of toy_digest "alice"
                  "secret" 1 "a1b2c3d4e5f60718" "2024-05-01T10:00:00"
                  empty_state)))
     = [{| pd_user_id := 1; pd_wallets := [] |}]
  /\ exists p,
       PortfolioManager.get_user_portfolio 1
         (world iso_date
            (snd (Users.register_user iso_date iso_of toy_digest "alice"
                    "secret" 1 "a1b2c3d4e5f60718" "2024-05-01T10:00:00"
                    empty_state)))
       = (Ok p,
          world iso_date
            (snd (Users.register_user iso_date iso_of toy_digest "alice"
                    "secret" 1 "a1b2c3d4e5f60718" "2024-05-01T10:00:00"
                    empty_state))).
Proof.
  exact (register_user_bootstraps_portfolio iso_date iso_of toy_digest
           "alice" "secret" 1 "a1b2c3d4e5f60718" "2024-05-01T10:00:00"
           empty_state _ _ eq_refl).
Defined.

End UsersMore.

(* ================================================================= *)
(** ** Saving a portfolio *)

Module StoreMore.
Import PortfolioManager Ledger.

Lemma replace_found (doc : portfolio_data) (docs : list portfolio_data) :
  find_portfolio (pd_user_id doc) docs = Some doc ->
  replace_portfolio doc docs = Some docs.
Proof.
  induction docs as [|d docs IH]; cbn; [discriminate|].
  destruct (Z.eqb (pd_user_id d) (pd_user_id doc)).
  - now intros [= ->].
  - intros H. now rewrite (IH H).
Qed.

(** Where the loop of [_save_portfolio] writes: in the place of the first
    document of the user, the documents before and after it staying where
    they are. *)
Lemma replace_in_place (doc : portfolio_data) (docs : list portfolio_data) :
  match find_portfolio (pd_user_id doc) docs with
  | Some old =>
      exists before after,
        docs = (before ++ old :: after)%list
        /\ find_portfolio (pd_user_id doc) before = None
        /\ replace_portfolio doc docs = Some (before ++ doc :: after)%list
  | None => replace_portfolio doc docs = None
  end.
Proof.
  induction docs as [|d docs IH]; cbn [find_portfolio replace_portfolio];
    [reflexivity|].
  destruct (Z.eqb (pd_user_id d) (pd_user_id doc)) eqn:E.
  - exists [], docs. repeat split.
  - destruct (find_portfolio (pd_user_id doc) docs) as [old|].
    + destruct IH as (before & after & -> & Hnone & ->).
      exists (d :: before), after. repeat split.
      cbn [find_portfolio]. now rewrite E.
    + now rewrite IH.
Qed.

(** X15: [_save_portfolio] replaces in place, or appends.  When the store
    has a document of the user, the first such document gives its place to
    the saved portfolio, and the documents before and after it stay where
    they are; when it has none, the saved portfolio goes after the last
    document.  The user's document is then the saved portfolio, every other
    user's document is what it was, nothing is printed, and saving the same
    portfolio again changes nothing. *)
Theorem save_portfolio_upserts :
  forall (p : Portfolio.t) (w : World),
    exists w',
      _save_portfolio p w = (Ok tt, w')
      /\ match find_portfolio (Portfolio.user_id p) (portfolios_json w) with
         | Some old =>
             exists before after,
               portfolios_json w = (before ++ old :: after)%list
               /\ find_portfolio (Portfolio.user_id p) before = None
               /\ portfolios_json w'
                  = (before ++ Portfolio.to_dict p :: after)%list
         | None =>
             portfolios_json w'
             = (portfolios_json w ++ [Portfolio.to_dict p])%list
         end
      /\ find_portfolio (Portfolio.user_id p) (portfolios_json w')
         = Some (Portfolio.to_dict p)
      /\ (forall other, other <> Portfolio.user_id p ->
            find_portfolio other (portfolios_json w')
            = find_portfolio other (portfolios_json w))
      /\ List.length (portfolios_json w')
         = match find_portfolio (Portfolio.user_id p) (portfolios_json w) with
           | Some _ => List.length (portfolios_json w)
           | None => S (List.length (portfolios_json w))
           end
      /\ stdout w' = stdout w
      /\ _save_portfolio p w' = (Ok tt, w').
Proof.
  intros p w. rewrite StoreFacts.save_portfolio_spec. eexists.
  split; [reflexivity|]. cbn [portfolios_json stdout].
  assert (Hshape :
            match find_portfolio (Portfolio.user_id p) (portfolios_json w) with
            | Some old =>
                exists before after,
                  portfolios_json w = (before ++ old :: after)%list
                  /\ find_portfolio (Portfolio.user_id p) before = None
                  /\ saved p (portfolios_json w)
                     = (before ++ Portfolio.to_dict p :: after)%list
            | None =>
                saved p (portfolios_json w)
                = (portfolios_json w ++ [Portfolio.to_dict p])%list
            end).
  { pose proof (replace_in_place (Portfolio.to_dict p) (portfolios_json w))
      as H.
    unfold saved, Portfolio.user_id.
    change (pd_user_id (Portfolio.to_dict p)) with (Portfolio._user_id p) in H.
    destruct (find_portfolio (Portfolio._user_id p) (portfolios_json w))
      as [old|].
    - destruct H as (before & after & H1 & H2 & ->). now exists before, after.
    - now rewrite H. }
  split; [exact Hshape|].
  split; [apply StoreFacts.find_saved|].
  split; [intros other Hne; apply LedgerMore.find_saved_other;
          unfold Portfolio.user_id in Hne; congruence|].
  split.
  - destruct (find_portfolio (Portfolio.user_id p) (portfolios_json w))
      as [old|].
    + destruct Hshape as (before & after & -> & _ & ->).
      rewrite !length_app. reflexivity.
    + rewrite Hshape, length_app. cbn. lia.
  - split; [reflexivity|].
    rewrite StoreFacts.save_portfolio_spec. cbn [portfolios_json stdout].
    do 2 f_equal. unfold saved at 1.
    now rewrite (replace_found (Portfolio.to_dict p) _
                   (StoreFacts.find_saved p (portfolios_json w))).
Qed.

End StoreMore.
